(** * Car wash booking application (app.py): booking lifecycle, history
      ledger, payments and staff assignment.

    The application is a Streamlit script over one SQLite database.  The
    tables become lists of rows in rowid order, the connection [conn]
    becomes the state of a small state-and-exception monad, each SQL
    statement issued through [q(conn, sql, params)] becomes one action of
    that monad, and each button handler of a page becomes a function from
    the stored database and the values of the widgets to an [outcome]. *)

From Stdlib Require Import ZArith List String Ascii Bool Lia PrimFloat.
From Stdlib Require Import Sorted Permutation.
Import ListNotations.
Local Open Scope string_scope.
Local Open Scope list_scope.
Local Open Scope Z_scope.

(** ** Column types *)

(** [role TEXT CHECK(role IN ('Customer','Staff','Admin'))] *)
Inductive role := Customer | Staff | Admin.

(** [status TEXT CHECK(status IN ('Booked','InProgress','Completed','Cancelled'))] *)
Inductive booking_status := Booked | InProgress | Completed | Cancelled.

(** [method TEXT CHECK(method IN ('Cash','Card','Online'))] *)
Inductive pay_method := Cash | Card | Online.

(** [payment_status TEXT CHECK(payment_status IN ('Unpaid','Paid','Partial','Refunded'))] *)
Inductive pay_status := Unpaid | Paid | Partial | Refunded.

(** Timestamps are the strings produced by [now_str()]. *)
Definition timestamp := string.

Definition role_eqb (a b : role) : bool :=
  match a, b with
  | Customer, Customer | Staff, Staff | Admin, Admin => true
  | _, _ => false
  end.

Definition booking_status_eqb (a b : booking_status) : bool :=
  match a, b with
  | Booked, Booked | InProgress, InProgress
  | Completed, Completed | Cancelled, Cancelled => true
  | _, _ => false
  end.

Definition pay_status_eqb (a b : pay_status) : bool :=
  match a, b with
  | Unpaid, Unpaid | Paid, Paid | Partial, Partial | Refunded, Refunded => true
  | _, _ => false
  end.

(** ** Rows of the eight tables created by [init_db] *)

Record user_row := mk_user {
  user_id : Z;
  full_name : string;
  phone : string;
  email : option string;
  password_hash : string;
  user_role : role;
  created_at : timestamp
}.

Record vehicle_row := mk_vehicle {
  vehicle_id : Z;
  v_customer_id : Z;
  plate_no : string;
  make : option string;
  model : option string;
  color : option string;
  vehicle_type : option string
}.

Record package_row := mk_package {
  package_id : Z;
  package_name : string;
  price : float;
  duration_minutes : Z;
  is_active : bool
}.

Record stage_row := mk_stage {
  stage_id : Z;
  stage_name : string;
  stage_order : Z
}.

Record booking_row := mk_booking {
  booking_id : Z;
  b_customer_id : Z;
  b_vehicle_id : Z;
  b_package_id : Z;
  booking_datetime : timestamp;
  scheduled_datetime : option string;
  status : booking_status;
  current_stage_id : option Z;
  notes : option string
}.

Record history_row := mk_history {
  history_id : Z;
  h_booking_id : Z;
  h_stage_id : Z;
  start_time : timestamp;
  end_time : option timestamp;
  updated_by_staff_id : Z
}.

Record assignment_row := mk_assignment {
  a_booking_id : Z;
  a_staff_id : Z;
  assigned_at : timestamp
}.

Record payment_row := mk_payment {
  payment_id : Z;
  p_booking_id : Z;
  amount : float;
  method : pay_method;
  payment_status : pay_status;
  paid_at : option timestamp
}.

(** [sqlite_sequence]: the largest rowid ever handed out, per
    AUTOINCREMENT table. *)
Record sequences := mk_seq {
  seq_users : Z;
  seq_vehicles : Z;
  seq_packages : Z;
  seq_stages : Z;
  seq_bookings : Z;
  seq_history : Z;
  seq_payments : Z
}.

Record database := mk_db {
  users : list user_row;
  vehicles : list vehicle_row;
  packages : list package_row;
  service_stages : list stage_row;
  bookings : list booking_row;
  booking_stage_history : list history_row;
  booking_staff_assignment : list assignment_row;
  payments : list payment_row;
  sqlite_sequence : sequences
}.

Definition empty_db : database :=
  mk_db [] [] [] [] [] [] [] [] (mk_seq 0 0 0 0 0 0 0).

(** ** Exceptions and the connection monad *)

(** The Python exceptions the modelled statements can raise. *)
Inductive py_exn := TypeError | KeyError | IntegrityError.

(** An action on the connection: it either raises, leaving the statement
    without effect, or returns a value and the new contents of the
    tables. *)
Definition M (A : Type) : Type := database -> py_exn + (A * database).

Definition ret {A} (a : A) : M A := fun db => inr (a, db).

Definition raise {A} (e : py_exn) : M A := fun _ => inl e.

Definition bind {A B} (m : M A) (k : A -> M B) : M B :=
  fun db =>
    match m db with
    | inl e => inl e
    | inr (a, db') => k a db'
    end.

Notation "x <- m ;; k" := (bind m (fun x => k))
  (at level 61, m at next level, right associativity).
Notation "m ;;; k" := (bind m (fun _ => k))
  (at level 61, right associativity).

(** [cur.fetchone()[0]]: subscripting [None] raises [TypeError]. *)
Definition fetchone_0 {A} (row : option A) : M A :=
  match row with
  | Some a => ret a
  | None => raise TypeError
  end.

(** [try: m except sqlite3.IntegrityError: pass] *)
Definition try_pass_integrity (m : M unit) : M unit :=
  fun db =>
    match m db with
    | inl IntegrityError => inr (tt, db)
    | r => r
    end.

(** A SELECT: reads the tables and leaves them as they are. *)
Definition query {A} (f : database -> A) : M A := fun db => inr (f db, db).

(** ** Row helpers *)

Definition mem_z (x : Z) (l : list Z) : bool := existsb (Z.eqb x) l.

Definition is_none {A} (o : option A) : bool :=
  match o with None => true | Some _ => false end.

Definition is_nil {A} (l : list A) : bool :=
  match l with [] => true | _ :: _ => false end.

(** [ORDER BY]: a stable insertion sort by the comparison [le]. *)
Fixpoint insert_by {A} (le : A -> A -> bool) (x : A) (l : list A) : list A :=
  match l with
  | [] => [x]
  | y :: l' => if le x y then x :: y :: l' else y :: insert_by le x l'
  end.

Definition order_by {A} (le : A -> A -> bool) (l : list A) : list A :=
  fold_right (insert_by le) [] l.

(** Largest rowid present in a table (0 when it is empty). *)
Definition max_rowid {A} (key : A -> Z) (l : list A) : Z :=
  fold_right (fun r m => Z.max (key r) m) 0 l.

(** [INTEGER PRIMARY KEY AUTOINCREMENT]: one more than the largest rowid
    the table holds or has ever held.  Rowids are unbounded here; the end
    of SQLite's 64-bit rowid space is not represented. *)
Definition next_rowid {A} (key : A -> Z) (l : list A) (seq : Z) : Z :=
  Z.max (max_rowid key l) seq + 1.

(** Text is held as its UTF-8 encoding, one [ascii] per byte, which is how
    SQLite stores and compares it and what [hash_password] hashes.

    [s.strip()] removes at both ends the characters for which
    [str.isspace] holds: U+0009-000D, U+001C-001F, U+0020, U+0085,
    U+00A0, U+1680, U+2000-200A, U+2028, U+2029, U+202F, U+205F and
    U+3000.  In UTF-8 the first ten are one byte, U+0085 and U+00A0 are
    C2 85 and C2 A0, U+1680 is E1 9A 80, U+2000-200A are E2 80 80 to
    E2 80 8A, U+2028, U+2029 and U+202F are E2 80 A8, E2 80 A9 and
    E2 80 AF, U+205F is E2 81 9F and U+3000 is E3 80 80. *)
Definition byte (c : ascii) : Z := Z.of_nat (nat_of_ascii c).

Definition is_space (c : ascii) : bool :=
  let n := byte c in
  ((9 <=? n) && (n <=? 13)) || ((28 <=? n) && (n <=? 32)).

Definition is_space2 (c1 c2 : ascii) : bool :=
  (byte c1 =? 194) && ((byte c2 =? 133) || (byte c2 =? 160)).

Definition is_space3 (c1 c2 c3 : ascii) : bool :=
  ((byte c1 =? 225) && (byte c2 =? 154) && (byte c3 =? 128))
  || ((byte c1 =? 226) && (byte c2 =? 128)
      && (((128 <=? byte c3) && (byte c3 <=? 138))
          || (byte c3 =? 168) || (byte c3 =? 169) || (byte c3 =? 175)))
  || ((byte c1 =? 226) && (byte c2 =? 129) && (byte c3 =? 159))
  || ((byte c1 =? 227) && (byte c2 =? 128) && (byte c3 =? 128)).

(** What follows the first character of the string, when that character
    is whitespace. *)
Definition after_space (s : string) : option string :=
  match s with
  | String c1 s1 =>
      if is_space c1 then Some s1
      else
        match s1 with
        | String c2 s2 =>
            if is_space2 c1 c2 then Some s2
            else
              match s2 with
              | String c3 s3 => if is_space3 c1 c2 c3 then Some s3 else None
              | EmptyString => None
              end
        | EmptyString => None
        end
  | EmptyString => None
  end.

(** [s.lstrip()] *)
Fixpoint lstrip (s : string) : string :=
  match s with
  | String c1 s1 =>
      if is_space c1 then lstrip s1
      else
        match s1 with
        | String c2 s2 =>
            if is_space2 c1 c2 then lstrip s2
            else
              match s2 with
              | String c3 s3 => if is_space3 c1 c2 c3 then lstrip s3 else s
              | EmptyString => s
              end
        | EmptyString => s
        end
  | EmptyString => EmptyString
  end.

(** The string consists of whitespace characters only (or is empty). *)
Fixpoint blank (s : string) : bool :=
  match s with
  | String c1 s1 =>
      if is_space c1 then blank s1
      else
        match s1 with
        | String c2 s2 =>
            if is_space2 c1 c2 then blank s2
            else
              match s2 with
              | String c3 s3 => is_space3 c1 c2 c3 && blank s3
              | EmptyString => false
              end
        | EmptyString => false
        end
  | EmptyString => true
  end.

(** [s.rstrip()]: the string up to where only whitespace follows. *)
Fixpoint rstrip (s : string) : string :=
  match s with
  | String c s' => if blank s then EmptyString else String c (rstrip s')
  | EmptyString => EmptyString
  end.

Definition strip (s : string) : string := rstrip (lstrip s).

(** [s or None]: the empty string is falsy. *)
Definition or_none (s : string) : option string :=
  match s with EmptyString => None | _ => Some s end.

(** [float(x)] of a value read from a REAL column. *)
Definition py_float (x : float) : float := x.

(** ** Table updates *)

Definition with_users (db : database) (l : list user_row) (n : Z) : database :=
  let s := sqlite_sequence db in
  mk_db l (vehicles db) (packages db) (service_stages db) (bookings db)
    (booking_stage_history db) (booking_staff_assignment db) (payments db)
    (mk_seq n (seq_vehicles s) (seq_packages s) (seq_stages s)
       (seq_bookings s) (seq_history s) (seq_payments s)).

Definition with_packages (db : database) (l : list package_row) (n : Z) : database :=
  let s := sqlite_sequence db in
  mk_db (users db) (vehicles db) l (service_stages db) (bookings db)
    (booking_stage_history db) (booking_staff_assignment db) (payments db)
    (mk_seq (seq_users s) (seq_vehicles s) n (seq_stages s)
       (seq_bookings s) (seq_history s) (seq_payments s)).

Definition with_stages (db : database) (l : list stage_row) (n : Z) : database :=
  let s := sqlite_sequence db in
  mk_db (users db) (vehicles db) (packages db) l (bookings db)
    (booking_stage_history db) (booking_staff_assignment db) (payments db)
    (mk_seq (seq_users s) (seq_vehicles s) (seq_packages s) n
       (seq_bookings s) (seq_history s) (seq_payments s)).

Definition with_bookings (db : database) (l : list booking_row) (n : Z) : database :=
  let s := sqlite_sequence db in
  mk_db (users db) (vehicles db) (packages db) (service_stages db) l
    (booking_stage_history db) (booking_staff_assignment db) (payments db)
    (mk_seq (seq_users s) (seq_vehicles s) (seq_packages s) (seq_stages s)
       n (seq_history s) (seq_payments s)).

Definition with_history (db : database) (l : list history_row) (n : Z) : database :=
  let s := sqlite_sequence db in
  mk_db (users db) (vehicles db) (packages db) (service_stages db) (bookings db)
    l (booking_staff_assignment db) (payments db)
    (mk_seq (seq_users s) (seq_vehicles s) (seq_packages s) (seq_stages s)
       (seq_bookings s) n (seq_payments s)).

Definition with_assignments (db : database) (l : list assignment_row) : database :=
  mk_db (users db) (vehicles db) (packages db) (service_stages db) (bookings db)
    (booking_stage_history db) l (payments db) (sqlite_sequence db).

Definition with_payments (db : database) (l : list payment_row) (n : Z) : database :=
  let s := sqlite_sequence db in
  mk_db (users db) (vehicles db) (packages db) (service_stages db) (bookings db)
    (booking_stage_history db) (booking_staff_assignment db) l
    (mk_seq (seq_users s) (seq_vehicles s) (seq_packages s) (seq_stages s)
       (seq_bookings s) (seq_history s) n).

(** ** Foreign-key targets *)

Definition has_user (db : database) (u : Z) : bool :=
  mem_z u (map user_id (users db)).

Definition has_vehicle (db : database) (v : Z) : bool :=
  mem_z v (map vehicle_id (vehicles db)).

Definition has_package (db : database) (p : Z) : bool :=
  mem_z p (map package_id (packages db)).

Definition has_stage (db : database) (s : Z) : bool :=
  mem_z s (map stage_id (service_stages db)).

Definition has_booking (db : database) (b : Z) : bool :=
  mem_z b (map booking_id (bookings db)).

(** ** The SELECT statements *)

(** [SELECT stage_id, stage_name FROM service_stages ORDER BY stage_order] *)
Definition get_stage_list (db : database) : list (Z * string) :=
  map (fun s => (stage_id s, stage_name s))
    (order_by (fun a b => stage_order a <=? stage_order b) (service_stages db)).

(** [SELECT ... FROM packages WHERE is_active=1 ORDER BY price] *)
Definition get_active_packages (db : database) : list package_row :=
  order_by (fun a b => PrimFloat.leb (price a) (price b))
    (filter is_active (packages db)).

(** [SELECT ... FROM vehicles WHERE customer_id=? ORDER BY vehicle_id DESC] *)
Definition select_vehicles_of (db : database) (user : Z) : list vehicle_row :=
  order_by (fun a b => vehicle_id b <=? vehicle_id a)
    (filter (fun v => v_customer_id v =? user) (vehicles db)).

(** [SELECT stage_id FROM service_stages ORDER BY stage_order LIMIT 1],
    [fetchone()] *)
Definition select_first_stage (db : database) : option Z :=
  hd_error (map stage_id
    (order_by (fun a b => stage_order a <=? stage_order b) (service_stages db))).

Definition find_package (db : database) (p : Z) : option package_row :=
  find (fun r => package_id r =? p) (packages db).

(** [SELECT price FROM packages WHERE package_id=?], [fetchone()] *)
Definition select_package_price (db : database) (p : Z) : option float :=
  option_map price (find_package db p).

Definition find_booking (db : database) (b : Z) : option booking_row :=
  find (fun r => booking_id r =? b) (bookings db).

(** [SELECT current_stage_id, status FROM bookings WHERE booking_id=?],
    [fetchone()] *)
Definition select_current (db : database) (b : Z)
  : option (option Z * booking_status) :=
  option_map (fun r => (current_stage_id r, status r)) (find_booking db b).

Definition find_stage (db : database) (s : Z) : option stage_row :=
  find (fun r => stage_id r =? s) (service_stages db).

(** [SELECT stage_order FROM service_stages WHERE stage_id=?], [fetchone()] *)
Definition select_stage_order (db : database) (s : Z) : option Z :=
  option_map stage_order (find_stage db s).

(** [SELECT MAX(stage_order) FROM service_stages]: NULL on an empty table. *)
Definition select_max_stage_order (db : database) : option Z :=
  match service_stages db with
  | [] => None
  | s :: l => Some (fold_left (fun m r => Z.max m (stage_order r)) l (stage_order s))
  end.

Definition is_active_status (s : booking_status) : bool :=
  match s with Booked | InProgress => true | _ => false end.

(** [SELECT booking_id FROM bookings WHERE status IN ('Booked','InProgress')
    ORDER BY booking_id ASC] *)
Definition select_active_booking_ids (db : database) : list Z :=
  map booking_id
    (order_by (fun a b => booking_id a <=? booking_id b)
       (filter (fun b => is_active_status (status b)) (bookings db))).

(** [SELECT booking_id FROM bookings ORDER BY booking_id DESC] *)
Definition select_booking_ids_desc (db : database) : list Z :=
  map booking_id
    (order_by (fun a b => booking_id b <=? booking_id a) (bookings db)).

Definition is_staff_role (r : role) : bool :=
  match r with Staff | Admin => true | Customer => false end.

(** [SELECT user_id, full_name, role FROM users WHERE role IN
    ('Staff','Admin') ORDER BY full_name] *)
Definition select_staff_rows (db : database) : list user_row :=
  order_by (fun a b => String.leb (full_name a) (full_name b))
    (filter (fun u => is_staff_role (user_role u)) (users db)).

Definition find_payment (db : database) (b : Z) : option payment_row :=
  find (fun r => p_booking_id r =? b) (payments db).

(** ** The INSERT and UPDATE statements

    A statement that violates a UNIQUE, PRIMARY KEY, CHECK or FOREIGN KEY
    constraint ([PRAGMA foreign_keys = ON]) raises [sqlite3.IntegrityError]
    and changes nothing. *)

Definition opt_string_eqb (a b : option string) : bool :=
  match a, b with
  | Some x, Some y => String.eqb x y
  | _, _ => false
  end.

(** [INSERT INTO users(full_name, phone, email, password_hash, role,
    created_at)] *)
Definition insert_user (nm ph : string) (em : option string) (pw : string)
    (rl : role) (created : timestamp) : M Z :=
  fun db =>
    if existsb (fun u => String.eqb (phone u) ph) (users db)
       || existsb (fun u => opt_string_eqb (email u) em) (users db)
    then inl IntegrityError
    else
      let rid := next_rowid user_id (users db) (seq_users (sqlite_sequence db)) in
      inr (rid, with_users db (users db ++ [mk_user rid nm ph em pw rl created]) rid).

(** [INSERT INTO packages(package_name, price, duration_minutes, is_active)] *)
Definition insert_package (nm : string) (pr : float) (dur : Z) (act : bool) : M Z :=
  fun db =>
    if existsb (fun p => String.eqb (package_name p) nm) (packages db)
       || negb (PrimFloat.leb 0%float pr)
       || negb (0 <? dur)
    then inl IntegrityError
    else
      let rid := next_rowid package_id (packages db) (seq_packages (sqlite_sequence db)) in
      inr (rid, with_packages db (packages db ++ [mk_package rid nm pr dur act]) rid).

(** [INSERT INTO service_stages(stage_name, stage_order)] *)
Definition insert_stage (nm : string) (ord : Z) : M Z :=
  fun db =>
    if existsb (fun s => String.eqb (stage_name s) nm) (service_stages db)
       || existsb (fun s => stage_order s =? ord) (service_stages db)
       || negb (0 <? ord)
    then inl IntegrityError
    else
      let rid := next_rowid stage_id (service_stages db) (seq_stages (sqlite_sequence db)) in
      inr (rid, with_stages db (service_stages db ++ [mk_stage rid nm ord]) rid).

(** [INSERT INTO bookings(customer_id, vehicle_id, package_id,
    booking_datetime, scheduled_datetime, status, current_stage_id, notes)];
    the value returned is what [SELECT last_insert_rowid()] reads next. *)
Definition insert_booking (cust veh pkg : Z) (bdt : timestamp)
    (sched : option string) (st : booking_status) (cs : option Z)
    (nt : option string) : M Z :=
  fun db =>
    if has_user db cust && has_vehicle db veh && has_package db pkg
       && match cs with Some s => has_stage db s | None => true end
    then
      let rid := next_rowid booking_id (bookings db) (seq_bookings (sqlite_sequence db)) in
      inr (rid, with_bookings db
                  (bookings db ++ [mk_booking rid cust veh pkg bdt sched st cs nt]) rid)
    else inl IntegrityError.

(** [INSERT INTO payments(booking_id, amount, method, payment_status,
    paid_at)] *)
Definition insert_payment (bid : Z) (amt : float) (m : pay_method)
    (ps : pay_status) (pa : option timestamp) : M Z :=
  fun db =>
    if has_booking db bid
       && negb (mem_z bid (map p_booking_id (payments db)))
       && PrimFloat.leb 0%float amt
    then
      let rid := next_rowid payment_id (payments db) (seq_payments (sqlite_sequence db)) in
      inr (rid, with_payments db (payments db ++ [mk_payment rid bid amt m ps pa]) rid)
    else inl IntegrityError.

Definition set_end_time (h : history_row) (t : option timestamp) : history_row :=
  mk_history (history_id h) (h_booking_id h) (h_stage_id h) (start_time h) t
    (updated_by_staff_id h).

(** The WHERE clause [booking_id=? AND stage_id=? AND end_time IS NULL]. *)
Definition open_at (bid sid : Z) (h : history_row) : bool :=
  (h_booking_id h =? bid) && (h_stage_id h =? sid) && is_none (end_time h).

(** [UPDATE booking_stage_history SET end_time=? WHERE booking_id=? AND
    stage_id=? AND end_time IS NULL] *)
Definition close_history (t : timestamp) (bid sid : Z) : M unit :=
  fun db =>
    inr (tt, with_history db
               (map (fun h => if open_at bid sid h then set_end_time h (Some t) else h)
                  (booking_stage_history db))
               (seq_history (sqlite_sequence db))).

Definition set_stage_status (b : booking_row) (sid : Z) (st : booking_status)
  : booking_row :=
  mk_booking (booking_id b) (b_customer_id b) (b_vehicle_id b) (b_package_id b)
    (booking_datetime b) (scheduled_datetime b) st (Some sid) (notes b).

(** [UPDATE bookings SET current_stage_id=?, status=? WHERE booking_id=?] *)
Definition update_booking (sid : Z) (st : booking_status) (bid : Z) : M unit :=
  fun db =>
    if has_booking db bid && negb (has_stage db sid)
    then inl IntegrityError
    else
      inr (tt, with_bookings db
                 (map (fun b => if booking_id b =? bid then set_stage_status b sid st else b)
                    (bookings db))
                 (seq_bookings (sqlite_sequence db))).

(** [INSERT INTO booking_stage_history(booking_id, stage_id, start_time,
    end_time, updated_by_staff_id)] *)
Definition insert_history (bid sid : Z) (t0 : timestamp) (t1 : option timestamp)
    (staff : Z) : M Z :=
  fun db =>
    if has_booking db bid && has_stage db sid && has_user db staff
    then
      let rid := next_rowid history_id (booking_stage_history db)
                   (seq_history (sqlite_sequence db)) in
      inr (rid, with_history db
                  (booking_stage_history db ++ [mk_history rid bid sid t0 t1 staff]) rid)
    else inl IntegrityError.

Definition assigned (bid sid : Z) (a : assignment_row) : bool :=
  (a_booking_id a =? bid) && (a_staff_id a =? sid).

(** [INSERT INTO booking_staff_assignment(booking_id, staff_id,
    assigned_at)] *)
Definition insert_assignment (bid sid : Z) (t : timestamp) : M unit :=
  fun db =>
    if negb (existsb (assigned bid sid) (booking_staff_assignment db))
       && has_booking db bid && has_user db sid
    then inr (tt, with_assignments db
                    (booking_staff_assignment db ++ [mk_assignment bid sid t]))
    else inl IntegrityError.

Definition set_payment (p : payment_row) (m : pay_method) (ps : pay_status)
    (pa : option timestamp) : payment_row :=
  mk_payment (payment_id p) (p_booking_id p) (amount p) m ps pa.

(** [UPDATE payments SET method=?, payment_status=?, paid_at=? WHERE
    booking_id=?] *)
Definition update_payment (m : pay_method) (ps : pay_status)
    (pa : option timestamp) (bid : Z) : M unit :=
  fun db =>
    inr (tt, with_payments db
               (map (fun p => if p_booking_id p =? bid then set_payment p m ps pa else p)
                  (payments db))
               (seq_payments (sqlite_sequence db))).

(** [cur.executemany(sql, rows)] *)
Fixpoint executemany {A B} (stmt : A -> M B) (rows : list A) : M unit :=
  match rows with
  | [] => ret tt
  | r :: rows' => stmt r ;;; executemany stmt rows'
  end.

(** ** init_db: the seeds *)

(** [hash_password("admin123")]: the SHA-256 hex digest of the literal. *)
Definition admin_password_hash : string :=
  "240be518fabd2724ddb6f04eeb1da5967448d7e831c08c8fa822809f74c720a9".

Definition seed_stages : list (string * Z) :=
  [("Washing", 1); ("Drying", 2); ("Polishing", 3); ("Completed", 4)].

Definition seed_packages : list (string * float * Z * bool) :=
  [("Basic Wash", 500%float, 20, true);
   ("Standard Wash", 800%float, 35, true);
   ("Premium Wash", 1200%float, 50, true)].

(** The tables exist from the start, so the CREATE TABLE IF NOT EXISTS
    statements change nothing; what remains of [init_db] is the seeding of
    an empty stage table, an empty package table and a missing admin. *)
Definition init_db (now : timestamp) : M unit :=
  n_stages <- query (fun db => Z.of_nat (List.length (service_stages db))) ;;
  (if n_stages =? 0
   then executemany (fun r => insert_stage (fst r) (snd r)) seed_stages
   else ret tt) ;;;
  n_pkgs <- query (fun db => Z.of_nat (List.length (packages db))) ;;
  (if n_pkgs =? 0
   then executemany
          (fun r => match r with (nm, pr, dur, act) => insert_package nm pr dur act end)
          seed_packages
   else ret tt) ;;;
  n_admin <- query (fun db =>
    Z.of_nat (List.length (filter (fun u => role_eqb (user_role u) Admin) (users db)))) ;;
  (if n_admin =? 0
   then insert_user "Admin" "0300-0000000" (Some "admin@carwash.local")
          admin_password_hash Admin now ;;; ret tt
   else ret tt).

(** ** Page outcomes *)

Inductive level := Info | Warning.

(** What one run of a page does to the stored database:
    - [Committed a db']: the handler reached [conn.commit()];
    - [Notice l msg]: the page showed [st.info]/[st.warning] and wrote nothing;
    - [NotOffered]: the widgets of the page cannot deliver this selection
      ([st.selectbox] and [st.multiselect] return members of their option
      lists), so the handler does not run;
    - [Uncaught e]: an exception left the script before [conn.commit()], so
      the open transaction is dropped with the connection. *)
Inductive outcome (A : Type) :=
| Committed (a : A) (db' : database)
| Notice (l : level) (msg : string)
| NotOffered
| Uncaught (e : py_exn).

Arguments Committed {A} a db'.
Arguments Notice {A} l msg.
Arguments NotOffered {A}.
Arguments Uncaught {A} e.

(** Run a handler on the stored database up to its [conn.commit()]. *)
Definition commit {A} (m : M A) (db : database) : outcome A :=
  match m db with
  | inl e => Uncaught e
  | inr (a, db') => Committed a db'
  end.

(** The stored database after a run. *)
Definition db_after {A} (db : database) (o : outcome A) : database :=
  match o with
  | Committed _ db' => db'
  | _ => db
  end.

(** ** page_customer_dashboard: the "Create Booking" button *)

(** The body of [if st.button("Create Booking"):] up to the commit. *)
Definition create_booking_click (user vehicle package : Z)
    (scheduled notes_in : string) (now : timestamp) : M Z :=
  first_stage_id <- (r <- query select_first_stage ;; fetchone_0 r) ;;
  bid <- insert_booking user vehicle package now (or_none (strip scheduled))
           Booked (Some first_stage_id) (or_none (strip notes_in)) ;;
  pkg_price <- (r <- query (fun db => select_package_price db package) ;;
                fetchone_0 r) ;;
  insert_payment bid (py_float pkg_price) Cash Unpaid None ;;;
  ret bid.

(** The page up to and including the button.  [vehicle_map] and [pkg_map]
    send each label to the id of the row it was built from, and a label
    names its row (plate number and id, package name), so the two select
    boxes are taken to deliver the id of one of the listed rows. *)
Definition page_customer_dashboard (db : database) (user : Z)
    (vehicle_choice pkg_choice : Z) (scheduled notes_in : string)
    (now : timestamp) : outcome Z :=
  let vehicles_ := select_vehicles_of db user in
  let pkgs := get_active_packages db in
  if is_nil vehicles_ then Notice Warning "Add a vehicle first to create a booking."
  else if is_nil pkgs then Notice Warning "No packages available."
  else if negb (mem_z vehicle_choice (map vehicle_id vehicles_)) then NotOffered
  else if negb (mem_z pkg_choice (map package_id pkgs)) then NotOffered
  else commit (create_booking_click user vehicle_choice pkg_choice scheduled
                 notes_in now) db.

(** ** page_staff_dashboard: the "Update Stage" button *)

(** A Python dict from stage names to stage ids: keys in order of first
    insertion, a later value replacing an earlier one. *)
Definition dict := list (string * Z).

Fixpoint dict_set (d : dict) (k : string) (v : Z) : dict :=
  match d with
  | [] => [(k, v)]
  | (k', v') :: d' =>
      if String.eqb k' k then (k', v) :: d' else (k', v') :: dict_set d' k v
  end.

Definition dict_get (d : dict) (k : string) : option Z :=
  option_map snd (find (fun e => String.eqb (fst e) k) d).

Definition dict_keys (d : dict) : list string := map fst d.

(** [d[k]] *)
Definition dict_getitem (d : dict) (k : string) : M Z :=
  match dict_get d k with
  | Some v => ret v
  | None => raise KeyError
  end.

(** [{name: sid for sid, name in stages}] *)
Definition stage_map_of (stages : list (Z * string)) : dict :=
  fold_left (fun d r => dict_set d (snd r) (fst r)) stages [].

Definition mem_string (x : string) (l : list string) : bool :=
  existsb (String.eqb x) l.

(** [stage_order == max_order], the right side being NULL on an empty
    stage table. *)
Definition order_is_max (stage_order_ : Z) (max_order : option Z) : bool :=
  match max_order with
  | Some m => stage_order_ =? m
  | None => false
  end.

(** The body of [if st.button("Update Stage"):] up to the commit. *)
Definition update_stage_click (bid : Z) (current_stage : option Z)
    (stage_map : dict) (new_stage_name : string) (end_prev : bool)
    (staff : Z) (t_end t_start : timestamp) : M unit :=
  (match current_stage with
   | Some cs => if end_prev then close_history t_end bid cs else ret tt
   | None => ret tt
   end) ;;;
  new_stage_id <- dict_getitem stage_map new_stage_name ;;
  stage_order_ <- (r <- query (fun db => select_stage_order db new_stage_id) ;;
                   fetchone_0 r) ;;
  max_order <- query select_max_stage_order ;;
  let new_booking_status :=
    if order_is_max stage_order_ max_order then Completed else InProgress in
  update_booking new_stage_id new_booking_status bid ;;;
  insert_history bid new_stage_id t_start None staff ;;;
  ret tt.

(** Tab "Update Stages" up to and including the button. *)
Definition page_staff_dashboard_update_stage (db : database) (staff bid : Z)
    (new_stage_name : string) (end_prev : bool) (t_end t_start : timestamp)
    : outcome unit :=
  let booking_ids := select_active_booking_ids db in
  if is_nil booking_ids then Notice Info "No bookings to update."
  else if negb (mem_z bid booking_ids) then NotOffered
  else
    let stage_map := stage_map_of (get_stage_list db) in
    let stage_names := dict_keys stage_map in
    match select_current db bid with
    | None => Uncaught TypeError
    | Some (current_stage, _) =>
        if is_nil stage_names
        then (* the select box over no options gives None; stage_map[None] *)
          Uncaught KeyError
        else if negb (mem_string new_stage_name stage_names) then NotOffered
        else commit (update_stage_click bid current_stage stage_map new_stage_name
                       end_prev staff t_end t_start) db
    end.

(** ** page_staff_dashboard: the "Save Assignment" button *)

(** The loop over [chosen_staff]; each chosen label is given by the staff id
    it maps to (the label carries that id) and the time [now_str()] returns
    in its iteration. *)
Fixpoint save_assignment_click (bsel : Z) (chosen : list (Z * timestamp)) : M unit :=
  match chosen with
  | [] => ret tt
  | (sid, t) :: rest =>
      try_pass_integrity (insert_assignment bsel sid t) ;;;
      save_assignment_click bsel rest
  end.

(** The guard [if bsel and staff_rows:] of the tab "Assignments". *)
Definition assignments_tab_shown (db : database) (bsel : Z) : bool :=
  negb (bsel =? 0) && negb (is_nil (select_staff_rows db)).

Definition page_staff_dashboard_save_assignment (db : database) (bsel : Z)
    (chosen : list (Z * timestamp)) : outcome unit :=
  let booking_ids := select_booking_ids_desc db in
  if is_nil booking_ids then Notice Info "No bookings exist yet."
  else if negb (mem_z bsel booking_ids) then NotOffered
  else if negb (assignments_tab_shown db bsel) then NotOffered
  else if negb (forallb (fun c => mem_z (fst c) (map user_id (select_staff_rows db)))
                  chosen)
  then NotOffered
  else commit (save_assignment_click bsel chosen) db.

(** ** page_staff_dashboard: the "Update Payment" button *)

Definition paid_time_of (new_status : pay_status) (now : timestamp)
  : option timestamp :=
  if pay_status_eqb new_status Paid then Some now else None.

Definition page_staff_dashboard_update_payment (db : database) (bsel : Z)
    (new_method : pay_method) (new_status : pay_status) (now : timestamp)
    : outcome unit :=
  let booking_ids := select_booking_ids_desc db in
  if is_nil booking_ids then Notice Info "No bookings exist yet."
  else if negb (mem_z bsel booking_ids) then NotOffered
  else if negb (assignments_tab_shown db bsel) then NotOffered
  else
    match find_payment db bsel with
    | Some _ =>
        commit (update_payment new_method new_status
                  (paid_time_of new_status now) bsel) db
    | None => Notice Warning "No payment row found for this booking."
    end.

(** ** main: one run of the script *)

(** [st.session_state["user"]] *)
Record session := mk_session { s_user_id : Z; s_role : role }.

(** The button pressed in a run, with the values of the widgets around it. *)
Inductive click :=
| CreateBooking (vehicle_choice pkg_choice : Z) (scheduled notes_in : string)
    (now : timestamp)
| UpdateStage (bid : Z) (new_stage_name : string) (end_prev : bool)
    (t_end t_start : timestamp)
| SaveAssignment (bsel : Z) (chosen : list (Z * timestamp))
| UpdatePayment (bsel : Z) (new_method : pay_method) (new_status : pay_status)
    (now : timestamp).

(** The page [main] shows for the role in the session, applied to the
    button; a button of the other role's page is not on the page. *)
Definition page (db : database) (u : session) (c : click) : database :=
  match s_role u, c with
  | Customer, CreateBooking v p sch nt now =>
      db_after db (page_customer_dashboard db (s_user_id u) v p sch nt now)
  | Customer, _ => db
  | _, CreateBooking _ _ _ _ _ => db
  | _, UpdateStage bid nm ep t1 t2 =>
      db_after db (page_staff_dashboard_update_stage db (s_user_id u) bid nm ep t1 t2)
  | _, SaveAssignment bsel chosen =>
      db_after db (page_staff_dashboard_save_assignment db bsel chosen)
  | _, UpdatePayment bsel m s now =>
      db_after db (page_staff_dashboard_update_payment db bsel m s now)
  end.

(** [init_db()] commits its seeds on its own before the page runs; if it
    raises, the run ends there with nothing written. *)
Definition main (db : database) (t0 : timestamp) (u : session) (c : click)
  : database :=
  match init_db t0 db with
  | inl _ => db
  | inr (_, db1) => page db1 u c
  end.

(** A sequence of runs. *)
Definition runs (db : database) (l : list (timestamp * session * click))
  : database :=
  fold_left (fun d r => match r with (t0, u, c) => main d t0 u c end) l db.

(** ** The forms with their own error handling

    "Save Vehicle", "Create Package", "Create User" and the registration
    wrap their INSERT in [try ... except sqlite3.IntegrityError as e] and
    show [st.error] with a fixed prefix followed by the text of the
    exception; the prefix is kept, the text of the exception is not
    represented. *)

Definition with_vehicles (db : database) (l : list vehicle_row) (n : Z) : database :=
  let s := sqlite_sequence db in
  mk_db (users db) l (packages db) (service_stages db) (bookings db)
    (booking_stage_history db) (booking_staff_assignment db) (payments db)
    (mk_seq (seq_users s) n (seq_packages s) (seq_stages s)
       (seq_bookings s) (seq_history s) (seq_payments s)).

(** [INSERT INTO vehicles(customer_id, plate_no, make, model, color,
    vehicle_type)] *)
Definition insert_vehicle (cust : Z) (plate : string)
    (mk md cl vt : option string) : M Z :=
  fun db =>
    if existsb (fun v => String.eqb (plate_no v) plate) (vehicles db)
       || negb (has_user db cust)
    then inl IntegrityError
    else
      let rid := next_rowid vehicle_id (vehicles db) (seq_vehicles (sqlite_sequence db)) in
      inr (rid, with_vehicles db
                  (vehicles db ++ [mk_vehicle rid cust plate mk md cl vt]) rid).

(** What such a form does to the stored database:
    - [Saved db']: the INSERT went through and was committed;
    - [Rejected msg]: [st.error(msg ...)], nothing written;
    - [Unavailable]: the widgets cannot deliver these values;
    - [Crashed e]: an exception other than the one handled left the script. *)
Inductive form_result :=
| Saved (db' : database)
| Rejected (msg : string)
| Unavailable
| Crashed (e : py_exn).

(** Run an INSERT under [try ... except sqlite3.IntegrityError as e:
    st.error(prefix + str(e))]. *)
Definition try_form {A} (m : M A) (prefix : string) (db : database) : form_result :=
  match m db with
  | inr (_, db') => Saved db'
  | inl IntegrityError => Rejected prefix
  | inl e => Crashed e
  end.

Definition form_after (db : database) (r : form_result) : database :=
  match r with
  | Saved db' => db'
  | _ => db
  end.

(** [if st.button("Save Vehicle"):] of page_customer_dashboard *)
Definition page_customer_dashboard_save_vehicle (db : database) (user : Z)
    (plate mk md cl vt : string) : form_result :=
  try_form
    (insert_vehicle user (strip plate) (or_none (strip mk)) (or_none (strip md))
       (or_none (strip cl)) (or_none (strip vt)))
    "Could not add vehicle: " db.

(** [if st.button("Create Package"):] of page_staff_dashboard;
    [st.number_input] delivers a price of at least 0.0 and a duration of at
    least 1, and [float(pr)], [int(dm)] leave them as they are. *)
Definition page_staff_dashboard_create_package (db : database) (n : string)
    (pr : float) (dm : Z) (active : bool) : form_result :=
  if negb (PrimFloat.leb 0%float pr) || negb (1 <=? dm) then Unavailable
  else try_form (insert_package (strip n) (py_float pr) dm active)
         "Could not create package: " db.

(** The truth value of a Python string. *)
Definition truthy (s : string) : bool :=
  match s with EmptyString => false | _ => true end.

Section Accounts.

(** [hashlib.sha256(data).hexdigest()] of the standard library, on the
    UTF-8 bytes of a string, is taken as given. *)
Variable sha256_hexdigest : string -> string.

Definition hash_password (pw : string) : string := sha256_hexdigest pw.

(** [SELECT user_id, full_name, role FROM users WHERE phone=? AND
    password_hash=?], [fetchone()] *)
Definition login (ph password : string) (db : database)
  : option (Z * string * role) :=
  option_map (fun u => (user_id u, full_name u, user_role u))
    (find (fun u => String.eqb (phone u) ph
                    && String.eqb (password_hash u) (hash_password password))
       (users db)).

(** The pair returned, and the database stored after the call. *)
Definition register_customer (nm ph em password : string) (now : timestamp)
    (db : database) : (bool * string) * database :=
  match insert_user nm ph (or_none em) (hash_password password) Customer now db with
  | inr (_, db') => ((true, "Registered successfully. Please login."), db')
  | inl _ => (* the INSERT raises nothing but sqlite3.IntegrityError *)
      ((false, "Registration failed: "), db)
  end.

(** page_login with the button pressed: the session it stores, with the
    name shown in the greeting, or [None] after "Invalid phone or
    password." *)
Definition page_login (ph password : string) (db : database)
  : option (session * string) :=
  match login (strip ph) (strip password) db with
  | None => None
  | Some (uid, nm, rl) => Some (mk_session uid rl, nm)
  end.

(** page_register with the button pressed. *)
Definition page_register (nm ph em password confirm : string) (now : timestamp)
    (db : database) : form_result :=
  if negb (String.eqb password confirm) then Rejected "Passwords do not match."
  else
    match register_customer (strip nm) (strip ph) (strip em) (strip password) now db with
    | ((true, _), db') => Saved db'
    | ((false, msg), _) => Rejected msg
    end.

(** [if st.button("Create User"):] of page_staff_dashboard; the role comes
    from a select box over Staff and Admin. *)
Definition page_staff_dashboard_create_user (db : database) (nm ph em : string)
    (rl : role) (pw : string) (now : timestamp) : form_result :=
  if negb (is_staff_role rl) then Unavailable
  else if negb (truthy (strip nm) && truthy (strip ph) && truthy (strip pw))
  then Rejected "Name, phone and password required."
  else try_form
         (insert_user (strip nm) (strip ph) (or_none (strip em))
            (hash_password (strip pw)) rl now)
         "Could not create user: " db.

(** Everything a run of the script can be asked to do: one of the four
    buttons of [click] in a session, or one of the forms above. *)
Inductive press :=
| OnPage (u : session) (c : click)
| CreateAccount (nm ph em password confirm : string) (now : timestamp)
| SaveVehicle (u : session) (plate mk md cl vt : string)
| CreatePackage (u : session) (n : string) (pr : float) (dm : Z) (active : bool)
| CreateUser (u : session) (nm ph em : string) (rl : role) (pw : string)
    (now : timestamp).

(** The page [main] shows, applied to the press: the registration form is
    shown without a session, "Save Vehicle" to customers, the package and
    user forms to staff and admins. *)
Definition page_press (db : database) (p : press) : database :=
  match p with
  | OnPage u c => page db u c
  | CreateAccount nm ph em pw cf now =>
      form_after db (page_register nm ph em pw cf now db)
  | SaveVehicle u plate mk md cl vt =>
      match s_role u with
      | Customer =>
          form_after db (page_customer_dashboard_save_vehicle db (s_user_id u)
                           plate mk md cl vt)
      | _ => db
      end
  | CreatePackage u n pr dm active =>
      match s_role u with
      | Customer => db
      | _ => form_after db (page_staff_dashboard_create_package db n pr dm active)
      end
  | CreateUser u nm ph em rl pw now =>
      match s_role u with
      | Customer => db
      | _ => form_after db (page_staff_dashboard_create_user db nm ph em rl pw now)
      end
  end.

(** One run of [main] for a press: [init_db()] first, then the page. *)
Definition main_press (db : database) (t0 : timestamp) (p : press) : database :=
  match init_db t0 db with
  | inl _ => db
  | inr (_, db1) => page_press db1 p
  end.

(** A sequence of runs. *)
Definition presses (db : database) (l : list (timestamp * press)) : database :=
  fold_left (fun d r => main_press d (fst r) (snd r)) l db.

End Accounts.

(** ** Vocabulary of the statements *)

(** The history table after the optional closing UPDATE of the handler. *)
Definition history_after_close (db : database) (bid : Z) (cs : option Z)
    (ep : bool) (t : timestamp) : list history_row :=
  match cs with
  | Some c =>
      if ep
      then map (fun h => if open_at bid c h then set_end_time h (Some t) else h)
             (booking_stage_history db)
      else booking_stage_history db
  | None => booking_stage_history db
  end.

(** The status the handler computes for a stage of order [ord]. *)
Definition status_for_order (db : database) (ord : Z) : booking_status :=
  if order_is_max ord (select_max_stage_order db) then Completed else InProgress.

(** The stage-history entries of a booking whose [end_time] is NULL. *)
Definition open_entries (db : database) (bid : Z) : list history_row :=
  filter (fun h => (h_booking_id h =? bid) && is_none (end_time h))
    (booking_stage_history db).

Definition history_of (db : database) (bid : Z) : list history_row :=
  filter (fun h => h_booking_id h =? bid) (booking_stage_history db).

Definition payments_of (db : database) (bid : Z) : list payment_row :=
  filter (fun p => p_booking_id p =? bid) (payments db).

Definition assignments_of (db : database) (bid sid : Z) : list assignment_row :=
  filter (assigned bid sid) (booking_staff_assignment db).

(** ** Sample states *)

(** The database after the first run of [init_db]. *)
Definition seeded_db : database :=
  db_after empty_db (commit (init_db "2025-12-27 09:00:00") empty_db).

(** The seeded database with one registered customer (user 2) owning one
    vehicle (vehicle 1). *)
Definition shop_db : database :=
  mk_db
    (users seeded_db ++
     [mk_user 2 "Sara" "0311-1111111" None "x" Customer "2025-12-27 09:05:00"])
    [mk_vehicle 1 2 "LEA-123" (Some "Honda") (Some "Civic") None (Some "Car")]
    (packages seeded_db) (service_stages seeded_db) [] [] [] []
    (mk_seq 2 1 3 4 0 0 0).

Definition admin_session : session := mk_session 1 Admin.
Definition customer_session : session := mk_session 2 Customer.

(** [shop_db] after the customer has booked the Basic Wash for the vehicle. *)
Definition booked_db : database :=
  db_after shop_db
    (page_customer_dashboard shop_db 2 1 1 "" "" "2025-12-27 10:00:00").

(** [shop_db] with the customer's vehicle removed. *)
Definition no_vehicle_db : database :=
  mk_db (users shop_db) [] (packages shop_db) (service_stages shop_db) [] [] [] []
    (sqlite_sequence shop_db).

(** [shop_db] with every package switched off. *)
Definition closed_shop_db : database :=
  mk_db (users shop_db) (vehicles shop_db)
    (map (fun p => mk_package (package_id p) (package_name p) (price p)
                     (duration_minutes p) false) (packages shop_db))
    (service_stages shop_db) [] [] [] [] (sqlite_sequence shop_db).

(** No stored vehicle numbered [v] belongs to [user]: the vehicle is
    missing or someone else's. *)
Definition vehicle_unavailable (db : database) (user v : Z) : Prop :=
  forall r, In r (vehicles db) -> vehicle_id r = v -> v_customer_id r <> user.

(** No stored package numbered [p] is active: the package is missing or
    switched off. *)
Definition package_unavailable (db : database) (p : Z) : Prop :=
  forall r, In r (packages db) -> package_id r = p -> is_active r = false.

(** [booked_db] after the admin has moved booking 1 to the last stage. *)
Definition completed_db : database :=
  db_after booked_db
    (page_staff_dashboard_update_stage booked_db 1 1 "Completed" true
       "2025-12-27 10:30:00" "2025-12-27 10:30:01").

(** [booked_db] after the admin has twice entered booking 1 into Drying
    without ending the previous stage. *)
Definition twice_drying_db : database :=
  runs booked_db
    [("2025-12-27 10:10:00", admin_session,
      UpdateStage 1 "Drying" false "2025-12-27 10:10:01" "2025-12-27 10:10:02");
     ("2025-12-27 10:20:00", admin_session,
      UpdateStage 1 "Drying" false "2025-12-27 10:20:01" "2025-12-27 10:20:02")].

(** [twice_drying_db] after the admin has moved booking 1 on to Polishing,
    ending the previous stage. *)
Definition polishing_db : database :=
  db_after twice_drying_db
    (page_staff_dashboard_update_stage twice_drying_db 1 1 "Polishing" true
       "2025-12-27 10:40:00" "2025-12-27 10:40:01").

(** Every open history entry of booking [bid] is for the stage the booking
    is in. *)
Definition open_at_current (db : database) (bid : Z) : Prop :=
  forall h, In h (open_entries db bid) ->
    option_map current_stage_id (find_booking db bid) = Some (Some (h_stage_id h)).

(** Booking [bid] has at most one open history entry, and it is for the
    current stage. *)
Definition tidy (db : database) (bid : Z) : Prop :=
  (List.length (open_entries db bid) <= 1)%nat /\ open_at_current db bid.

(** The click is not a stage update of booking [bid] that leaves "End
    previous stage" unticked. *)
Definition ends_previous_on (bid : Z) (c : click) : bool :=
  match c with
  | UpdateStage b _ ep _ _ => negb (b =? bid) || ep
  | _ => true
  end.

(** The tables of the booking ledger are the same in both databases. *)
Definition same_ledger (d d' : database) : Prop :=
  bookings d' = bookings d /\
  booking_stage_history d' = booking_stage_history d /\
  booking_staff_assignment d' = booking_staff_assignment d /\
  payments d' = payments d.

(** A sequence of runs that leaves booking 1 with two open entries though
    its last stage update ends the previous stage. *)
Definition untidy_runs : list (timestamp * session * click) :=
  [("2025-12-27 10:10:00", admin_session,
    UpdateStage 1 "Drying" false "2025-12-27 10:10:01" "2025-12-27 10:10:02");
   ("2025-12-27 10:20:00", admin_session,
    UpdateStage 1 "Polishing" false "2025-12-27 10:20:01" "2025-12-27 10:20:02");
   ("2025-12-27 10:30:00", admin_session,
    UpdateStage 1 "Washing" true "2025-12-27 10:30:01" "2025-12-27 10:30:02")].

Definition is_update_payment (c : click) : bool :=
  match c with
  | UpdatePayment _ _ _ _ => true
  | _ => false
  end.

(** [booked_db] after the admin has recorded the payment of booking 1 as
    paid by card. *)
Definition paid_db : database :=
  db_after booked_db
    (page_staff_dashboard_update_payment booked_db 1 Card Paid
       "2025-12-27 11:00:00").

(** [booked_db] after the admin has been assigned to booking 1. *)
Definition assigned_db : database :=
  db_after booked_db
    (page_staff_dashboard_save_assignment booked_db 1 [(1, "2025-12-27 10:05:00")]).

(** The action keeps the property of the tables whenever it returns. *)
Definition preserves {A} (P : database -> Prop) (m : M A) : Prop :=
  forall db a db', m db = inr (a, db') -> P db -> P db'.

(** The e-mail addresses on file; a NULL address is left out, since
    UNIQUE lets any number of rows be NULL. *)
Definition emails_of (l : list user_row) : list string :=
  flat_map (fun u => match email u with Some e => [e] | None => [] end) l.

(** The PRIMARY KEY and UNIQUE constraints of the schema. *)
Definition keys_unique (db : database) : Prop :=
  NoDup (map user_id (users db)) /\ NoDup (map phone (users db)) /\
  NoDup (map vehicle_id (vehicles db)) /\ NoDup (map plate_no (vehicles db)) /\
  NoDup (map package_id (packages db)) /\ NoDup (map package_name (packages db)) /\
  NoDup (map stage_id (service_stages db)) /\
  NoDup (map stage_name (service_stages db)) /\
  NoDup (map stage_order (service_stages db)) /\
  NoDup (map booking_id (bookings db)) /\
  NoDup (map history_id (booking_stage_history db)) /\
  NoDup (map payment_id (payments db)) /\
  NoDup (map p_booking_id (payments db)) /\
  NoDup (map (fun a => (a_booking_id a, a_staff_id a)) (booking_staff_assignment db)) /\
  NoDup (emails_of (users db)).

(** The FOREIGN KEY constraints of the schema, row by row. *)
Definition vehicle_refs (db : database) (v : vehicle_row) : Prop :=
  has_user db (v_customer_id v) = true.

Definition booking_refs (db : database) (b : booking_row) : Prop :=
  has_user db (b_customer_id b) = true /\
  has_vehicle db (b_vehicle_id b) = true /\
  has_package db (b_package_id b) = true /\
  (forall s, current_stage_id b = Some s -> has_stage db s = true).

Definition history_refs (db : database) (h : history_row) : Prop :=
  has_booking db (h_booking_id h) = true /\
  has_stage db (h_stage_id h) = true /\
  has_user db (updated_by_staff_id h) = true.

Definition assignment_refs (db : database) (a : assignment_row) : Prop :=
  has_booking db (a_booking_id a) = true /\ has_user db (a_staff_id a) = true.

Definition payment_refs (db : database) (p : payment_row) : Prop :=
  has_booking db (p_booking_id p) = true.

Definition references_valid (db : database) : Prop :=
  (forall v, In v (vehicles db) -> vehicle_refs db v) /\
  (forall b, In b (bookings db) -> booking_refs db b) /\
  (forall h, In h (booking_stage_history db) -> history_refs db h) /\
  (forall a, In a (booking_staff_assignment db) -> assignment_refs db a) /\
  (forall p, In p (payments db) -> payment_refs db p).

(** Every id that names a row in [db] names a row in [db']. *)
Definition grows (db db' : database) : Prop :=
  (forall x, has_user db x = true -> has_user db' x = true) /\
  (forall x, has_vehicle db x = true -> has_vehicle db' x = true) /\
  (forall x, has_package db x = true -> has_package db' x = true) /\
  (forall x, has_stage db x = true -> has_stage db' x = true) /\
  (forall x, has_booking db x = true -> has_booking db' x = true).

(** The CHECK constraints of the schema that are not carried by a type. *)
Definition checks_hold (db : database) : Prop :=
  (forall s, In s (service_stages db) -> 0 < stage_order s) /\
  (forall p, In p (packages db) ->
     PrimFloat.leb 0%float (price p) = true /\ 0 < duration_minutes p) /\
  (forall p, In p (payments db) -> PrimFloat.leb 0%float (amount p) = true).

Definition schema_holds (db : database) : Prop :=
  keys_unique db /\ references_valid db /\ checks_hold db.

(** A morning at the car wash: a customer registers, saves a vehicle and
    books the first package, and the admin moves the booking on. *)
Definition morning : list (timestamp * press) :=
  [("2025-12-27 09:05:00",
    CreateAccount "Sara" "0311-1111111" "" "secret" "secret" "2025-12-27 09:05:01");
   ("2025-12-27 09:10:00",
    SaveVehicle customer_session "LEA-123" "Honda" "Civic" "" "Car");
   ("2025-12-27 10:00:00",
    OnPage customer_session (CreateBooking 1 1 "" "" "2025-12-27 10:00:01"));
   ("2025-12-27 10:10:00",
    OnPage admin_session
      (UpdateStage 1 "Drying" true "2025-12-27 10:10:01" "2025-12-27 10:10:02"))].

(** * Properties *)

(** ** Lists, sorting and rowids *)

Lemma mem_z_In (x : Z) (l : list Z) : mem_z x l = true <-> In x l.
Proof.
  unfold mem_z. rewrite existsb_exists. split.
  - intros [y [Hy Heq]]. apply Z.eqb_eq in Heq. now subst.
  - intros H. exists x. split; [assumption | apply Z.eqb_refl].
Qed.

Lemma mem_z_false (x : Z) (l : list Z) : mem_z x l = false <-> ~ In x l.
Proof.
  rewrite <- mem_z_In. destruct (mem_z x l); split; congruence.
Qed.

Lemma In_insert_by {A} (le : A -> A -> bool) (x y : A) (l : list A) :
  In y (insert_by le x l) <-> y = x \/ In y l.
Proof.
  induction l as [|z l IH]; simpl.
  - split; [intros [H|[]]; auto | intros [H|[]]; auto].
  - destruct (le x z); simpl; [|rewrite IH]; intuition.
Qed.

Lemma In_order_by {A} (le : A -> A -> bool) (y : A) (l : list A) :
  In y (order_by le l) <-> In y l.
Proof.
  unfold order_by. induction l as [|x l IH]; simpl; [tauto|].
  rewrite In_insert_by, IH. intuition.
Qed.

Lemma order_by_nil {A} (le : A -> A -> bool) (l : list A) :
  is_nil (order_by le l) = is_nil l.
Proof.
  destruct l as [|x l]; [reflexivity|]. unfold order_by. cbn [fold_right].
  destruct (fold_right (insert_by le) [] l) as [|y l']; cbn;
    [|destruct (le x y)]; reflexivity.
Qed.

Lemma max_rowid_ge {A} (key : A -> Z) (l : list A) (r : A) :
  In r l -> key r <= max_rowid key l.
Proof.
  induction l as [|x l IH]; simpl; [tauto|].
  intros [->|H]; [|specialize (IH H)]; lia.
Qed.

Lemma next_rowid_fresh {A} (key : A -> Z) (l : list A) (seq : Z) (r : A) :
  In r l -> key r <> next_rowid key l seq.
Proof.
  intros H. apply (max_rowid_ge key) in H. unfold next_rowid. lia.
Qed.

Lemma filter_nothing {A} (f : A -> bool) (l : list A) :
  (forall x, In x l -> f x = false) -> filter f l = [].
Proof.
  induction l as [|x l IH]; intros H; [reflexivity|]. cbn.
  rewrite (H x (or_introl eq_refl)). apply IH. intros y Hy. apply H. now right.
Qed.

Lemma find_app_l {A} (f : A -> bool) (l1 l2 : list A) (a : A) :
  find f l1 = Some a -> find f (l1 ++ l2) = Some a.
Proof.
  induction l1 as [|x l1 IH]; simpl; [discriminate|].
  destruct (f x); auto.
Qed.

Lemma find_app_none {A} (f : A -> bool) (l1 l2 : list A) :
  find f l1 = None -> find f (l1 ++ l2) = find f l2.
Proof.
  induction l1 as [|x l1 IH]; simpl; [reflexivity|].
  destruct (f x); [discriminate | auto].
Qed.

Lemma find_none_iff {A} (f : A -> bool) (l : list A) :
  find f l = None <-> forall x, In x l -> f x = false.
Proof.
  split.
  - intros H x Hx. now apply (find_none f l H).
  - induction l as [|x l IH]; simpl; intros H; [reflexivity|].
    rewrite (H x (or_introl eq_refl)). apply IH. intros y Hy. apply H. now right.
Qed.

(** [find] through an UPDATE that keeps the key of every row. *)
Lemma find_map_update {A} (key : A -> Z) (k : Z) (g : A -> A) (l : list A) :
  (forall a, key (g a) = key a) ->
  find (fun r => key r =? k) (map (fun r => if key r =? k then g r else r) l)
  = option_map g (find (fun r => key r =? k) l).
Proof.
  intros Hg. induction l as [|x l IH]; simpl; [reflexivity|].
  destruct (key x =? k) eqn:E.
  - rewrite Hg, E. reflexivity.
  - rewrite E. exact IH.
Qed.

Lemma find_map_other {A} (key : A -> Z) (k k' : Z) (g : A -> A) (l : list A) :
  (forall a, key (g a) = key a) -> k <> k' ->
  find (fun r => key r =? k') (map (fun r => if key r =? k then g r else r) l)
  = find (fun r => key r =? k') l.
Proof.
  intros Hg Hk. induction l as [|x l IH]; simpl; [reflexivity|].
  destruct (key x =? k) eqn:E.
  - rewrite Hg. apply Z.eqb_eq in E.
    destruct (key x =? k') eqn:E'; [apply Z.eqb_eq in E'; lia | exact IH].
  - destruct (key x =? k'); [reflexivity | exact IH].
Qed.

(** ** The stage catalog *)

Lemma select_max_stage_order_spec (db : database) (mx : Z) :
  select_max_stage_order db = Some mx ->
  (exists s, In s (service_stages db) /\ stage_order s = mx) /\
  (forall s, In s (service_stages db) -> stage_order s <= mx).
Proof.
  unfold select_max_stage_order.
  destruct (service_stages db) as [|s0 l]; [discriminate|].
  intros H. injection H as <-.
  assert (G : forall l a,
    (a <= fold_left (fun m r => Z.max m (stage_order r)) l a) /\
    (forall s, In s l -> stage_order s <= fold_left (fun m r => Z.max m (stage_order r)) l a) /\
    (fold_left (fun m r => Z.max m (stage_order r)) l a = a \/
     exists s, In s l /\ stage_order s = fold_left (fun m r => Z.max m (stage_order r)) l a)).
  { clear. induction l as [|x l IH]; intros a; simpl.
    - repeat split; [lia | tauto | now left].
    - destruct (IH (Z.max a (stage_order x))) as (H1 & H2 & H3).
      repeat split.
      + lia.
      + intros s [->|Hs]; [lia | now apply H2].
      + destruct H3 as [H3|[s [Hs Hq]]].
        * destruct (Z.max_spec a (stage_order x)) as [[_ E]|[_ E]].
          -- right. exists x. split; [now left | congruence].
          -- left. congruence.
        * right. exists s. split; [now right | exact Hq]. }
  destruct (G l (stage_order s0)) as (H1 & H2 & H3). split.
  - destruct H3 as [H3|[s [Hs Hq]]].
    + exists s0. split; [now left | now rewrite H3].
    + exists s. split; [now right | exact Hq].
  - intros s [->|Hs]; [exact H1 | now apply H2].
Qed.

Lemma select_max_stage_order_some (db : database) :
  service_stages db <> [] -> exists mx, select_max_stage_order db = Some mx.
Proof.
  unfold select_max_stage_order. destruct (service_stages db); [congruence|].
  intros _. eexists. reflexivity.
Qed.

(** ** The "Update Stage" handler *)

Lemma map_booking_id_update (bid sid : Z) (st : booking_status) (l : list booking_row) :
  map booking_id
    (map (fun b => if booking_id b =? bid then set_stage_status b sid st else b) l)
  = map booking_id l.
Proof.
  rewrite map_map. apply map_ext. intros b.
  destruct (booking_id b =? bid); reflexivity.
Qed.

(** What a committed "Update Stage" click has done, table by table. *)
Lemma update_stage_click_inv bid cs smap nm ep staff t1 t2 db u db' :
  update_stage_click bid cs smap nm ep staff t1 t2 db = inr (u, db') ->
  exists sid ord,
    dict_get smap nm = Some sid /\
    select_stage_order db sid = Some ord /\
    has_booking db bid = true /\ has_stage db sid = true /\
    has_user db staff = true /\
    users db' = users db /\ vehicles db' = vehicles db /\
    packages db' = packages db /\ service_stages db' = service_stages db /\
    booking_staff_assignment db' = booking_staff_assignment db /\
    payments db' = payments db /\
    bookings db' =
      map (fun b => if booking_id b =? bid
                    then set_stage_status b sid (status_for_order db ord) else b)
        (bookings db) /\
    booking_stage_history db' =
      history_after_close db bid cs ep t1 ++
      [mk_history
         (next_rowid history_id (history_after_close db bid cs ep t1)
            (seq_history (sqlite_sequence db)))
         bid sid t2 None staff].
Proof.
  unfold update_stage_click, bind, dict_getitem, query, fetchone_0, ret, raise.
  intros H.
  set (dbc := with_history db (history_after_close db bid cs ep t1)
                (seq_history (sqlite_sequence db))).
  assert (Hc : exists dbc',
    (match cs with
     | Some c => if ep then close_history t1 bid c else fun d => inr (tt, d)
     | None => fun d => inr (tt, d)
     end) db = inr (tt, dbc') /\
    users dbc' = users dbc /\ vehicles dbc' = vehicles dbc /\
    packages dbc' = packages dbc /\ service_stages dbc' = service_stages dbc /\
    bookings dbc' = bookings dbc /\
    booking_stage_history dbc' = booking_stage_history dbc /\
    booking_staff_assignment dbc' = booking_staff_assignment dbc /\
    payments dbc' = payments dbc /\
    seq_history (sqlite_sequence dbc') = seq_history (sqlite_sequence dbc)).
  { unfold dbc, history_after_close, close_history.
    destruct cs as [c|]; [destruct ep|]; eexists; split; try reflexivity;
      repeat split; reflexivity. }
  destruct Hc as (dbc' & Hrun & Hu & Hv & Hp & Hs & Hb & Hh & Ha & Hpay & Hseq).
  rewrite Hrun in H. clear Hrun.
  destruct (dict_get smap nm) as [sid|] eqn:Hd; [|discriminate].
  assert (Hord : select_stage_order dbc' sid = select_stage_order db sid).
  { unfold select_stage_order, find_stage. now rewrite Hs. }
  rewrite Hord in H.
  destruct (select_stage_order db sid) as [ord|] eqn:Ho; [|discriminate].
  assert (Hmax : select_max_stage_order dbc' = select_max_stage_order db).
  { unfold select_max_stage_order. now rewrite Hs. }
  rewrite Hmax in H.
  fold (status_for_order db ord) in H.
  unfold update_booking, has_booking, has_stage in H.
  rewrite Hb, Hs in H. simpl bookings in H. simpl service_stages in H.
  fold (has_booking db bid) in H. fold (has_stage db sid) in H.
  destruct (has_booking db bid && negb (has_stage db sid)) eqn:Hfk; [discriminate|].
  unfold insert_history, has_booking, has_stage, has_user in H.
  cbn [bookings service_stages users with_bookings booking_stage_history
       sqlite_sequence seq_history] in H.
  rewrite map_booking_id_update, Hs, Hu, Hh, Hseq in H. simpl in H.
  fold (has_booking db bid) in H. fold (has_stage db sid) in H.
  fold (has_user db staff) in H.
  destruct (has_booking db bid) eqn:Hbk; [|discriminate].
  destruct (has_stage db sid) eqn:Hst; [|discriminate].
  destruct (has_user db staff) eqn:Hus; [|discriminate].
  simpl in H. injection H as _ <-.
  exists sid, ord. subst dbc. cbn in *.
  repeat split; try reflexivity; try assumption; congruence.
Qed.

(** *** The stage map *)

Lemma dict_get_set (d : dict) (k k' : string) (v : Z) :
  dict_get (dict_set d k v) k' = if String.eqb k k' then Some v else dict_get d k'.
Proof.
  unfold dict_get. induction d as [|[k0 v0] d IH]; simpl.
  - destruct (String.eqb k k'); reflexivity.
  - destruct (String.eqb k0 k) eqn:E; simpl.
    + apply String.eqb_eq in E. subst k0.
      destruct (String.eqb k k'); reflexivity.
    + destruct (String.eqb k0 k') eqn:E'.
      * apply String.eqb_eq in E'. subst k0.
        rewrite String.eqb_sym in E. now rewrite E.
      * exact IH.
Qed.

Lemma dict_get_keys (d : dict) (k : string) :
  mem_string k (dict_keys d) = true <-> exists v, dict_get d k = Some v.
Proof.
  unfold mem_string, dict_keys, dict_get.
  induction d as [|[k0 v0] d IH]; simpl.
  - split; [discriminate | intros [v H]; discriminate].
  - rewrite (String.eqb_sym k k0). destruct (String.eqb k0 k); simpl.
    + split; [intros _; now exists v0 | reflexivity].
    + exact IH.
Qed.

Lemma stage_map_of_get (l : list (Z * string)) (k : string) (v : Z) :
  dict_get (stage_map_of l) k = Some v -> In (v, k) l.
Proof.
  unfold stage_map_of.
  assert (G : forall d, dict_get (fold_left (fun d r => dict_set d (snd r) (fst r)) l d) k
                        = Some v -> In (v, k) l \/ dict_get d k = Some v).
  { induction l as [|[sid nm] l IH]; intros d H; simpl in *; [now right|].
    destruct (IH _ H) as [Hin|Hd]; [left; now right|].
    rewrite dict_get_set in Hd. destruct (String.eqb nm k) eqn:E.
    - apply String.eqb_eq in E. injection Hd as ->. subst. left. now left.
    - now right. }
  intros H. destruct (G [] H) as [Hin|Hd]; [exact Hin | discriminate].
Qed.

Lemma stage_map_of_defined (l : list (Z * string)) (k : string) (v : Z) :
  In (v, k) l -> exists v', dict_get (stage_map_of l) k = Some v'.
Proof.
  unfold stage_map_of.
  assert (G : forall d, (In (v, k) l \/ exists v0, dict_get d k = Some v0) ->
     exists v', dict_get (fold_left (fun d r => dict_set d (snd r) (fst r)) l d) k
                = Some v').
  { induction l as [|[sid nm] l IH]; intros d H; simpl in *.
    - destruct H as [[]|H]; exact H.
    - apply IH. destruct H as [[H|H]|[v0 H]].
      + injection H as -> ->. right. exists v. rewrite dict_get_set.
        now rewrite String.eqb_refl.
      + now left.
      + right. rewrite dict_get_set. destruct (String.eqb nm k); eauto. }
  intros H. apply G. now left.
Qed.

Lemma In_get_stage_list (db : database) (sid : Z) (nm : string) :
  In (sid, nm) (get_stage_list db) <->
  exists s, In s (service_stages db) /\ stage_id s = sid /\ stage_name s = nm.
Proof.
  unfold get_stage_list. rewrite in_map_iff. split.
  - intros [s [E Hs]]. injection E as <- <-. apply In_order_by in Hs. eauto.
  - intros [s [Hs [<- <-]]]. exists s. split; [reflexivity|]. now apply In_order_by.
Qed.

Lemma has_stage_In (db : database) (sid : Z) :
  has_stage db sid = true <-> exists s, In s (service_stages db) /\ stage_id s = sid.
Proof.
  unfold has_stage. rewrite mem_z_In, in_map_iff. split; intros [s [A B]]; eauto.
Qed.

Lemma find_stage_some (db : database) (sid : Z) :
  has_stage db sid = true ->
  exists s, find_stage db sid = Some s /\ In s (service_stages db) /\ stage_id s = sid.
Proof.
  rewrite has_stage_In. intros [s [Hs E]]. unfold find_stage.
  destruct (find (fun r => stage_id r =? sid) (service_stages db)) as [s'|] eqn:F.
  - exists s'. destruct (find_some _ _ F) as [Hin Heq]. apply Z.eqb_eq in Heq. auto.
  - apply (find_none _ _ F) in Hs. apply Z.eqb_neq in Hs. contradiction.
Qed.

Lemma has_booking_find (db : database) (bid : Z) :
  has_booking db bid = true <-> exists b, find_booking db bid = Some b.
Proof.
  unfold has_booking, find_booking. rewrite mem_z_In, in_map_iff. split.
  - intros [b [E Hb]].
    destruct (find (fun r => booking_id r =? bid) (bookings db)) as [b'|] eqn:F;
      [eauto|].
    apply (find_none _ _ F) in Hb. apply Z.eqb_neq in Hb. contradiction.
  - intros [b F]. destruct (find_some _ _ F) as [Hin Heq].
    apply Z.eqb_eq in Heq. eauto.
Qed.

Lemma In_select_active_booking_ids (db : database) (bid : Z) :
  In bid (select_active_booking_ids db) <->
  exists b, In b (bookings db) /\ booking_id b = bid /\ is_active_status (status b) = true.
Proof.
  unfold select_active_booking_ids. rewrite in_map_iff. split.
  - intros [b [E Hb]]. apply In_order_by, filter_In in Hb. exists b. tauto.
  - intros [b [Hb [E Ha]]]. exists b. split; [exact E|].
    apply In_order_by, filter_In. tauto.
Qed.

(** *** The page around the handler *)

Lemma page_update_stage_inv db staff bid nm ep t1 t2 u db' :
  page_staff_dashboard_update_stage db staff bid nm ep t1 t2 = Committed u db' ->
  In bid (select_active_booking_ids db) /\
  exists b, find_booking db bid = Some b /\
    update_stage_click bid (current_stage_id b) (stage_map_of (get_stage_list db))
      nm ep staff t1 t2 db = inr (u, db').
Proof.
  unfold page_staff_dashboard_update_stage, select_current, commit.
  destruct (is_nil (select_active_booking_ids db)); [discriminate|].
  destruct (mem_z bid (select_active_booking_ids db)) eqn:Hm; [|discriminate].
  apply mem_z_In in Hm. simpl.
  destruct (find_booking db bid) as [b|]; [|discriminate]. simpl.
  destruct (is_nil _); [discriminate|].
  destruct (negb _); [discriminate|].
  destruct (update_stage_click _ _ _ _ _ _ _ _ _) as [e|[u' d]] eqn:R; [discriminate|].
  intros H. injection H as -> ->. split; [exact Hm|]. exists b. auto.
Qed.

(** An offered booking, a listed stage and a known staff member always
    lead to a commit. *)
Lemma page_update_stage_commits db staff bid nm ep t1 t2 :
  In bid (select_active_booking_ids db) ->
  mem_string nm (dict_keys (stage_map_of (get_stage_list db))) = true ->
  has_user db staff = true ->
  exists db', page_staff_dashboard_update_stage db staff bid nm ep t1 t2
              = Committed tt db'.
Proof.
  intros Hbid Hnm Hstaff.
  unfold page_staff_dashboard_update_stage, select_current, commit.
  destruct (select_active_booking_ids db) as [|x ids] eqn:Hids; [destruct Hbid|].
  cbn [is_nil]. rewrite <- Hids in *. clear Hids x ids.
  pose proof (proj2 (mem_z_In _ _) Hbid) as Hm. rewrite Hm. cbn [negb].
  assert (Hhb : has_booking db bid = true).
  { apply In_select_active_booking_ids in Hbid. destruct Hbid as [b [Hb [E _]]].
    unfold has_booking. apply mem_z_In, in_map_iff. eauto. }
  destruct (proj1 (has_booking_find _ _) Hhb) as [b Hfb]. rewrite Hfb. cbn.
  destruct (dict_keys (stage_map_of (get_stage_list db))) as [|k ks] eqn:Hk;
    [discriminate|]. cbn [is_nil]. rewrite <- Hk in *. clear Hk k ks.
  rewrite Hnm. cbn [negb].
  apply dict_get_keys in Hnm. destruct Hnm as [sid Hd].
  pose proof (stage_map_of_get _ _ _ Hd) as Hin.
  apply In_get_stage_list in Hin. destruct Hin as [s [Hs [Hsid _]]].
  assert (Hst : has_stage db sid = true) by (apply has_stage_In; eauto).
  destruct (find_stage_some _ _ Hst) as [s' [Hfs _]].
  unfold update_stage_click, bind, dict_getitem, query, fetchone_0, ret.
  assert (Hc : exists dbc,
    (match current_stage_id b with
     | Some c => if ep then close_history t1 bid c else fun d => inr (tt, d)
     | None => fun d => inr (tt, d)
     end) db = inr (tt, dbc) /\
    users dbc = users db /\ service_stages dbc = service_stages db /\
    bookings dbc = bookings db).
  { unfold close_history. destruct (current_stage_id b); [destruct ep|];
      eexists; split; try reflexivity; repeat split. }
  destruct Hc as (dbc & -> & Hu & Hss & Hb). rewrite Hd.
  assert (Hso : select_stage_order dbc sid = Some (stage_order s')).
  { unfold select_stage_order, find_stage in *. rewrite Hss, Hfs. reflexivity. }
  rewrite Hso.
  unfold update_booking, insert_history, has_booking, has_stage, has_user in *.
  rewrite Hb, Hss, Hhb, Hst. simpl.
  rewrite map_booking_id_update, Hss, Hu, Hhb, Hst, Hstaff. simpl.
  eexists. reflexivity.
Qed.

(** C1: every "Update Stage" on an offered booking and a listed stage
    commits, and the status it leaves on the booking is Completed exactly
    when the order of the chosen stage equals the largest [stage_order] of
    the catalog at that moment, and InProgress exactly when it does not;
    the stage the booking was in before plays no part. *)
Theorem advance_status_follows_max_order :
  forall db staff bid nm ep t1 t2,
    In bid (select_active_booking_ids db) ->
    mem_string nm (dict_keys (stage_map_of (get_stage_list db))) = true ->
    has_user db staff = true ->
    exists db' sid s mx b',
      page_staff_dashboard_update_stage db staff bid nm ep t1 t2 = Committed tt db' /\
      dict_get (stage_map_of (get_stage_list db)) nm = Some sid /\
      find_stage db sid = Some s /\
      select_max_stage_order db = Some mx /\
      (forall s', In s' (service_stages db) -> stage_order s' <= mx) /\
      (exists s', In s' (service_stages db) /\ stage_order s' = mx) /\
      find_booking db' bid = Some b' /\
      current_stage_id b' = Some sid /\
      (status b' = Completed <-> stage_order s = mx) /\
      (status b' = InProgress <-> stage_order s <> mx).
Proof.
  intros db staff bid nm ep t1 t2 Hbid Hnm Hstaff.
  destruct (page_update_stage_commits db staff bid nm ep t1 t2 Hbid Hnm Hstaff)
    as [db' Hrun].
  destruct (page_update_stage_inv _ _ _ _ _ _ _ _ _ Hrun) as [_ [b [Hfb Hclick]]].
  destruct (update_stage_click_inv _ _ _ _ _ _ _ _ _ _ _ Hclick)
    as (sid & ord & Hd & Ho & _ & Hst & _ & _ & _ & _ & _ & _ & _ & Hbk & _).
  destruct (find_stage_some _ _ Hst) as [s [Hfs [Hs _]]].
  assert (ord = stage_order s) as ->.
  { unfold select_stage_order in Ho. rewrite Hfs in Ho. now injection Ho. }
  destruct (select_max_stage_order_some db) as [mx Hmx].
  { intros E. rewrite E in Hs. destruct Hs. }
  destruct (select_max_stage_order_spec _ _ Hmx) as [Hex Hle].
  exists db', sid, s, mx,
    (set_stage_status b sid (status_for_order db (stage_order s))).
  repeat (split; [assumption|]).
  split.
  { unfold find_booking in *. rewrite Hbk.
    rewrite (find_map_update booking_id), Hfb; reflexivity. }
  split; [reflexivity|].
  unfold status_for_order. rewrite Hmx. cbn.
  destruct (stage_order s =? mx) eqn:E.
  - apply Z.eqb_eq in E. split; split; intros; congruence.
  - apply Z.eqb_neq in E. split; split; intros; congruence.
Qed.

Lemma advance_status_follows_max_order_witness :
  exists db' sid s mx b',
    page_staff_dashboard_update_stage booked_db 1 1 "Completed" true
      "2025-12-27 10:30:00" "2025-12-27 10:30:01" = Committed tt db' /\
    dict_get (stage_map_of (get_stage_list booked_db)) "Completed" = Some sid /\
    find_stage booked_db sid = Some s /\
    select_max_stage_order booked_db = Some mx /\
    (forall s', In s' (service_stages booked_db) -> stage_order s' <= mx) /\
    (exists s', In s' (service_stages booked_db) /\ stage_order s' = mx) /\
    find_booking db' 1 = Some b' /\
    current_stage_id b' = Some sid /\
    (status b' = Completed <-> stage_order s = mx) /\
    (status b' = InProgress <-> stage_order s <> mx).
Proof.
  apply (advance_status_follows_max_order booked_db 1 1 "Completed" true
           "2025-12-27 10:30:00" "2025-12-27 10:30:01").
  - vm_compute. left. reflexivity.
  - reflexivity.
  - reflexivity.
Defined.

(** ** The "Create Booking" handler *)

(** The head of an ORDER BY on an integer key carries the least key. *)
Lemma order_by_head_min {A} (key : A -> Z) (l : list A) (m : A) :
  hd_error (order_by (fun a b => key a <=? key b) l) = Some m ->
  In m l /\ forall y, In y l -> key m <= key y.
Proof.
  revert m. induction l as [|x l IH]; intros m; [discriminate|].
  unfold order_by. cbn [fold_right]. fold (order_by (fun a b => key a <=? key b) l).
  destruct (order_by (fun a b => key a <=? key b) l) as [|y l'] eqn:E.
  - assert (l = []) as ->.
    { pose proof (order_by_nil (fun a b => key a <=? key b) l) as N.
      rewrite E in N. destruct l; [reflexivity | discriminate]. }
    cbn. intros H. injection H as <-. split; [now left|].
    intros y [<-|[]]. lia.
  - destruct (IH y eq_refl) as [Hy Hmin]. cbn.
    destruct (key x <=? key y) eqn:L; cbn; intros H; injection H as <-.
    + apply Z.leb_le in L. split; [now left|].
      intros z [<-|Hz]; [lia | specialize (Hmin z Hz); lia].
    + apply Z.leb_gt in L. split; [now right|].
      intros z [<-|Hz]; [lia | now apply Hmin].
Qed.

Lemma select_first_stage_spec (db : database) (first : Z) :
  select_first_stage db = Some first ->
  exists s, In s (service_stages db) /\ stage_id s = first /\
            forall s', In s' (service_stages db) -> stage_order s <= stage_order s'.
Proof.
  unfold select_first_stage.
  destruct (order_by (fun a b => stage_order a <=? stage_order b) (service_stages db))
    as [|s l] eqn:E; [discriminate|].
  cbn. intros H. injection H as <-.
  destruct (order_by_head_min stage_order (service_stages db) s) as [Hs Hmin].
  { now rewrite E. }
  exists s. auto.
Qed.

(** What a committed "Create Booking" click has done, table by table. *)
Lemma create_booking_click_inv user v p sched nt now db bid db' :
  create_booking_click user v p sched nt now db = inr (bid, db') ->
  exists first pkg,
    select_first_stage db = Some first /\
    find_package db p = Some pkg /\
    has_user db user = true /\ has_vehicle db v = true /\
    bid = next_rowid booking_id (bookings db) (seq_bookings (sqlite_sequence db)) /\
    mem_z bid (map p_booking_id (payments db)) = false /\
    users db' = users db /\ vehicles db' = vehicles db /\
    packages db' = packages db /\ service_stages db' = service_stages db /\
    booking_stage_history db' = booking_stage_history db /\
    booking_staff_assignment db' = booking_staff_assignment db /\
    bookings db' =
      bookings db ++
      [mk_booking bid user v p now (or_none (strip sched)) Booked (Some first)
         (or_none (strip nt))] /\
    payments db' =
      payments db ++
      [mk_payment
         (next_rowid payment_id (payments db) (seq_payments (sqlite_sequence db)))
         bid (price pkg) Cash Unpaid None].
Proof.
  unfold create_booking_click, bind, query, fetchone_0, ret, raise.
  destruct (select_first_stage db) as [first|] eqn:Hf; [|discriminate].
  unfold insert_booking.
  destruct (has_user db user) eqn:Hu; [|discriminate].
  destruct (has_vehicle db v) eqn:Hv; [|discriminate].
  destruct (has_package db p) eqn:Hp; [|discriminate].
  destruct (has_stage db first) eqn:Hs; [|discriminate].
  cbn [andb].
  unfold select_package_price, find_package.
  cbn [packages with_bookings].
  destruct (find (fun r => package_id r =? p) (packages db)) as [pkg|] eqn:Hpk;
    [|discriminate].
  cbn [option_map]. unfold insert_payment, py_float, has_booking.
  cbn [bookings payments with_bookings sqlite_sequence seq_payments].
  destruct (mem_z _ (map booking_id _)); [|discriminate].
  destruct (mem_z _ (map p_booking_id _)) eqn:Hdup; [discriminate|].
  destruct (PrimFloat.leb 0 (price pkg)); [|discriminate].
  cbn [andb negb]. intros H. injection H as <- <-.
  exists first, pkg. cbn. repeat split; auto.
Qed.

Lemma page_customer_dashboard_inv db user v p sched nt now bid db' :
  page_customer_dashboard db user v p sched nt now = Committed bid db' ->
  In v (map vehicle_id (select_vehicles_of db user)) /\
  In p (map package_id (get_active_packages db)) /\
  create_booking_click user v p sched nt now db = inr (bid, db').
Proof.
  unfold page_customer_dashboard, commit.
  destruct (is_nil (select_vehicles_of db user)); [discriminate|].
  destruct (is_nil (get_active_packages db)); [discriminate|].
  destruct (mem_z v _) eqn:Hv; [|discriminate].
  destruct (mem_z p _) eqn:Hp; [|discriminate].
  apply mem_z_In in Hv, Hp. cbn [negb].
  destruct (create_booking_click _ _ _ _ _ _ _) as [e|[b d]]; [discriminate|].
  intros H. injection H as -> ->. auto.
Qed.

Lemma find_booking_fresh (db : database) :
  find_booking db (next_rowid booking_id (bookings db)
                     (seq_bookings (sqlite_sequence db))) = None.
Proof.
  unfold find_booking. apply find_none_iff. intros b Hb. apply Z.eqb_neq.
  now apply next_rowid_fresh.
Qed.

(** C2: a committed "Create Booking" leaves the new booking Booked at the
    stage of least order, with exactly one payment row (the package's
    price, Cash, Unpaid, no paid-at time) and no stage-history entry.  The
    database is taken with its history rows pointing at stored bookings, as
    the foreign key of [booking_stage_history] keeps them. *)
Theorem create_booking_initial_state :
  forall db user v p sched nt now bid db',
    (forall h, In h (booking_stage_history db) ->
               has_booking db (h_booking_id h) = true) ->
    page_customer_dashboard db user v p sched nt now = Committed bid db' ->
    exists b s pkg pay,
      find_booking db' bid = Some b /\
      status b = Booked /\
      b_customer_id b = user /\ b_vehicle_id b = v /\ b_package_id b = p /\
      In s (service_stages db) /\
      current_stage_id b = Some (stage_id s) /\
      (forall s', In s' (service_stages db) -> stage_order s <= stage_order s') /\
      find_package db p = Some pkg /\
      payments_of db' bid = [pay] /\
      amount pay = price pkg /\ method pay = Cash /\
      payment_status pay = Unpaid /\ paid_at pay = None /\
      history_of db' bid = [].
Proof.
  intros db user v p sched nt now bid db' Hfk Hrun.
  destruct (page_customer_dashboard_inv _ _ _ _ _ _ _ _ _ Hrun) as (_ & _ & Hclick).
  destruct (create_booking_click_inv _ _ _ _ _ _ _ _ _ Hclick)
    as (first & pkg & Hf & Hpk & _ & _ & Hbid & Hdup & _ & _ & _ & _ & Hh & _ & Hb & Hp).
  destruct (select_first_stage_spec _ _ Hf) as (s & Hs & Hsid & Hmin).
  exists (mk_booking bid user v p now (or_none (strip sched)) Booked (Some first)
            (or_none (strip nt))), s, pkg,
    (mk_payment
       (next_rowid payment_id (payments db) (seq_payments (sqlite_sequence db)))
       bid (price pkg) Cash Unpaid None).
  assert (Hfind : find_booking db' bid = Some
            (mk_booking bid user v p now (or_none (strip sched)) Booked (Some first)
               (or_none (strip nt)))).
  { unfold find_booking. rewrite Hb, find_app_none.
    - cbn. rewrite Z.eqb_refl. reflexivity.
    - rewrite Hbid. apply find_booking_fresh. }
  assert (Hpay : payments_of db' bid =
            [mk_payment
               (next_rowid payment_id (payments db) (seq_payments (sqlite_sequence db)))
               bid (price pkg) Cash Unpaid None]).
  { unfold payments_of. rewrite Hp, filter_app. cbn. rewrite Z.eqb_refl.
    rewrite filter_nothing; [reflexivity|].
    intros x Hx. apply Z.eqb_neq. intros E. apply mem_z_false in Hdup.
    apply Hdup. apply in_map_iff. eauto. }
  assert (Hhist : history_of db' bid = []).
  { unfold history_of. rewrite Hh. apply filter_nothing.
    intros h Hin. apply Z.eqb_neq. intros E.
    specialize (Hfk h Hin). apply has_booking_find in Hfk.
    destruct Hfk as [b0 Hb0]. rewrite E, Hbid, find_booking_fresh in Hb0.
    discriminate. }
  cbn. rewrite Hsid. tauto.
Qed.

Lemma create_booking_initial_state_witness :
  exists b s pkg pay,
    find_booking booked_db 1 = Some b /\
    status b = Booked /\
    b_customer_id b = 2 /\ b_vehicle_id b = 1 /\ b_package_id b = 1 /\
    In s (service_stages shop_db) /\
    current_stage_id b = Some (stage_id s) /\
    (forall s', In s' (service_stages shop_db) -> stage_order s <= stage_order s') /\
    find_package shop_db 1 = Some pkg /\
    payments_of booked_db 1 = [pay] /\
    amount pay = price pkg /\ method pay = Cash /\
    payment_status pay = Unpaid /\ paid_at pay = None /\
    history_of booked_db 1 = [].
Proof.
  apply (create_booking_initial_state shop_db 2 1 1 "" "" "2025-12-27 10:00:00").
  - intros h [].
  - vm_compute. reflexivity.
Defined.

(** ** The connection monad *)

Lemma bind_inv {A B} (m : M A) (k : A -> M B) (db : database) (b : B)
    (db' : database) :
  bind m k db = inr (b, db') ->
  exists a db1, m db = inr (a, db1) /\ k a db1 = inr (b, db').
Proof.
  unfold bind. destruct (m db) as [e|[a db1]]; [discriminate|]. eauto.
Qed.

(** A property of the tables kept by every statement of a batch is kept by
    the batch. *)
Lemma executemany_preserves {A B} (P : database -> Prop) (stmt : A -> M B)
    (rows : list A) :
  (forall r db a db', stmt r db = inr (a, db') -> P db -> P db') ->
  forall db u db', executemany stmt rows db = inr (u, db') -> P db -> P db'.
Proof.
  intros Hstep. induction rows as [|r rows IH]; intros db u db' H HP; cbn in H.
  - unfold ret in H. injection H as _ <-. exact HP.
  - apply bind_inv in H. destruct H as (a & db1 & H1 & H2).
    eapply IH; [exact H2|]. eapply Hstep; eassumption.
Qed.

(** ** init_db *)

Lemma insert_stage_nonempty nm ord db rid db' :
  insert_stage nm ord db = inr (rid, db') -> service_stages db' <> [].
Proof.
  unfold insert_stage. destruct (_ || _); [discriminate|].
  intros H. injection H as _ <-. cbn. now destruct (service_stages db).
Qed.

Lemma insert_package_stages nm pr dur act db rid db' :
  insert_package nm pr dur act db = inr (rid, db') ->
  service_stages db' = service_stages db.
Proof.
  unfold insert_package. destruct (_ || _); [discriminate|].
  intros H. injection H as _ <-. reflexivity.
Qed.

Lemma insert_user_stages nm ph em pw rl t db rid db' :
  insert_user nm ph em pw rl t db = inr (rid, db') ->
  service_stages db' = service_stages db.
Proof.
  unfold insert_user. destruct (_ || _); [discriminate|].
  intros H. injection H as _ <-. reflexivity.
Qed.

Lemma executemany_insert_stage_nonempty rows db u db' :
  rows <> [] ->
  executemany (fun r => insert_stage (fst r) (snd r)) rows db = inr (u, db') ->
  service_stages db' <> [].
Proof.
  destruct rows as [|r rows]; [congruence|]. intros _ H. cbn [executemany] in H.
  apply bind_inv in H. destruct H as (rid & d & Hi & Hrest).
  apply insert_stage_nonempty in Hi.
  apply (fun S => executemany_preserves (fun d => service_stages d <> [])
                    _ _ S _ _ _ Hrest Hi).
  intros r' d' a d'' Hs _. eapply insert_stage_nonempty; eauto.
Qed.

(** Whenever [init_db] completes, the stage catalog is not empty. *)
Lemma init_db_stages_nonempty t0 db u db1 :
  init_db t0 db = inr (u, db1) -> service_stages db1 <> [].
Proof.
  unfold init_db. intros H.
  apply bind_inv in H. destruct H as (n & d0 & Hq & H).
  unfold query in Hq. injection Hq as <- <-.
  apply bind_inv in H. destruct H as ([] & d1 & Hseed & H).
  assert (N1 : service_stages d1 <> []).
  { destruct (service_stages db) as [|s l] eqn:E.
    - cbn [List.length Z.of_nat Z.eqb] in Hseed.
      eapply executemany_insert_stage_nonempty; [|exact Hseed]. discriminate.
    - cbn [List.length] in Hseed. rewrite Nat2Z.inj_succ in Hseed.
      destruct (Z.succ _ =? 0) eqn:Z0; [apply Z.eqb_eq in Z0; lia|].
      unfold ret in Hseed. injection Hseed as <-. rewrite E. discriminate. }
  apply bind_inv in H. destruct H as (np & d1' & Hq & H).
  unfold query in Hq. injection Hq as <- <-.
  apply bind_inv in H. destruct H as ([] & d2 & Hpk & H).
  assert (N2 : service_stages d2 <> []).
  { destruct (Z.of_nat (List.length (packages d1)) =? 0).
    - apply (fun S => executemany_preserves (fun d => service_stages d <> [])
                        _ _ S _ _ _ Hpk N1).
      intros [[[nm pr] dur] act] d' a d'' Hs N.
      apply insert_package_stages in Hs. now rewrite Hs.
    - unfold ret in Hpk. now injection Hpk as <-. }
  apply bind_inv in H. destruct H as (na & d2' & Hq & H).
  unfold query in Hq. injection Hq as <- <-.
  destruct (Z.of_nat (List.length (filter _ (users d2))) =? 0).
  - apply bind_inv in H. destruct H as (rid & d3 & Hu & H).
    unfold ret in H. injection H as _ <-.
    apply insert_user_stages in Hu. now rewrite Hu.
  - unfold ret in H. now injection H as _ <-.
Qed.

(** ** The gates of the "Create Booking" page *)

Lemma In_select_vehicles_of (db : database) (user v : Z) :
  In v (map vehicle_id (select_vehicles_of db user)) ->
  exists r, In r (vehicles db) /\ vehicle_id r = v /\ v_customer_id r = user.
Proof.
  unfold select_vehicles_of. rewrite in_map_iff. intros [r [E Hr]].
  apply In_order_by, filter_In in Hr. destruct Hr as [Hr Hc].
  apply Z.eqb_eq in Hc. eauto.
Qed.

Lemma In_get_active_packages (db : database) (p : Z) :
  In p (map package_id (get_active_packages db)) ->
  exists r, In r (packages db) /\ package_id r = p /\ is_active r = true.
Proof.
  unfold get_active_packages. rewrite in_map_iff. intros [r [E Hr]].
  apply In_order_by, filter_In in Hr. destruct Hr as [Hr Hc]. eauto.
Qed.

Lemma vehicle_unavailable_not_listed db user v :
  vehicle_unavailable db user v ->
  mem_z v (map vehicle_id (select_vehicles_of db user)) = false.
Proof.
  intros H. apply mem_z_false. intros Hin.
  apply In_select_vehicles_of in Hin. destruct Hin as (r & Hr & Hv & Hc).
  exact (H r Hr Hv Hc).
Qed.

Lemma package_unavailable_not_listed db p :
  package_unavailable db p ->
  mem_z p (map package_id (get_active_packages db)) = false.
Proof.
  intros H. apply mem_z_false. intros Hin.
  apply In_get_active_packages in Hin. destruct Hin as (r & Hr & Hp & Ha).
  rewrite (H r Hr Hp) in Ha. discriminate.
Qed.

Lemma create_gate_outcome db user v p sched nt now :
  vehicle_unavailable db user v \/ package_unavailable db p ->
  page_customer_dashboard db user v p sched nt now = NotOffered \/
  exists msg, page_customer_dashboard db user v p sched nt now = Notice Warning msg.
Proof.
  intros H. unfold page_customer_dashboard.
  destruct (is_nil (select_vehicles_of db user)); [right; eauto|].
  destruct (is_nil (get_active_packages db)); [right; eauto|].
  destruct H as [H|H].
  - rewrite (vehicle_unavailable_not_listed _ _ _ H). now left.
  - rewrite (package_unavailable_not_listed _ _ H).
    destruct (mem_z v _); now left.
Qed.

Lemma create_on_empty_catalog db user v p sched nt now :
  service_stages db = [] ->
  forall bid db', page_customer_dashboard db user v p sched nt now <> Committed bid db'.
Proof.
  intros E bid db' H. apply page_customer_dashboard_inv in H.
  destruct H as (_ & _ & H). apply create_booking_click_inv in H.
  destruct H as (first & pkg & Hf & _).
  unfold select_first_stage in Hf. rewrite E in Hf. discriminate.
Qed.

Lemma db_after_not_committed {A} (db : database) (o : outcome A) :
  (forall a db', o <> Committed a db') -> db_after db o = db.
Proof.
  destruct o; intros H; try reflexivity. exfalso. now apply (H a db').
Qed.

(** C6 as stated fails: with no vehicle on file the page answers with a
    warning, and with the wanted package switched off it answers with
    another; neither run raises an error, and there is no NotFound or
    InvalidState among the exceptions of the program. *)
Lemma create_booking_warns_instead_of_failing :
  has_vehicle no_vehicle_db 1 = false /\
  page_customer_dashboard no_vehicle_db 2 1 1 "" "" "2025-12-27 10:00:00"
  = Notice Warning "Add a vehicle first to create a booking." /\
  option_map is_active (find_package closed_shop_db 1) = Some false /\
  page_customer_dashboard closed_shop_db 2 1 1 "" "" "2025-12-27 10:00:00"
  = Notice Warning "No packages available." /\
  (forall e,
     page_customer_dashboard no_vehicle_db 2 1 1 "" "" "2025-12-27 10:00:00"
     <> Uncaught e /\
     page_customer_dashboard closed_shop_db 2 1 1 "" "" "2025-12-27 10:00:00"
     <> Uncaught e).
Proof.
  repeat split; try (vm_compute; reflexivity); vm_compute; discriminate.
Qed.

(** ** Bookings that are no longer offered for a stage update *)

Lemma NoDup_key_inj {A} (key : A -> Z) (l : list A) (a b : A) :
  NoDup (map key l) -> In a l -> In b l -> key a = key b -> a = b.
Proof.
  induction l as [|x l IH]; cbn; intros N Ha Hb E; [destruct Ha|].
  inversion N as [|? ? Hx N']; subst.
  destruct Ha as [->|Ha], Hb as [->|Hb]; auto.
  - exfalso. apply Hx. rewrite E. now apply in_map.
  - exfalso. apply Hx. rewrite <- E. now apply in_map.
Qed.

(** C5 (amended): a booking whose status is Completed or Cancelled is not
    among the bookings the "Update Stage" page offers, so no stage update
    can be run on it: the page answers NotOffered, or the notice "No
    bookings to update." when no booking is open at all, raises nothing and
    leaves the database as it was. *)
Theorem update_stage_not_offered_when_closed :
  forall db bid b staff nm ep t1 t2,
    NoDup (map booking_id (bookings db)) ->
    find_booking db bid = Some b ->
    status b = Completed \/ status b = Cancelled ->
    (page_staff_dashboard_update_stage db staff bid nm ep t1 t2 = NotOffered \/
     page_staff_dashboard_update_stage db staff bid nm ep t1 t2
     = Notice Info "No bookings to update.") /\
    db_after db (page_staff_dashboard_update_stage db staff bid nm ep t1 t2) = db.
Proof.
  intros db bid b staff nm ep t1 t2 Hpk Hfb Hst.
  assert (Hno : mem_z bid (select_active_booking_ids db) = false).
  { apply mem_z_false. intros Hin.
    apply In_select_active_booking_ids in Hin. destruct Hin as (r & Hr & Hid & Hact).
    destruct (find_some _ _ Hfb) as [Hb Hbid]. apply Z.eqb_eq in Hbid.
    assert (r = b) as ->.
    { apply (NoDup_key_inj booking_id (bookings db)); auto. congruence. }
    destruct Hst as [E|E]; rewrite E in Hact; discriminate. }
  assert (Hout :
    page_staff_dashboard_update_stage db staff bid nm ep t1 t2 = NotOffered \/
    page_staff_dashboard_update_stage db staff bid nm ep t1 t2
    = Notice Info "No bookings to update.").
  { unfold page_staff_dashboard_update_stage.
    destruct (is_nil (select_active_booking_ids db)); [now right|].
    rewrite Hno. now left. }
  split; [exact Hout|]. destruct Hout as [-> | ->]; reflexivity.
Qed.

Lemma update_stage_not_offered_when_closed_witness :
  (page_staff_dashboard_update_stage completed_db 1 1 "Washing" true
     "2025-12-27 11:00:00" "2025-12-27 11:00:01" = NotOffered \/
   page_staff_dashboard_update_stage completed_db 1 1 "Washing" true
     "2025-12-27 11:00:00" "2025-12-27 11:00:01"
   = Notice Info "No bookings to update.") /\
  db_after completed_db
    (page_staff_dashboard_update_stage completed_db 1 1 "Washing" true
       "2025-12-27 11:00:00" "2025-12-27 11:00:01") = completed_db.
Proof.
  apply (update_stage_not_offered_when_closed completed_db 1
           (mk_booking 1 2 1 1 "2025-12-27 10:00:00" None Completed (Some 4) None)).
  - vm_compute. repeat constructor. intros [].
  - reflexivity.
  - now left.
Defined.

(** C5 as stated fails: for the completed booking of [completed_db] the
    page shows a notice; no exception is raised, and the program has no
    InvalidTransition error to raise. *)
Lemma update_stage_on_completed_raises_nothing :
  option_map status (find_booking completed_db 1) = Some Completed /\
  page_staff_dashboard_update_stage completed_db 1 1 "Washing" true
    "2025-12-27 11:00:00" "2025-12-27 11:00:01"
  = Notice Info "No bookings to update." /\
  (forall e,
     page_staff_dashboard_update_stage completed_db 1 1 "Washing" true
       "2025-12-27 11:00:00" "2025-12-27 11:00:01" <> Uncaught e).
Proof.
  split; [vm_compute; reflexivity|].
  split; [vm_compute; reflexivity|].
  intros e. vm_compute. discriminate.
Qed.

(** ** Ending the previous stage *)

(** C4 (amended): an "Update Stage" with "End previous stage" ticked on a
    booking whose current stage is [cs] sets [end_time] to the given time
    on every history entry of (booking, [cs]) that was open, not only on
    the latest one; every other entry is left as it was, the table grows
    by the one new entry, and when no entry was open the old entries are
    all unchanged and the update still commits. *)
Theorem end_previous_closes_all_open_entries :
  forall db staff bid nm t1 t2 u db' b cs,
    page_staff_dashboard_update_stage db staff bid nm true t1 t2 = Committed u db' ->
    find_booking db bid = Some b ->
    current_stage_id b = Some cs ->
    (List.length (booking_stage_history db')
     = S (List.length (booking_stage_history db)))%nat /\
    (forall i h,
       nth_error (booking_stage_history db) i = Some h ->
       nth_error (booking_stage_history db') i
       = Some (if open_at bid cs h then set_end_time h (Some t1) else h)) /\
    ((forall h, In h (booking_stage_history db) -> open_at bid cs h = false) ->
     firstn (List.length (booking_stage_history db)) (booking_stage_history db')
     = booking_stage_history db).
Proof.
  intros db staff bid nm t1 t2 u db' b cs Hrun Hfb Hcs.
  destruct (page_update_stage_inv _ _ _ _ _ _ _ _ _ Hrun) as [_ [b0 [Hfb0 Hclick]]].
  rewrite Hfb in Hfb0. injection Hfb0 as <-. rewrite Hcs in Hclick.
  destruct (update_stage_click_inv _ _ _ _ _ _ _ _ _ _ _ Hclick)
    as (sid & ord & _ & _ & _ & _ & _ & _ & _ & _ & _ & _ & _ & _ & Hh).
  cbn [history_after_close] in Hh. rewrite Hh.
  set (close := fun h => if open_at bid cs h then set_end_time h (Some t1) else h).
  split; [|split].
  - rewrite length_app, length_map. cbn. lia.
  - intros i h Hi. rewrite nth_error_app1.
    + rewrite nth_error_map, Hi. reflexivity.
    + rewrite length_map. apply nth_error_Some. congruence.
  - intros Hnone.
    replace (List.length (booking_stage_history db))
      with (List.length (map close (booking_stage_history db)) + 0)%nat
      by (rewrite length_map; lia).
    rewrite firstn_app_2. cbn. rewrite app_nil_r.
    rewrite <- (map_id (booking_stage_history db)) at 2.
    apply map_ext_in. intros h Hin. unfold close. now rewrite (Hnone h Hin).
Qed.

Lemma end_previous_closes_all_open_entries_witness :
  (List.length (booking_stage_history polishing_db)
   = S (List.length (booking_stage_history twice_drying_db)))%nat /\
  (forall i h,
     nth_error (booking_stage_history twice_drying_db) i = Some h ->
     nth_error (booking_stage_history polishing_db) i
     = Some (if open_at 1 2 h
             then set_end_time h (Some "2025-12-27 10:40:00") else h)) /\
  ((forall h, In h (booking_stage_history twice_drying_db) ->
              open_at 1 2 h = false) ->
   firstn (List.length (booking_stage_history twice_drying_db))
     (booking_stage_history polishing_db)
   = booking_stage_history twice_drying_db).
Proof.
  apply (end_previous_closes_all_open_entries twice_drying_db 1 1 "Polishing"
           "2025-12-27 10:40:00" "2025-12-27 10:40:01" tt polishing_db
           (mk_booking 1 2 1 1 "2025-12-27 10:00:00" None InProgress (Some 2) None)
           2).
  - reflexivity.
  - reflexivity.
  - reflexivity.
Defined.

(** C4 as stated fails: booking 1 of [twice_drying_db] has two open
    entries for Drying, its current stage; one "Update Stage" with "End
    previous stage" ticked ends both, so the older entry, which is not the
    most recent one, is modified as well. *)
Lemma end_previous_closes_older_entry_too :
  map (fun h => (history_id h, h_stage_id h, end_time h))
    (booking_stage_history twice_drying_db)
  = [(1, 2, None); (2, 2, None)] /\
  option_map current_stage_id (find_booking twice_drying_db 1) = Some (Some 2) /\
  page_staff_dashboard_update_stage twice_drying_db 1 1 "Polishing" true
    "2025-12-27 10:40:00" "2025-12-27 10:40:01" = Committed tt polishing_db /\
  map (fun h => (history_id h, h_stage_id h, end_time h))
    (booking_stage_history polishing_db)
  = [(1, 2, Some "2025-12-27 10:40:00"); (2, 2, Some "2025-12-27 10:40:00");
     (3, 3, None)].
Proof.
  repeat split; reflexivity.
Qed.

(** ** Frames: what the other statements leave alone *)

Lemma same_ledger_refl d : same_ledger d d.
Proof. repeat split. Qed.

Lemma same_ledger_trans d1 d2 d3 :
  same_ledger d1 d2 -> same_ledger d2 d3 -> same_ledger d1 d3.
Proof.
  unfold same_ledger. intros (A & B & C & D) (A' & B' & C' & D').
  repeat split; congruence.
Qed.

Lemma insert_stage_ledger nm ord db rid db' :
  insert_stage nm ord db = inr (rid, db') -> same_ledger db db'.
Proof.
  unfold insert_stage. destruct (_ || _); [discriminate|].
  intros H. injection H as _ <-. repeat split.
Qed.

Lemma insert_package_ledger nm pr dur act db rid db' :
  insert_package nm pr dur act db = inr (rid, db') -> same_ledger db db'.
Proof.
  unfold insert_package. destruct (_ || _); [discriminate|].
  intros H. injection H as _ <-. repeat split.
Qed.

Lemma insert_user_ledger nm ph em pw rl t db rid db' :
  insert_user nm ph em pw rl t db = inr (rid, db') -> same_ledger db db'.
Proof.
  unfold insert_user. destruct (_ || _); [discriminate|].
  intros H. injection H as _ <-. repeat split.
Qed.

(** [init_db] writes to the catalog and the users only. *)
Lemma init_db_ledger t0 db u db1 :
  init_db t0 db = inr (u, db1) -> same_ledger db db1.
Proof.
  unfold init_db. intros H.
  apply bind_inv in H. destruct H as (n & d0 & Hq & H).
  unfold query in Hq. injection Hq as <- <-.
  apply bind_inv in H. destruct H as ([] & d1 & Hseed & H).
  assert (L1 : same_ledger db d1).
  { destruct (Z.of_nat (List.length (service_stages db)) =? 0).
    - apply (fun S => executemany_preserves (same_ledger db) _ _ S _ _ _ Hseed
                        (same_ledger_refl db)).
      intros r d a d' Hs L. apply insert_stage_ledger in Hs.
      eapply same_ledger_trans; eassumption.
    - unfold ret in Hseed. injection Hseed as <-. apply same_ledger_refl. }
  apply bind_inv in H. destruct H as (np & d1' & Hq & H).
  unfold query in Hq. injection Hq as <- <-.
  apply bind_inv in H. destruct H as ([] & d2 & Hpk & H).
  assert (L2 : same_ledger db d2).
  { destruct (Z.of_nat (List.length (packages d1)) =? 0).
    - apply (fun S => executemany_preserves (same_ledger db) _ _ S _ _ _ Hpk L1).
      intros [[[nm pr] dur] act] d a d' Hs L. apply insert_package_ledger in Hs.
      eapply same_ledger_trans; eassumption.
    - unfold ret in Hpk. now injection Hpk as <-. }
  apply bind_inv in H. destruct H as (na & d2' & Hq & H).
  unfold query in Hq. injection Hq as <- <-.
  destruct (Z.of_nat (List.length (filter _ (users d2))) =? 0).
  - apply bind_inv in H. destruct H as (rid & d3 & Hu & H).
    unfold ret in H. injection H as _ <-.
    apply insert_user_ledger in Hu. eapply same_ledger_trans; eassumption.
  - unfold ret in H. now injection H as _ <-.
Qed.

(** The assignment loop writes to [booking_staff_assignment] only. *)
Lemma save_assignment_click_frame bsel chosen db u db' :
  save_assignment_click bsel chosen db = inr (u, db') ->
  users db' = users db /\ vehicles db' = vehicles db /\
  packages db' = packages db /\ service_stages db' = service_stages db /\
  bookings db' = bookings db /\
  booking_stage_history db' = booking_stage_history db /\
  payments db' = payments db.
Proof.
  revert db. induction chosen as [|[sid t] rest IH]; intros db H; cbn in H.
  - unfold ret in H. injection H as _ <-. repeat split.
  - apply bind_inv in H. destruct H as ([] & d & Hi & H).
    apply IH in H.
    assert (F : users d = users db /\ vehicles d = vehicles db /\
                packages d = packages db /\ service_stages d = service_stages db /\
                bookings d = bookings db /\
                booking_stage_history d = booking_stage_history db /\
                payments d = payments db).
    { unfold try_pass_integrity, insert_assignment in Hi.
      destruct (_ && _ && _).
      - injection Hi as <-. repeat split.
      - injection Hi as <-. repeat split. }
    intuition congruence.
Qed.

Lemma page_save_assignment_frame db bsel chosen :
  bookings (db_after db (page_staff_dashboard_save_assignment db bsel chosen))
  = bookings db /\
  booking_stage_history
    (db_after db (page_staff_dashboard_save_assignment db bsel chosen))
  = booking_stage_history db /\
  payments (db_after db (page_staff_dashboard_save_assignment db bsel chosen))
  = payments db.
Proof.
  unfold page_staff_dashboard_save_assignment, commit.
  repeat (match goal with |- context [if ?c then _ else _] => destruct c end;
          try (repeat split; reflexivity)).
  destruct (save_assignment_click bsel chosen db) as [e|[u d]] eqn:E;
    [repeat split; reflexivity|].
  apply save_assignment_click_frame in E. cbn. tauto.
Qed.

Lemma page_update_payment_frame db bsel m s now :
  bookings (db_after db (page_staff_dashboard_update_payment db bsel m s now))
  = bookings db /\
  booking_stage_history
    (db_after db (page_staff_dashboard_update_payment db bsel m s now))
  = booking_stage_history db /\
  booking_staff_assignment
    (db_after db (page_staff_dashboard_update_payment db bsel m s now))
  = booking_staff_assignment db.
Proof.
  unfold page_staff_dashboard_update_payment, commit, update_payment.
  repeat (match goal with |- context [if ?c then _ else _] => destruct c end;
          try (repeat split; reflexivity)).
Qed.

(** ** Open history entries across runs *)

Lemma filter_map_stable {A} (f : A -> bool) (g : A -> A) (l : list A) :
  (forall x, In x l -> f (g x) = f x) ->
  (forall x, In x l -> f x = true -> g x = x) ->
  filter f (map g l) = filter f l.
Proof.
  induction l as [|x l IH]; intros H1 H2; [reflexivity|]. cbn.
  rewrite (H1 x (or_introl eq_refl)).
  destruct (f x) eqn:E.
  - rewrite (H2 x (or_introl eq_refl) E). f_equal.
    apply IH; intros y Hy; [apply H1 | apply H2]; now right.
  - apply IH; intros y Hy; [apply H1 | apply H2]; now right.
Qed.

Lemma tidy_ext d d' bid :
  bookings d' = bookings d ->
  booking_stage_history d' = booking_stage_history d ->
  tidy d bid -> tidy d' bid.
Proof.
  unfold tidy, open_at_current, open_entries, find_booking.
  intros -> ->. tauto.
Qed.

Lemma In_open_entries db bid h :
  In h (open_entries db bid) <->
  In h (booking_stage_history db) /\ h_booking_id h = bid /\ end_time h = None.
Proof.
  unfold open_entries. rewrite filter_In, andb_true_iff, Z.eqb_eq.
  destruct (end_time h); cbn; intuition congruence.
Qed.

(** A stage update that ends the previous stage leaves a tidy booking with
    exactly one open entry. *)
Lemma update_stage_tidy db staff bid nm t1 t2 u db' :
  tidy db bid ->
  page_staff_dashboard_update_stage db staff bid nm true t1 t2 = Committed u db' ->
  List.length (open_entries db' bid) = 1%nat /\ tidy db' bid.
Proof.
  intros [_ Hcur] Hrun.
  destruct (page_update_stage_inv _ _ _ _ _ _ _ _ _ Hrun) as [_ [b [Hfb Hclick]]].
  destruct (update_stage_click_inv _ _ _ _ _ _ _ _ _ _ _ Hclick)
    as (sid & ord & _ & _ & _ & _ & _ & _ & _ & _ & _ & _ & _ & Hbk & Hh).
  assert (Hnone : filter (fun h => (h_booking_id h =? bid) && is_none (end_time h))
                    (history_after_close db bid (current_stage_id b) true t1) = []).
  { apply filter_nothing. intros x Hx.
    assert (Hold : forall h, In h (booking_stage_history db) ->
                     h_booking_id h = bid -> end_time h = None ->
                     current_stage_id b = Some (h_stage_id h)).
    { intros h Hin Hb He.
      assert (Ho : In h (open_entries db bid)) by (apply In_open_entries; auto).
      specialize (Hcur h Ho). rewrite Hfb in Hcur. cbn in Hcur. congruence. }
    unfold history_after_close in Hx.
    destruct (current_stage_id b) as [c|] eqn:Ec.
    - apply in_map_iff in Hx. destruct Hx as (h & <- & Hin).
      destruct (open_at bid c h) eqn:Eo.
      + cbn. apply andb_false_r.
      + destruct (h_booking_id h =? bid) eqn:Eb; [|reflexivity].
        destruct (end_time h) eqn:Ee; [reflexivity|].
        exfalso. unfold open_at in Eo. rewrite Eb, Ee in Eo.
        apply Z.eqb_eq in Eb. specialize (Hold h Hin Eb Ee).
        injection Hold as ->. rewrite Z.eqb_refl in Eo. discriminate.
    - destruct (h_booking_id x =? bid) eqn:Eb; [|reflexivity].
      destruct (end_time x) eqn:Ee; [reflexivity|].
      apply Z.eqb_eq in Eb. specialize (Hold x Hx Eb Ee). discriminate. }
  assert (Hopen : open_entries db' bid =
            [mk_history
               (next_rowid history_id
                  (history_after_close db bid (current_stage_id b) true t1)
                  (seq_history (sqlite_sequence db)))
               bid sid t2 None staff]).
  { unfold open_entries. rewrite Hh, filter_app, Hnone. cbn.
    now rewrite Z.eqb_refl. }
  split; [now rewrite Hopen|]. split; [rewrite Hopen; cbn; lia|].
  intros h Hin. rewrite Hopen in Hin. destruct Hin as [<-|[]]. cbn.
  unfold find_booking in *. rewrite Hbk.
  rewrite (find_map_update booking_id), Hfb; reflexivity.
Qed.

(** A stage update of another booking does not touch the open entries or
    the current stage of [bid]. *)
Lemma update_stage_other db staff b' nm ep t1 t2 u db' bid :
  b' <> bid ->
  page_staff_dashboard_update_stage db staff b' nm ep t1 t2 = Committed u db' ->
  open_entries db' bid = open_entries db bid /\
  find_booking db' bid = find_booking db bid.
Proof.
  intros Hne Hrun.
  destruct (page_update_stage_inv _ _ _ _ _ _ _ _ _ Hrun) as [_ [b [Hfb Hclick]]].
  destruct (update_stage_click_inv _ _ _ _ _ _ _ _ _ _ _ Hclick)
    as (sid & ord & _ & _ & _ & _ & _ & _ & _ & _ & _ & _ & _ & Hbk & Hh).
  split.
  - unfold open_entries. rewrite Hh, filter_app. cbn.
    destruct (b' =? bid) eqn:E; [apply Z.eqb_eq in E; contradiction|]. cbn.
    rewrite app_nil_r. unfold history_after_close.
    destruct (current_stage_id b) as [c|]; [destruct ep|]; try reflexivity.
    apply filter_map_stable.
    + intros h _. destruct (open_at b' c h) eqn:Eo; [|reflexivity].
      unfold open_at in Eo. apply andb_true_iff in Eo. destruct Eo as [Eo _].
      apply andb_true_iff in Eo. destruct Eo as [Eo _]. apply Z.eqb_eq in Eo.
      cbn. rewrite Eo, E. reflexivity.
    + intros h _ Hp. apply andb_true_iff in Hp. destruct Hp as [Hb _].
      apply Z.eqb_eq in Hb. unfold open_at.
      destruct (h_booking_id h =? b') eqn:E'; [|reflexivity].
      apply Z.eqb_eq in E'. congruence.
  - unfold find_booking. rewrite Hbk.
    apply (find_map_other booking_id); [reflexivity | exact Hne].
Qed.

Lemma create_booking_tidy db user v p sched nt now bid' db' bid :
  page_customer_dashboard db user v p sched nt now = Committed bid' db' ->
  tidy db bid -> tidy db' bid.
Proof.
  intros Hrun [Hlen Hcur].
  destruct (page_customer_dashboard_inv _ _ _ _ _ _ _ _ _ Hrun) as (_ & _ & Hclick).
  destruct (create_booking_click_inv _ _ _ _ _ _ _ _ _ Hclick)
    as (first & pkg & _ & _ & _ & _ & _ & _ & _ & _ & _ & _ & Hh & _ & Hb & _).
  assert (Ho : open_entries db' bid = open_entries db bid).
  { unfold open_entries. now rewrite Hh. }
  split; [now rewrite Ho|].
  intros h Hin. rewrite Ho in Hin. specialize (Hcur h Hin).
  unfold find_booking in *. rewrite Hb.
  destruct (find (fun r => booking_id r =? bid) (bookings db)) as [b|] eqn:F;
    [|discriminate].
  now rewrite (find_app_l _ _ _ _ F).
Qed.

Lemma page_tidy db u c bid :
  ends_previous_on bid c = true -> tidy db bid -> tidy (page db u c) bid.
Proof.
  intros Hc Ht. unfold page.
  destruct c as [v p sch nt now | b nm ep t1 t2 | bsel chosen | bsel m s now].
  - destruct (s_role u); try exact Ht.
    destruct (page_customer_dashboard db (s_user_id u) v p sch nt now)
      as [bid' d| | |] eqn:E; try exact Ht.
    cbn. eapply create_booking_tidy; eassumption.
  - assert (G : tidy (db_after db
                  (page_staff_dashboard_update_stage db (s_user_id u) b nm ep t1 t2))
                  bid).
    { destruct (page_staff_dashboard_update_stage db (s_user_id u) b nm ep t1 t2)
        as [x d| | |] eqn:E; try exact Ht.
      cbn. destruct (Z.eq_dec b bid) as [->|Hne].
      - cbn in Hc. rewrite Z.eqb_refl in Hc. cbn in Hc. subst ep.
        eapply update_stage_tidy; eassumption.
      - destruct (update_stage_other _ _ _ _ _ _ _ _ _ _ Hne E) as [Ho Hf].
        destruct Ht as [Hlen Hcur]. split; [now rewrite Ho|].
        intros h Hin. rewrite Ho in Hin. rewrite Hf. now apply Hcur. }
    destruct (s_role u); [exact Ht | exact G | exact G].
  - destruct (page_save_assignment_frame db bsel chosen) as (A & B & _).
    destruct (s_role u); [exact Ht | |]; eapply tidy_ext; eassumption.
  - destruct (page_update_payment_frame db bsel m s now) as (A & B & _).
    destruct (s_role u); [exact Ht | |]; eapply tidy_ext; eassumption.
Qed.

Lemma main_tidy db t0 u c bid :
  ends_previous_on bid c = true -> tidy db bid -> tidy (main db t0 u c) bid.
Proof.
  intros Hc Ht. unfold main.
  destruct (init_db t0 db) as [e|[x db1]] eqn:E; [exact Ht|].
  apply init_db_ledger in E. destruct E as (A & B & _).
  apply page_tidy; [exact Hc|]. eapply tidy_ext; eassumption.
Qed.

Lemma runs_tidy l : forall db bid,
  forallb (fun r => ends_previous_on bid (snd r)) l = true ->
  tidy db bid -> tidy (runs db l) bid.
Proof.
  unfold runs. induction l as [|[[t0 u] c] l IH]; intros db bid Hall Ht; [exact Ht|].
  cbn in Hall. apply andb_true_iff in Hall. destruct Hall as [Hc Hall].
  cbn [fold_left]. apply IH; [exact Hall|]. now apply main_tidy.
Qed.

Lemma runs_app db l1 l2 : runs db (l1 ++ l2) = runs (runs db l1) l2.
Proof. unfold runs. apply fold_left_app. Qed.

(** C3 (amended): starting from a state in which the booking is tidy (at
    most one open entry, and that one for its current stage; a booking
    without history is), after any sequence of runs in which every stage
    update of that booking has "End previous stage" ticked, a further
    stage update of the booking with the box ticked leaves at most one
    history entry of the booking with a NULL [end_time]. *)
Theorem open_entries_at_most_one_when_always_ended :
  forall db bid l t0 u nm t1 t2,
    tidy db bid ->
    forallb (fun r => ends_previous_on bid (snd r)) l = true ->
    (List.length
       (open_entries (runs db (l ++ [(t0, u, UpdateStage bid nm true t1 t2)])) bid)
     <= 1)%nat.
Proof.
  intros db bid l t0 u nm t1 t2 Ht Hall.
  apply runs_tidy; [|exact Ht].
  rewrite forallb_app, Hall. cbn. rewrite Z.eqb_refl. reflexivity.
Qed.

Lemma open_entries_at_most_one_when_always_ended_witness :
  (List.length
     (open_entries
        (runs booked_db
           ([("2025-12-27 10:10:00", admin_session,
              UpdateStage 1 "Drying" true "2025-12-27 10:10:01" "2025-12-27 10:10:02")]
            ++ [("2025-12-27 10:20:00", admin_session,
                 UpdateStage 1 "Polishing" true "2025-12-27 10:20:01"
                   "2025-12-27 10:20:02")])) 1)
   <= 1)%nat.
Proof.
  apply (open_entries_at_most_one_when_always_ended booked_db 1).
  - split.
    + vm_compute. repeat constructor.
    + intros h Hin. vm_compute in Hin. destruct Hin.
  - reflexivity.
Defined.

(** C3 as stated fails: after two stage updates of booking 1 that leave the
    previous stage open, a third one with "End previous stage" ticked ends
    only the entries of the stage the booking was in, and the booking is
    left with two open entries. *)
Lemma open_entries_two_after_ending_previous :
  last untidy_runs ("", admin_session, SaveAssignment 0 [])
  = ("2025-12-27 10:30:00", admin_session,
     UpdateStage 1 "Washing" true "2025-12-27 10:30:01" "2025-12-27 10:30:02") /\
  map (fun h => (h_stage_id h, end_time h))
    (history_of (runs booked_db untidy_runs) 1)
  = [(2, None); (3, Some "2025-12-27 10:30:01"); (1, None)] /\
  List.length (open_entries (runs booked_db untidy_runs) 1) = 2%nat.
Proof.
  repeat split; reflexivity.
Qed.

(** ** The "Update Payment" handler *)

Lemma page_update_payment_inv db bsel m s now u db' :
  page_staff_dashboard_update_payment db bsel m s now = Committed u db' ->
  In bsel (select_booking_ids_desc db) /\
  assignments_tab_shown db bsel = true /\
  (exists p, find_payment db bsel = Some p) /\
  payments db' =
    map (fun p => if p_booking_id p =? bsel
                  then set_payment p m s (paid_time_of s now) else p)
      (payments db) /\
  users db' = users db /\ packages db' = packages db /\
  service_stages db' = service_stages db /\ bookings db' = bookings db /\
  booking_stage_history db' = booking_stage_history db /\
  booking_staff_assignment db' = booking_staff_assignment db.
Proof.
  unfold page_staff_dashboard_update_payment, commit, update_payment.
  destruct (is_nil (select_booking_ids_desc db)); [discriminate|].
  destruct (mem_z bsel (select_booking_ids_desc db)) eqn:Hm; [|discriminate].
  destruct (assignments_tab_shown db bsel); [|discriminate]. cbn [negb].
  destruct (find_payment db bsel) as [p|]; [|discriminate].
  intros H. injection H as _ <-. apply mem_z_In in Hm. cbn.
  repeat split; eauto.
Qed.

Lemma page_update_payment_commits db bsel m s now p :
  In bsel (select_booking_ids_desc db) ->
  assignments_tab_shown db bsel = true ->
  find_payment db bsel = Some p ->
  exists db', page_staff_dashboard_update_payment db bsel m s now = Committed tt db'.
Proof.
  intros Hin Hshown Hp.
  unfold page_staff_dashboard_update_payment, commit, update_payment.
  destruct (select_booking_ids_desc db) as [|x l] eqn:E; [destruct Hin|].
  cbn [is_nil]. rewrite <- E in *.
  rewrite (proj2 (mem_z_In _ _) Hin), Hshown, Hp. cbn. eauto.
Qed.

Lemma find_payment_after_update db db' bsel m s pa b :
  payments db' =
    map (fun p => if p_booking_id p =? bsel then set_payment p m s pa else p)
      (payments db) ->
  find_payment db' b =
    if b =? bsel then option_map (fun p => set_payment p m s pa) (find_payment db b)
    else find_payment db b.
Proof.
  intros E. unfold find_payment. rewrite E.
  destruct (b =? bsel) eqn:Eb.
  - apply Z.eqb_eq in Eb. subst b.
    apply (find_map_update p_booking_id). reflexivity.
  - apply Z.eqb_neq in Eb.
    apply (find_map_other p_booking_id); [reflexivity | congruence].
Qed.

(** C7: an "Update Payment" on a booking that has a payment row commits
    and leaves the row with the chosen method and status and with
    [paid_at] set to the time of the run exactly when the new status is
    Paid, and NULL for every other status, whatever [paid_at] held before;
    so marking a payment Paid and then giving it another status such as
    Refunded leaves [paid_at] NULL. *)
Theorem update_payment_sets_paid_at :
  forall db bsel p,
    In bsel (select_booking_ids_desc db) ->
    assignments_tab_shown db bsel = true ->
    find_payment db bsel = Some p ->
    (forall m s now, exists db' p',
       page_staff_dashboard_update_payment db bsel m s now = Committed tt db' /\
       find_payment db' bsel = Some p' /\
       method p' = m /\ payment_status p' = s /\
       (s = Paid -> paid_at p' = Some now) /\
       (s <> Paid -> paid_at p' = None)) /\
    (forall m1 t1 m2 s2 t2, s2 <> Paid ->
       exists db1 db2 p1 p2,
         page_staff_dashboard_update_payment db bsel m1 Paid t1 = Committed tt db1 /\
         find_payment db1 bsel = Some p1 /\ paid_at p1 = Some t1 /\
         page_staff_dashboard_update_payment db1 bsel m2 s2 t2 = Committed tt db2 /\
         find_payment db2 bsel = Some p2 /\ paid_at p2 = None).
Proof.
  assert (Step : forall db bsel p m s now,
    In bsel (select_booking_ids_desc db) ->
    assignments_tab_shown db bsel = true ->
    find_payment db bsel = Some p ->
    exists db' p',
       page_staff_dashboard_update_payment db bsel m s now = Committed tt db' /\
       find_payment db' bsel = Some p' /\
       method p' = m /\ payment_status p' = s /\
       (s = Paid -> paid_at p' = Some now) /\
       (s <> Paid -> paid_at p' = None) /\
       In bsel (select_booking_ids_desc db') /\
       assignments_tab_shown db' bsel = true).
  { intros db bsel p m s now Hin Hshown Hp.
    destruct (page_update_payment_commits db bsel m s now p Hin Hshown Hp)
      as [db' Hrun].
    destruct (page_update_payment_inv _ _ _ _ _ _ _ Hrun)
      as (_ & _ & _ & Hpay & Hu & _ & _ & Hb & _ & _).
    exists db', (set_payment p m s (paid_time_of s now)).
    split; [exact Hrun|]. split.
    { rewrite (find_payment_after_update _ _ _ _ _ _ bsel Hpay), Z.eqb_refl, Hp.
      reflexivity. }
    cbn. unfold paid_time_of.
    repeat split.
    - intros ->. reflexivity.
    - intros Hs. destruct s; try reflexivity. congruence.
    - unfold select_booking_ids_desc in *. now rewrite Hb.
    - unfold assignments_tab_shown, select_staff_rows in *. now rewrite Hu. }
  intros db bsel p Hin Hshown Hp. split.
  - intros m s now.
    destruct (Step db bsel p m s now Hin Hshown Hp)
      as (db' & p' & A & B & C & D & E & F & _).
    exists db', p'. auto 10.
  - intros m1 t1 m2 s2 t2 Hs2.
    destruct (Step db bsel p m1 Paid t1 Hin Hshown Hp)
      as (db1 & p1 & A & B & _ & _ & E & _ & Hin1 & Hshown1).
    destruct (Step db1 bsel p1 m2 s2 t2 Hin1 Hshown1 B)
      as (db2 & p2 & A2 & B2 & _ & _ & _ & F2 & _).
    exists db1, db2, p1, p2. auto 10.
Qed.

Lemma update_payment_sets_paid_at_witness :
  (forall m s now, exists db' p',
     page_staff_dashboard_update_payment booked_db 1 m s now = Committed tt db' /\
     find_payment db' 1 = Some p' /\
     method p' = m /\ payment_status p' = s /\
     (s = Paid -> paid_at p' = Some now) /\
     (s <> Paid -> paid_at p' = None)) /\
  (forall m1 t1 m2 s2 t2, s2 <> Paid ->
     exists db1 db2 p1 p2,
       page_staff_dashboard_update_payment booked_db 1 m1 Paid t1
       = Committed tt db1 /\
       find_payment db1 1 = Some p1 /\ paid_at p1 = Some t1 /\
       page_staff_dashboard_update_payment db1 1 m2 s2 t2 = Committed tt db2 /\
       find_payment db2 1 = Some p2 /\ paid_at p2 = None).
Proof.
  apply (update_payment_sets_paid_at booked_db 1
           (mk_payment 1 1 500%float Cash Unpaid None)).
  - vm_compute. left. reflexivity.
  - reflexivity.
  - reflexivity.
Defined.

Lemma page_update_payment_amount db bsel m s now b :
  option_map amount
    (find_payment (db_after db (page_staff_dashboard_update_payment db bsel m s now)) b)
  = option_map amount (find_payment db b).
Proof.
  destruct (page_staff_dashboard_update_payment db bsel m s now)
    as [u db'| | |] eqn:E; try reflexivity.
  destruct (page_update_payment_inv _ _ _ _ _ _ _ E) as (_ & _ & _ & Hpay & _).
  cbn. rewrite (find_payment_after_update _ _ _ _ _ _ b Hpay).
  destruct (b =? bsel); [|reflexivity].
  destruct (find_payment db b); reflexivity.
Qed.

Lemma main_update_payment_amount db t0 u c b :
  is_update_payment c = true ->
  option_map amount (find_payment (main db t0 u c) b)
  = option_map amount (find_payment db b).
Proof.
  intros Hc. destruct c as [| | |bsel m s now]; try discriminate.
  unfold main. destruct (init_db t0 db) as [e|[x db1]] eqn:E; [reflexivity|].
  apply init_db_ledger in E. destruct E as (_ & _ & _ & Hp).
  assert (F : find_payment db1 b = find_payment db b).
  { unfold find_payment. now rewrite Hp. }
  rewrite <- F. unfold page.
  destruct (s_role u); [reflexivity | |]; apply page_update_payment_amount.
Qed.

(** C10: a committed "Update Payment" keeps the [payment_id],
    [booking_id] and [amount] of every payment row and leaves the rows of
    other bookings as they were; hence over any sequence of runs that
    press only "Update Payment" the amount held for a booking stays the
    one recorded before the sequence, that is, at creation. *)
Theorem update_payment_keeps_amount :
  (forall db bsel m s now u db',
     page_staff_dashboard_update_payment db bsel m s now = Committed u db' ->
     map payment_id (payments db') = map payment_id (payments db) /\
     map p_booking_id (payments db') = map p_booking_id (payments db) /\
     map amount (payments db') = map amount (payments db) /\
     (forall i p, nth_error (payments db) i = Some p -> p_booking_id p <> bsel ->
                  nth_error (payments db') i = Some p)) /\
  (forall db l b,
     forallb (fun r => is_update_payment (snd r)) l = true ->
     option_map amount (find_payment (runs db l) b)
     = option_map amount (find_payment db b)).
Proof.
  split.
  - intros db bsel m s now u db' Hrun.
    destruct (page_update_payment_inv _ _ _ _ _ _ _ Hrun) as (_ & _ & _ & Hpay & _).
    rewrite Hpay. repeat split.
    + rewrite map_map. apply map_ext. intros p.
      destruct (p_booking_id p =? bsel); reflexivity.
    + rewrite map_map. apply map_ext. intros p.
      destruct (p_booking_id p =? bsel); reflexivity.
    + rewrite map_map. apply map_ext. intros p.
      destruct (p_booking_id p =? bsel); reflexivity.
    + intros i p Hi Hne. rewrite nth_error_map, Hi. cbn.
      destruct (p_booking_id p =? bsel) eqn:E; [|reflexivity].
      apply Z.eqb_eq in E. contradiction.
  - intros db l. revert db. unfold runs.
    induction l as [|[[t0 u] c] l IH]; intros db b Hall; [reflexivity|].
    cbn in Hall. apply andb_true_iff in Hall. destruct Hall as [Hc Hall].
    cbn [fold_left]. rewrite (IH _ b Hall).
    now apply main_update_payment_amount.
Qed.

Lemma update_payment_keeps_amount_witness :
  (map payment_id (payments paid_db) = map payment_id (payments booked_db) /\
   map p_booking_id (payments paid_db) = map p_booking_id (payments booked_db) /\
   map amount (payments paid_db) = map amount (payments booked_db) /\
   (forall i p, nth_error (payments booked_db) i = Some p -> p_booking_id p <> 1 ->
                nth_error (payments paid_db) i = Some p)) /\
  option_map amount
    (find_payment
       (runs booked_db
          [("2025-12-27 11:00:00", admin_session,
            UpdatePayment 1 Card Paid "2025-12-27 11:00:01");
           ("2025-12-27 12:00:00", admin_session,
            UpdatePayment 1 Online Refunded "2025-12-27 12:00:01")]) 1)
  = option_map amount (find_payment booked_db 1).
Proof.
  destruct update_payment_keeps_amount as [A B]. split.
  - apply (A booked_db 1 Card Paid "2025-12-27 11:00:00" tt paid_db). reflexivity.
  - apply (B booked_db). reflexivity.
Defined.

(** ** The "Save Assignment" handler *)

Lemma select_booking_ids_desc_has db b :
  In b (select_booking_ids_desc db) -> has_booking db b = true.
Proof.
  unfold select_booking_ids_desc, has_booking. rewrite in_map_iff.
  intros (r & E & Hr). apply In_order_by in Hr.
  apply mem_z_In, in_map_iff. eauto.
Qed.

Lemma select_staff_rows_has db s :
  In s (map user_id (select_staff_rows db)) -> has_user db s = true.
Proof.
  unfold select_staff_rows, has_user. rewrite in_map_iff.
  intros (r & E & Hr). apply In_order_by, filter_In in Hr.
  apply mem_z_In, in_map_iff. exists r. tauto.
Qed.

Lemma existsb_filter_nonempty {A} (f : A -> bool) (l : list A) :
  existsb f l = true <-> filter f l <> [].
Proof.
  induction l as [|x l IH]; cbn; [split; [discriminate | congruence]|].
  destruct (f x); cbn; [split; [discriminate | reflexivity] | exact IH].
Qed.

(** One pass of the loop body, for references that exist: the row is
    appended unless the pair is already there, and nothing is raised. *)
Lemma assign_one db b s t :
  has_booking db b = true -> has_user db s = true ->
  try_pass_integrity (insert_assignment b s t) db
  = inr (tt, if existsb (assigned b s) (booking_staff_assignment db)
             then db
             else with_assignments db
                    (booking_staff_assignment db ++ [mk_assignment b s t])).
Proof.
  intros Hb Hs. unfold try_pass_integrity, insert_assignment.
  rewrite Hb, Hs. destruct (existsb _ _); reflexivity.
Qed.


Lemma save_assignment_click_app bsel pre post db d u :
  save_assignment_click bsel pre db = inr (u, d) ->
  save_assignment_click bsel (pre ++ post) db = save_assignment_click bsel post d.
Proof.
  revert db. induction pre as [|[sid t] pre IH]; intros db H; cbn in *.
  - unfold ret in H. now injection H as _ <-.
  - unfold bind in *.
    destruct (try_pass_integrity (insert_assignment bsel sid t) db) as [e|[x d1]];
      [discriminate|].
    now apply IH.
Qed.

Lemma page_save_assignment_inv db bsel chosen u db' :
  page_staff_dashboard_save_assignment db bsel chosen = Committed u db' ->
  In bsel (select_booking_ids_desc db) /\
  assignments_tab_shown db bsel = true /\
  (forall sid t, In (sid, t) chosen -> In sid (map user_id (select_staff_rows db))) /\
  save_assignment_click bsel chosen db = inr (u, db').
Proof.
  unfold page_staff_dashboard_save_assignment, commit.
  destruct (is_nil (select_booking_ids_desc db)); [discriminate|].
  destruct (mem_z bsel (select_booking_ids_desc db)) eqn:Hm; [|discriminate].
  destruct (assignments_tab_shown db bsel); [|discriminate].
  destruct (forallb _ chosen) eqn:Hall; [|discriminate]. cbn [negb].
  destruct (save_assignment_click bsel chosen db) as [e|[x d]]; [discriminate|].
  intros H. injection H as -> ->. apply mem_z_In in Hm.
  repeat split; auto.
  intros sid t Hin. rewrite forallb_forall in Hall.
  apply mem_z_In. exact (Hall (sid, t) Hin).
Qed.

Lemma page_save_assignment_single db b s t :
  In b (select_booking_ids_desc db) ->
  assignments_tab_shown db b = true ->
  In s (map user_id (select_staff_rows db)) ->
  page_staff_dashboard_save_assignment db b [(s, t)]
  = Committed tt
      (if existsb (assigned b s) (booking_staff_assignment db)
       then db
       else with_assignments db
              (booking_staff_assignment db ++ [mk_assignment b s t])).
Proof.
  intros Hb Hshown Hs.
  unfold page_staff_dashboard_save_assignment, commit.
  destruct (select_booking_ids_desc db) as [|x l] eqn:E; [destruct Hb|].
  cbn [is_nil]. rewrite <- E in *.
  rewrite (proj2 (mem_z_In _ _) Hb), Hshown. cbn [negb forallb fst].
  rewrite (proj2 (mem_z_In _ _) Hs). cbn [negb andb save_assignment_click].
  unfold bind. rewrite assign_one;
    [reflexivity | now apply select_booking_ids_desc_has
     | now apply select_staff_rows_has].
Qed.

(** C8: pressing "Save Assignment" twice for the same booking and staff
    member commits both times, and afterwards the pair has exactly one
    assignment row; the second press changes nothing and raises nothing.
    The table is taken with at most one row for the pair, as its primary
    key keeps it. *)
Theorem assign_twice_one_row :
  forall db b s t1 t2,
    In b (select_booking_ids_desc db) ->
    assignments_tab_shown db b = true ->
    In s (map user_id (select_staff_rows db)) ->
    (List.length (assignments_of db b s) <= 1)%nat ->
    exists db1,
      page_staff_dashboard_save_assignment db b [(s, t1)] = Committed tt db1 /\
      page_staff_dashboard_save_assignment db1 b [(s, t2)] = Committed tt db1 /\
      List.length (assignments_of db1 b s) = 1%nat.
Proof.
  intros db b s t1 t2 Hb Hshown Hs Hpk.
  rewrite (page_save_assignment_single db b s t1 Hb Hshown Hs).
  destruct (existsb (assigned b s) (booking_staff_assignment db)) eqn:Ex.
  - exists db. split; [reflexivity|]. split.
    + rewrite (page_save_assignment_single db b s t2 Hb Hshown Hs), Ex. reflexivity.
    + apply existsb_filter_nonempty in Ex. unfold assignments_of in *.
      destruct (filter (assigned b s) (booking_staff_assignment db)) as [|x [|y l]];
        [congruence | reflexivity | cbn in Hpk; lia].
  - set (db1 := with_assignments db
                  (booking_staff_assignment db ++ [mk_assignment b s t1])).
    assert (Ex1 : existsb (assigned b s) (booking_staff_assignment db1) = true).
    { cbn. rewrite existsb_app. cbn. unfold assigned at 2. cbn.
      rewrite !Z.eqb_refl. cbn. now rewrite orb_true_r. }
    exists db1. split; [reflexivity|]. split.
    + rewrite (page_save_assignment_single db1 b s t2 Hb Hshown Hs), Ex1.
      reflexivity.
    + unfold assignments_of. cbn. rewrite filter_app. cbn.
      unfold assigned at 2. cbn. rewrite !Z.eqb_refl. cbn.
      rewrite filter_nothing; [reflexivity|].
      intros x Hx. destruct (assigned b s x) eqn:Ea; [|reflexivity].
      assert (existsb (assigned b s) (booking_staff_assignment db) = true).
      { apply existsb_exists. eauto. }
      congruence.
Qed.

Lemma assign_twice_one_row_witness :
  exists db1,
    page_staff_dashboard_save_assignment booked_db 1 [(1, "2025-12-27 10:05:00")]
    = Committed tt db1 /\
    page_staff_dashboard_save_assignment db1 1 [(1, "2025-12-27 10:06:00")]
    = Committed tt db1 /\
    List.length (assignments_of db1 1 1) = 1%nat.
Proof.
  apply (assign_twice_one_row booked_db 1 1).
  - vm_compute. left. reflexivity.
  - reflexivity.
  - vm_compute. left. reflexivity.
  - vm_compute. repeat constructor.
Defined.



(** * Further properties of the program *)

(** ** ORDER BY *)

Lemma insert_by_perm {A} (le : A -> A -> bool) (x : A) (l : list A) :
  Permutation (insert_by le x l) (x :: l).
Proof.
  induction l as [|y l IH]; cbn; [reflexivity|].
  destruct (le x y); [reflexivity|].
  rewrite IH. apply perm_swap.
Qed.

Lemma order_by_perm {A} (le : A -> A -> bool) (l : list A) :
  Permutation (order_by le l) l.
Proof.
  unfold order_by. induction l as [|x l IH]; cbn; [reflexivity|].
  rewrite insert_by_perm. now apply perm_skip.
Qed.

Lemma insert_by_sorted {A} (key : A -> Z) (x : A) (l : list A) :
  StronglySorted (fun a b => key a <= key b) l ->
  StronglySorted (fun a b => key a <= key b)
    (insert_by (fun a b => key a <=? key b) x l).
Proof.
  induction l as [|y l IH]; intros S; cbn.
  - constructor; constructor.
  - apply StronglySorted_inv in S. destruct S as [S F].
    destruct (key x <=? key y) eqn:E.
    + apply Z.leb_le in E. constructor.
      * constructor; assumption.
      * constructor; [exact E|].
        eapply Forall_impl; [|exact F]. cbn. intros a Ha. lia.
    + apply Z.leb_gt in E. constructor; [now apply IH|].
      rewrite Forall_forall in *. intros a Ha.
      apply (Permutation_in _ (insert_by_perm _ x l)) in Ha.
      destruct Ha as [<-|Ha]; [lia | now apply F].
Qed.

Lemma order_by_sorted {A} (key : A -> Z) (l : list A) :
  StronglySorted (fun a b => key a <= key b)
    (order_by (fun a b => key a <=? key b) l).
Proof.
  unfold order_by. induction l as [|x l IH]; cbn; [constructor|].
  now apply insert_by_sorted.
Qed.

(** X1: the stage list offered on the "Update Stages" tab holds every row
    of the stage table exactly once, in ascending [stage_order]. *)
Theorem stage_list_ascending :
  forall db, exists l,
    get_stage_list db = map (fun s => (stage_id s, stage_name s)) l /\
    Permutation l (service_stages db) /\
    StronglySorted (fun a b => stage_order a <= stage_order b) l.
Proof.
  intros db.
  exists (order_by (fun a b => stage_order a <=? stage_order b) (service_stages db)).
  split; [reflexivity|]. split; [apply order_by_perm | apply order_by_sorted].
Qed.

(** ** The stage map under unique names *)

Lemma NoDup_map_In_inj {A B} (f : A -> B) (l : list A) (a b : A) :
  NoDup (map f l) -> In a l -> In b l -> f a = f b -> a = b.
Proof.
  induction l as [|x l IH]; cbn; intros N Ha Hb E; [destruct Ha|].
  inversion N as [|? ? Hx N']; subst.
  destruct Ha as [->|Ha], Hb as [->|Hb]; auto.
  - exfalso. apply Hx. rewrite E. now apply in_map.
  - exfalso. apply Hx. rewrite <- E. now apply in_map.
Qed.

Lemma stage_map_of_lookup (l : list (Z * string)) (k : string) (v : Z) :
  NoDup (map snd l) -> In (v, k) l -> dict_get (stage_map_of l) k = Some v.
Proof.
  intros N Hin.
  destruct (stage_map_of_defined l k v Hin) as [v' Hv'].
  rewrite Hv'. f_equal.
  apply stage_map_of_get in Hv'.
  assert (E : (v', k) = (v, k)).
  { apply (NoDup_map_In_inj snd l); auto. }
  congruence.
Qed.

(** X2: when stage names are distinct, as UNIQUE(stage_name) keeps them,
    the name of every stored stage is looked up in the stage map to the id
    of that stage, and the map has no other key. *)
Theorem stage_map_round_trip :
  forall db s,
    NoDup (map stage_name (service_stages db)) ->
    In s (service_stages db) ->
    dict_get (stage_map_of (get_stage_list db)) (stage_name s) = Some (stage_id s) /\
    (forall k, mem_string k (dict_keys (stage_map_of (get_stage_list db))) = true ->
               exists s', In s' (service_stages db) /\ stage_name s' = k).
Proof.
  intros db s N Hs. split.
  - apply stage_map_of_lookup.
    + unfold get_stage_list. rewrite map_map. cbn.
      eapply Permutation_NoDup; [|exact N].
      apply Permutation_map. symmetry. apply order_by_perm.
    + apply In_get_stage_list. eauto.
  - intros k Hk. apply dict_get_keys in Hk. destruct Hk as [v Hv].
    apply stage_map_of_get, In_get_stage_list in Hv.
    destruct Hv as (s' & Hs' & _ & Hn). eauto.
Qed.

Lemma stage_map_round_trip_witness :
  dict_get (stage_map_of (get_stage_list shop_db)) "Polishing" = Some 3 /\
  (forall k, mem_string k (dict_keys (stage_map_of (get_stage_list shop_db))) = true ->
             exists s', In s' (service_stages shop_db) /\ stage_name s' = k).
Proof.
  apply (stage_map_round_trip shop_db (mk_stage 3 "Polishing" 3)).
  - vm_compute. repeat constructor; cbn; intuition discriminate.
  - vm_compute. auto.
Defined.

(** ** What a stage update leaves alone *)

Lemma history_of_after_update_stage db bid cs ep t1 new b' :
  b' <> bid -> h_booking_id new = bid ->
  filter (fun h => h_booking_id h =? b')
    (history_after_close db bid cs ep t1 ++ [new])
  = history_of db b'.
Proof.
  intros Hne Hnew. rewrite filter_app. cbn. rewrite Hnew.
  destruct (bid =? b') eqn:E; [apply Z.eqb_eq in E; congruence|].
  rewrite app_nil_r. unfold history_after_close, history_of.
  destruct cs as [c|]; [destruct ep|]; try reflexivity.
  apply filter_map_stable.
  - intros h _. destruct (open_at bid c h); reflexivity.
  - intros h _ Hb. apply Z.eqb_eq in Hb. unfold open_at.
    destruct (h_booking_id h =? bid) eqn:E'; [|reflexivity].
    apply Z.eqb_eq in E'. congruence.
Qed.

(** X3: a committed "Update Stage" writes to the chosen booking and to its
    history only: the payment rows (so a completed booking is not marked
    paid), the assignments, the users and the catalog are as before, and
    so are the row and the history of every other booking. *)
Theorem update_stage_frame :
  forall db staff bid nm ep t1 t2 u db',
    page_staff_dashboard_update_stage db staff bid nm ep t1 t2 = Committed u db' ->
    payments db' = payments db /\
    booking_staff_assignment db' = booking_staff_assignment db /\
    users db' = users db /\ vehicles db' = vehicles db /\
    packages db' = packages db /\ service_stages db' = service_stages db /\
    (forall b', b' <> bid ->
       find_booking db' b' = find_booking db b' /\
       history_of db' b' = history_of db b').
Proof.
  intros db staff bid nm ep t1 t2 u db' Hrun.
  destruct (page_update_stage_inv _ _ _ _ _ _ _ _ _ Hrun) as [_ [b [Hfb Hclick]]].
  destruct (update_stage_click_inv _ _ _ _ _ _ _ _ _ _ _ Hclick)
    as (sid & ord & _ & _ & _ & _ & _ & Hu & Hv & Hp & Hs & Ha & Hpay & Hbk & Hh).
  repeat (split; [assumption|]).
  intros b' Hne. split.
  - unfold find_booking. rewrite Hbk.
    apply (find_map_other booking_id); [reflexivity | congruence].
  - unfold history_of at 1. rewrite Hh.
    now apply history_of_after_update_stage.
Qed.

Lemma update_stage_frame_witness :
  payments completed_db = payments booked_db /\
  booking_staff_assignment completed_db = booking_staff_assignment booked_db /\
  users completed_db = users booked_db /\ vehicles completed_db = vehicles booked_db /\
  packages completed_db = packages booked_db /\
  service_stages completed_db = service_stages booked_db /\
  (forall b', b' <> 1 ->
     find_booking completed_db b' = find_booking booked_db b' /\
     history_of completed_db b' = history_of booked_db b').
Proof.
  apply (update_stage_frame booked_db 1 1 "Completed" true
           "2025-12-27 10:30:00" "2025-12-27 10:30:01" tt completed_db).
  reflexivity.
Defined.

(** ** init_db, again *)

(** A property of the tables kept by each of the three seeding INSERTs is
    kept by [init_db]. *)
Lemma init_db_preserves (P : database -> Prop) t0 db u db1 :
  (forall nm ord d r d', insert_stage nm ord d = inr (r, d') -> P d -> P d') ->
  (forall nm pr dur act d r d',
     insert_package nm pr dur act d = inr (r, d') -> P d -> P d') ->
  (forall nm ph em pw rl t d r d',
     insert_user nm ph em pw rl t d = inr (r, d') -> P d -> P d') ->
  init_db t0 db = inr (u, db1) -> P db -> P db1.
Proof.
  intros Hst Hpk Hus H HP. unfold init_db in H.
  apply bind_inv in H. destruct H as (n & d0 & Hq & H).
  unfold query in Hq. injection Hq as <- <-.
  apply bind_inv in H. destruct H as ([] & d1 & Hseed & H).
  assert (P1 : P d1).
  { destruct (Z.of_nat (List.length (service_stages db)) =? 0).
    - apply (fun S => executemany_preserves P _ _ S _ _ _ Hseed HP).
      intros r d a d'. apply Hst.
    - unfold ret in Hseed. now injection Hseed as <-. }
  apply bind_inv in H. destruct H as (np & d1' & Hq & H).
  unfold query in Hq. injection Hq as <- <-.
  apply bind_inv in H. destruct H as ([] & d2 & Hpkg & H).
  assert (P2 : P d2).
  { destruct (Z.of_nat (List.length (packages d1)) =? 0).
    - apply (fun S => executemany_preserves P _ _ S _ _ _ Hpkg P1).
      intros [[[nm pr] dur] act] d a d'. apply Hpk.
    - unfold ret in Hpkg. now injection Hpkg as <-. }
  apply bind_inv in H. destruct H as (na & d2' & Hq & H).
  unfold query in Hq. injection Hq as <- <-.
  destruct (Z.of_nat (List.length (filter _ (users d2))) =? 0).
  - apply bind_inv in H. destruct H as (rid & d3 & Hu & H).
    unfold ret in H. injection H as _ <-. eapply Hus; eassumption.
  - unfold ret in H. now injection H as _ <-.
Qed.

Lemma insert_stage_inv nm ord db rid db' :
  insert_stage nm ord db = inr (rid, db') ->
  rid = next_rowid stage_id (service_stages db) (seq_stages (sqlite_sequence db)) /\
  (forall s, In s (service_stages db) -> stage_name s <> nm /\ stage_order s <> ord) /\
  0 < ord /\
  db' = with_stages db (service_stages db ++ [mk_stage rid nm ord]) rid.
Proof.
  unfold insert_stage.
  destruct (existsb (fun s => String.eqb (stage_name s) nm) (service_stages db)) eqn:E1;
    [discriminate|].
  destruct (existsb (fun s => stage_order s =? ord) (service_stages db)) eqn:E2;
    [discriminate|].
  destruct (0 <? ord) eqn:E3; [|discriminate]. cbn.
  intros H. injection H as <- <-. apply Z.ltb_lt in E3.
  repeat split; auto.
  - intros C. assert (X : existsb (fun s => String.eqb (stage_name s) nm)
                           (service_stages db) = true).
    { apply existsb_exists. exists s. split; [assumption|]. now apply String.eqb_eq. }
    congruence.
  - intros C. assert (X : existsb (fun s => stage_order s =? ord)
                           (service_stages db) = true).
    { apply existsb_exists. exists s. split; [assumption|]. now apply Z.eqb_eq. }
    congruence.
Qed.

Lemma insert_package_inv nm pr dur act db rid db' :
  insert_package nm pr dur act db = inr (rid, db') ->
  rid = next_rowid package_id (packages db) (seq_packages (sqlite_sequence db)) /\
  (forall p, In p (packages db) -> package_name p <> nm) /\
  PrimFloat.leb 0%float pr = true /\ 0 < dur /\
  db' = with_packages db (packages db ++ [mk_package rid nm pr dur act]) rid.
Proof.
  unfold insert_package.
  destruct (existsb (fun p => String.eqb (package_name p) nm) (packages db)) eqn:E1;
    [discriminate|].
  destruct (PrimFloat.leb 0 pr) eqn:E2; [|discriminate].
  destruct (0 <? dur) eqn:E3; [|discriminate]. cbn.
  intros H. injection H as <- <-. apply Z.ltb_lt in E3.
  repeat split; auto.
  intros p Hp C. assert (X : existsb (fun p => String.eqb (package_name p) nm)
                             (packages db) = true).
  { apply existsb_exists. exists p. split; [assumption|]. now apply String.eqb_eq. }
  congruence.
Qed.

Lemma insert_user_inv nm ph em pw rl t db rid db' :
  insert_user nm ph em pw rl t db = inr (rid, db') ->
  rid = next_rowid user_id (users db) (seq_users (sqlite_sequence db)) /\
  (forall x, In x (users db) -> phone x <> ph) /\
  (forall x e, In x (users db) -> email x = Some e -> em <> Some e) /\
  db' = with_users db (users db ++ [mk_user rid nm ph em pw rl t]) rid.
Proof.
  unfold insert_user.
  destruct (existsb (fun u => String.eqb (phone u) ph) (users db)) eqn:E1;
    [discriminate|].
  destruct (existsb (fun u => opt_string_eqb (email u) em) (users db)) eqn:E2;
    [discriminate|]. cbn.
  intros H. injection H as <- <-.
  repeat split; auto.
  - intros x Hx C.
    assert (X : existsb (fun u => String.eqb (phone u) ph) (users db) = true).
    { apply existsb_exists. exists x. split; [assumption|]. now apply String.eqb_eq. }
    congruence.
  - intros x e Hx He C.
    assert (X : existsb (fun u => opt_string_eqb (email u) em) (users db) = true).
    { apply existsb_exists. exists x. split; [assumption|].
      rewrite He, C. cbn. apply String.eqb_refl. }
    congruence.
Qed.

Lemma count_is_zero {A} (l : list A) :
  (Z.of_nat (List.length l) =? 0) = is_nil l.
Proof.
  destruct l; [reflexivity|]. cbn [List.length is_nil].
  apply Z.eqb_neq. lia.
Qed.

(** The three seeding steps of a completed [init_db], one after the
    other. *)
Lemma init_db_steps t0 db u db1 :
  init_db t0 db = inr (u, db1) ->
  exists d1 d2,
    (if is_nil (service_stages db)
     then executemany (fun r => insert_stage (fst r) (snd r)) seed_stages db
          = inr (tt, d1)
     else d1 = db) /\
    (if is_nil (packages d1)
     then executemany
            (fun r => match r with (nm, pr, dur, act) => insert_package nm pr dur act end)
            seed_packages d1 = inr (tt, d2)
     else d2 = d1) /\
    (if is_nil (filter (fun x => role_eqb (user_role x) Admin) (users d2))
     then exists rid,
            insert_user "Admin" "0300-0000000" (Some "admin@carwash.local")
              admin_password_hash Admin t0 d2 = inr (rid, db1)
     else db1 = d2).
Proof.
  unfold init_db. intros H.
  apply bind_inv in H. destruct H as (n & d0 & Hq & H).
  unfold query in Hq. injection Hq as <- <-.
  apply bind_inv in H. destruct H as ([] & d1 & Hseed & H).
  apply bind_inv in H. destruct H as (np & d1' & Hq & H).
  unfold query in Hq. injection Hq as <- <-.
  apply bind_inv in H. destruct H as ([] & d2 & Hpkg & H).
  apply bind_inv in H. destruct H as (na & d2' & Hq & H).
  unfold query in Hq. injection Hq as <- <-.
  rewrite count_is_zero in Hseed. rewrite count_is_zero in Hpkg.
  rewrite count_is_zero in H.
  exists d1, d2. repeat split.
  - destruct (is_nil (service_stages db)); [exact Hseed|].
    unfold ret in Hseed. now injection Hseed as <-.
  - destruct (is_nil (packages d1)); [exact Hpkg|].
    unfold ret in Hpkg. now injection Hpkg as <-.
  - destruct (is_nil (filter _ (users d2))).
    + apply bind_inv in H. destruct H as (rid & d3 & Hu & H).
      unfold ret in H. injection H as _ <-. eauto.
    + unfold ret in H. now injection H as _ <-.
Qed.

Lemma executemany_insert_package_nonempty rows db u db' :
  rows <> [] ->
  executemany
    (fun r => match r with (nm, pr, dur, act) => insert_package nm pr dur act end)
    rows db = inr (u, db') ->
  packages db' <> [] /\ service_stages db' = service_stages db /\
  users db' = users db.
Proof.
  destruct rows as [|[[[nm pr] dur] act] rows]; [congruence|]. intros _ H.
  cbn [executemany] in H.
  apply bind_inv in H. destruct H as (rid & d & Hi & Hrest).
  apply insert_package_inv in Hi. destruct Hi as (_ & _ & _ & _ & ->).
  apply (fun S => executemany_preserves
            (fun x => packages x <> [] /\ service_stages x = service_stages db /\
                      users x = users db) _ _ S _ _ _ Hrest).
  - intros [[[nm' pr'] dur'] act'] x a x' Hs (N & S & U).
    apply insert_package_inv in Hs. destruct Hs as (_ & _ & _ & _ & ->). cbn.
    repeat split; try assumption. now destruct (packages x).
  - cbn. repeat split. now destruct (packages db).
Qed.

Lemma filter_nonempty_exists {A} (f : A -> bool) (l : list A) :
  is_nil (filter f l) = false <-> exists x, In x l /\ f x = true.
Proof.
  split.
  - intros H. destruct (filter f l) as [|x l'] eqn:E; [discriminate|].
    exists x. apply filter_In. rewrite E. now left.
  - intros (x & Hx & Hf).
    destruct (filter f l) as [|y l'] eqn:E; [|reflexivity].
    assert (I : In x (filter f l)) by (apply filter_In; auto).
    rewrite E in I. destruct I.
Qed.

(** X4: when [init_db] completes, the stage table and the package table
    are not empty and an Admin account exists; and running [init_db]
    again, at any later time, completes and changes nothing. *)
Theorem init_db_idempotent :
  forall t0 t1 db u db1,
    init_db t0 db = inr (u, db1) ->
    service_stages db1 <> [] /\ packages db1 <> [] /\
    (exists a, In a (users db1) /\ user_role a = Admin) /\
    init_db t1 db1 = inr (tt, db1).
Proof.
  intros t0 t1 db u db1 H.
  pose proof (init_db_stages_nonempty _ _ _ _ H) as HS.
  destruct (init_db_steps _ _ _ _ H) as (d1 & d2 & _ & S2 & S3).
  assert (HP2 : packages d2 <> []).
  { destruct (is_nil (packages d1)) eqn:E.
    - apply executemany_insert_package_nonempty in S2; [tauto | discriminate].
    - subst d2. destruct (packages d1); [discriminate | congruence]. }
  assert (HP : packages db1 <> [] /\
               is_nil (filter (fun x => role_eqb (user_role x) Admin) (users db1))
               = false).
  { destruct (is_nil (filter _ (users d2))) eqn:E.
    - destruct S3 as [rid S3]. apply insert_user_inv in S3.
      destruct S3 as (_ & _ & _ & ->). cbn. split; [exact HP2|].
      apply filter_nonempty_exists. eexists. split.
      + apply in_or_app. right. now left.
      + reflexivity.
    - subst db1. auto. }
  destruct HP as [HP HA].
  repeat split; try assumption.
  - apply filter_nonempty_exists in HA. destruct HA as (a & Ha & Hr).
    exists a. split; [exact Ha|]. now destruct (user_role a).
  - unfold init_db, bind, query, ret. rewrite count_is_zero.
    destruct (service_stages db1) eqn:E1; [congruence|]. cbn [is_nil].
    rewrite count_is_zero.
    destruct (packages db1) eqn:E2; [congruence|]. cbn [is_nil].
    rewrite count_is_zero, HA. reflexivity.
Qed.

Lemma init_db_idempotent_witness :
  service_stages seeded_db <> [] /\ packages seeded_db <> [] /\
  (exists a, In a (users seeded_db) /\ user_role a = Admin) /\
  init_db "2025-12-28 09:00:00" seeded_db = inr (tt, seeded_db).
Proof.
  apply (init_db_idempotent "2025-12-27 09:00:00" "2025-12-28 09:00:00"
           empty_db tt seeded_db).
  vm_compute. reflexivity.
Defined.

(** ** What a created booking refers to *)

(** X5: a booking is only ever created for a vehicle that belongs to the
    customer of the session and for a package that is active, and its id
    is larger than the id of every booking stored before, so that the
    order of the ids is the order of creation. *)
Theorem created_booking_references :
  forall db user v p sched nt now bid db',
    page_customer_dashboard db user v p sched nt now = Committed bid db' ->
    (exists veh, In veh (vehicles db) /\ vehicle_id veh = v /\
                 v_customer_id veh = user) /\
    (exists pkg, In pkg (packages db) /\ package_id pkg = p /\
                 is_active pkg = true) /\
    has_user db user = true /\
    (forall b, In b (bookings db) -> booking_id b < bid).
Proof.
  intros db user v p sched nt now bid db' Hrun.
  destruct (page_customer_dashboard_inv _ _ _ _ _ _ _ _ _ Hrun) as (Hv & Hp & Hclick).
  destruct (create_booking_click_inv _ _ _ _ _ _ _ _ _ Hclick)
    as (first & pkg & _ & _ & Hu & _ & Hbid & _).
  split; [now apply In_select_vehicles_of|].
  split; [now apply In_get_active_packages|].
  split; [exact Hu|].
  intros b Hb. apply (max_rowid_ge booking_id) in Hb.
  rewrite Hbid. unfold next_rowid. lia.
Qed.

Lemma created_booking_references_witness :
  (exists veh, In veh (vehicles shop_db) /\ vehicle_id veh = 1 /\
               v_customer_id veh = 2) /\
  (exists pkg, In pkg (packages shop_db) /\ package_id pkg = 1 /\
               is_active pkg = true) /\
  has_user shop_db 2 = true /\
  (forall b, In b (bookings shop_db) -> booking_id b < 1).
Proof.
  apply (created_booking_references shop_db 2 1 1 "" "" "2025-12-27 10:00:00"
           1 booked_db).
  vm_compute. reflexivity.
Defined.

(** ** Assigning several staff members at once *)

Lemma assignments_of_app db l b s :
  filter (assigned b s) (booking_staff_assignment db ++ l)
  = assignments_of db b s ++ filter (assigned b s) l.
Proof. unfold assignments_of. apply filter_app. Qed.

(** The loop keeps the rows it finds, keeps at most one row per staff
    member of the booking, and leaves one for each chosen member. *)
Lemma save_assignment_click_spec bsel chosen :
  forall db,
    has_booking db bsel = true ->
    (forall sid t, In (sid, t) chosen -> has_user db sid = true) ->
    (forall s, (List.length (assignments_of db bsel s) <= 1)%nat) ->
    exists db',
      save_assignment_click bsel chosen db = inr (tt, db') /\
      (forall s, (List.length (assignments_of db' bsel s) <= 1)%nat) /\
      (forall a, In a (booking_staff_assignment db) ->
                 In a (booking_staff_assignment db')) /\
      (forall sid t, In (sid, t) chosen ->
                     assignments_of db' bsel sid <> []) /\
      (forall a, In a (booking_staff_assignment db') ->
                 In a (booking_staff_assignment db) \/
                 (a_booking_id a = bsel /\ In (a_staff_id a, assigned_at a) chosen)).
Proof.
  induction chosen as [|[sid t] rest IH]; intros db Hb Hu Hpk.
  - exists db. cbn. repeat split; auto.
  - cbn [save_assignment_click]. unfold bind.
    rewrite (assign_one db bsel sid t Hb (Hu sid t (or_introl eq_refl))).
    set (db1 := if existsb (assigned bsel sid) (booking_staff_assignment db)
                then db
                else with_assignments db
                       (booking_staff_assignment db ++ [mk_assignment bsel sid t])).
    assert (F1 : bookings db1 = bookings db /\ users db1 = users db).
    { unfold db1. destruct (existsb _ _); split; reflexivity. }
    assert (K1 : forall a, In a (booking_staff_assignment db) ->
                           In a (booking_staff_assignment db1)).
    { unfold db1. destruct (existsb _ _); [auto|]. cbn. intros a Ha.
      apply in_or_app. now left. }
    assert (N1 : assignments_of db1 bsel sid <> []).
    { unfold db1.
      destruct (existsb (assigned bsel sid) (booking_staff_assignment db)) eqn:Ex.
      - now apply existsb_filter_nonempty.
      - unfold assignments_of. cbn. rewrite filter_app. cbn.
        unfold assigned at 2. cbn. rewrite !Z.eqb_refl. cbn.
        intros C. apply app_eq_nil in C. destruct C. discriminate. }
    assert (P1 : forall s, (List.length (assignments_of db1 bsel s) <= 1)%nat).
    { intros s. unfold db1.
      destruct (existsb (assigned bsel sid) (booking_staff_assignment db)) eqn:Ex;
        [apply Hpk|].
      unfold assignments_of. cbn. rewrite filter_app, length_app. cbn.
      unfold assigned at 2. cbn. rewrite Z.eqb_refl. cbn.
      destruct (sid =? s) eqn:E; cbn.
      - apply Z.eqb_eq in E. subst s.
        assert (Z0 : filter (assigned bsel sid) (booking_staff_assignment db) = []).
        { destruct (filter (assigned bsel sid) (booking_staff_assignment db)) eqn:F;
            [reflexivity|].
          assert (X : existsb (assigned bsel sid) (booking_staff_assignment db) = true).
          { apply existsb_filter_nonempty. rewrite F. discriminate. }
          congruence. }
        rewrite Z0. cbn. lia.
      - specialize (Hpk s). unfold assignments_of in Hpk. lia. }
    assert (O1 : forall a, In a (booking_staff_assignment db1) ->
                   In a (booking_staff_assignment db) \/
                   (a_booking_id a = bsel /\ a_staff_id a = sid /\ assigned_at a = t)).
    { unfold db1. destruct (existsb _ _); [auto|]. cbn. intros a Ha.
      apply in_app_or in Ha. destruct Ha as [Ha|[<-|[]]]; [now left|].
      right. cbn. auto. }
    destruct (IH db1) as (db' & Hrun & P' & K' & N' & O').
    { unfold has_booking. destruct F1 as [-> _]. exact Hb. }
    { intros s' t' Hin. unfold has_user. destruct F1 as [_ ->].
      apply (Hu s' t'). now right. }
    { exact P1. }
    exists db'. split; [exact Hrun|]. split; [exact P'|]. split; [auto|]. split.
    + intros s' t' [E|Hin].
      * injection E as <- <-.
        destruct (assignments_of db1 bsel sid) as [|a l] eqn:F; [congruence|].
        assert (Ia : In a (assignments_of db1 bsel sid)) by (rewrite F; now left).
        unfold assignments_of in Ia. apply filter_In in Ia. destruct Ia as [Ia Hf].
        intros C. assert (I' : In a (assignments_of db' bsel sid)).
        { unfold assignments_of. apply filter_In. auto. }
        rewrite C in I'. destruct I'.
      * now apply (N' s' t').
    + intros a Ha. destruct (O' a Ha) as [H1|[Hbk Hin]].
      * destruct (O1 a H1) as [H0|(A & B & C)]; [now left|].
        right. split; [exact A|]. left. congruence.
      * right. split; [exact Hbk|]. now right.
Qed.

(** X6: after a committed "Save Assignment" every chosen staff member has
    exactly one assignment row for the booking, every row stored before
    is still there, and every new row is for the booking and one of the
    chosen members.  The table is taken with at most one row per member
    of the booking, as its primary key keeps it. *)
Theorem save_assignment_assigns_each_once :
  forall db bsel chosen u db',
    (forall s, (List.length (assignments_of db bsel s) <= 1)%nat) ->
    page_staff_dashboard_save_assignment db bsel chosen = Committed u db' ->
    (forall sid t, In (sid, t) chosen ->
                   List.length (assignments_of db' bsel sid) = 1%nat) /\
    (forall a, In a (booking_staff_assignment db) ->
               In a (booking_staff_assignment db')) /\
    (forall a, In a (booking_staff_assignment db') ->
               In a (booking_staff_assignment db) \/
               (a_booking_id a = bsel /\ In (a_staff_id a, assigned_at a) chosen)).
Proof.
  intros db bsel chosen u db' Hpk Hrun.
  destruct (page_save_assignment_inv _ _ _ _ _ Hrun) as (Hb & _ & Hstaff & Hclick).
  destruct (save_assignment_click_spec bsel chosen db) as (d & Hd & P & K & N & O).
  { now apply select_booking_ids_desc_has. }
  { intros sid t Hin. apply select_staff_rows_has. eapply Hstaff; eassumption. }
  { exact Hpk. }
  rewrite Hd in Hclick. injection Hclick as _ <-.
  split; [|split; assumption].
  intros sid t Hin. specialize (N sid t Hin). specialize (P sid).
  destruct (assignments_of d bsel sid) as [|a [|b l]];
    [congruence | reflexivity | cbn in P; lia].
Qed.

Lemma save_assignment_assigns_each_once_witness :
  (forall sid t, In (sid, t) [(1, "2025-12-27 10:05:00")] ->
                 List.length (assignments_of assigned_db 1 sid) = 1%nat) /\
  (forall a, In a (booking_staff_assignment booked_db) ->
             In a (booking_staff_assignment assigned_db)) /\
  (forall a, In a (booking_staff_assignment assigned_db) ->
             In a (booking_staff_assignment booked_db) \/
             (a_booking_id a = 1 /\
              In (a_staff_id a, assigned_at a) [(1, "2025-12-27 10:05:00")])).
Proof.
  apply (save_assignment_assigns_each_once booked_db 1
           [(1, "2025-12-27 10:05:00")] tt assigned_db).
  - intros s. vm_compute. repeat constructor.
  - vm_compute. reflexivity.
Defined.

(** ** Blank text fields *)

Lemma after_space_shorter (s r : string) :
  after_space s = Some r -> (String.length r < String.length s)%nat.
Proof.
  destruct s as [|c1 [|c2 [|c3 s3]]]; cbn; try discriminate.
  - destruct (is_space c1); [|discriminate]. intros H. injection H as <-. cbn. lia.
  - destruct (is_space c1); [intros H; injection H as <-; cbn; lia|].
    destruct (is_space2 c1 c2); [|discriminate].
    intros H. injection H as <-. cbn. lia.
  - destruct (is_space c1); [intros H; injection H as <-; cbn; lia|].
    destruct (is_space2 c1 c2); [intros H; injection H as <-; cbn; lia|].
    destruct (is_space3 c1 c2 c3); [|discriminate].
    intros H. injection H as <-. cbn. lia.
Qed.

Lemma lstrip_step (s : string) :
  lstrip s = match after_space s with Some r => lstrip r | None => s end.
Proof.
  destruct s as [|c1 [|c2 [|c3 s3]]]; cbn; try reflexivity.
  - destruct (is_space c1); reflexivity.
  - destruct (is_space c1); [reflexivity|]. destruct (is_space2 c1 c2); reflexivity.
  - destruct (is_space c1); [reflexivity|].
    destruct (is_space2 c1 c2); [reflexivity|].
    destruct (is_space3 c1 c2 c3); reflexivity.
Qed.

Lemma blank_step (s : string) :
  blank s = match s with
            | EmptyString => true
            | _ => match after_space s with Some r => blank r | None => false end
            end.
Proof.
  destruct s as [|c1 [|c2 [|c3 s3]]]; cbn; try reflexivity.
  - destruct (is_space c1); reflexivity.
  - destruct (is_space c1); [reflexivity|]. destruct (is_space2 c1 c2); reflexivity.
  - destruct (is_space c1); [reflexivity|].
    destruct (is_space2 c1 c2); [reflexivity|].
    destruct (is_space3 c1 c2 c3); reflexivity.
Qed.

(** Induction along the whitespace characters at the front of a string. *)
Lemma front_induction (P : string -> Prop) :
  (forall s, (forall r, after_space s = Some r -> P r) -> P s) ->
  forall s, P s.
Proof.
  intros Step.
  assert (G : forall n s, (String.length s < n)%nat -> P s).
  { induction n as [|n IH]; intros s Hn; [lia|].
    apply Step. intros r Hr. apply IH.
    apply after_space_shorter in Hr. lia. }
  intros s. apply (G (S (String.length s))). lia.
Qed.

Lemma lstrip_blank (s : string) : blank s = true -> lstrip s = EmptyString.
Proof.
  induction s as [s IH] using front_induction.
  rewrite blank_step, lstrip_step.
  destruct s as [|c s']; [reflexivity|].
  destruct (after_space (String c s')) as [r|]; [|discriminate].
  now apply IH.
Qed.

Lemma blank_lstrip (s : string) : blank (lstrip s) = true -> blank s = true.
Proof.
  induction s as [s IH] using front_induction.
  rewrite lstrip_step, (blank_step s).
  destruct (after_space s) as [r|] eqn:E.
  - destruct s; [discriminate|]. now apply IH.
  - rewrite (blank_step s), E. destruct s; auto.
Qed.

Lemma rstrip_empty_blank (s : string) : rstrip s = EmptyString <-> blank s = true.
Proof.
  destruct s as [|c s']; [cbn; tauto|].
  cbn [rstrip]. destruct (blank (String c s')); split; congruence.
Qed.

Lemma strip_empty_blank (s : string) : strip s = EmptyString <-> blank s = true.
Proof.
  unfold strip. rewrite rstrip_empty_blank. split.
  - apply blank_lstrip.
  - intros H. now rewrite (lstrip_blank s H).
Qed.

(** The no-break space U+00A0 (bytes C2 A0) and the ideographic space
    U+3000 (bytes E3 80 80) are whitespace for [str.strip]; the zero-width
    space U+200B (bytes E2 80 8B) is not, and stays. *)
Example strip_unicode_whitespace :
  strip (String (ascii_of_nat 194) (String (ascii_of_nat 160)
           (String.append " LEA-123 "
              (String (ascii_of_nat 227) (String (ascii_of_nat 128)
                 (String (ascii_of_nat 128) EmptyString))))))
  = "LEA-123" /\
  blank (String (ascii_of_nat 226) (String (ascii_of_nat 128)
           (String (ascii_of_nat 139) EmptyString))) = false.
Proof.
  split; vm_compute; reflexivity.
Qed.

Lemma or_none_strip (s : string) :
  (or_none (strip s) = None <-> blank s = true) /\
  (forall x, or_none (strip s) = Some x -> x = strip s /\ x <> EmptyString).
Proof.
  split.
  - rewrite <- strip_empty_blank. unfold or_none.
    destruct (strip s); split; congruence.
  - unfold or_none. destruct (strip s) eqn:E; [discriminate|].
    intros x H. injection H as <-. split; [reflexivity | discriminate].
Qed.

Lemma created_booking_row db user v p sched nt now bid db' :
  page_customer_dashboard db user v p sched nt now = Committed bid db' ->
  exists first,
    select_first_stage db = Some first /\
    find_booking db' bid
    = Some (mk_booking bid user v p now (or_none (strip sched)) Booked
              (Some first) (or_none (strip nt))).
Proof.
  intros Hrun.
  destruct (page_customer_dashboard_inv _ _ _ _ _ _ _ _ _ Hrun) as (_ & _ & Hclick).
  destruct (create_booking_click_inv _ _ _ _ _ _ _ _ _ Hclick)
    as (first & pkg & Hf & _ & _ & _ & Hbid & _ & _ & _ & _ & _ & _ & _ & Hb & _).
  exists first. split; [exact Hf|].
  unfold find_booking. rewrite Hb, find_app_none.
  - cbn. rewrite Z.eqb_refl. reflexivity.
  - rewrite Hbid. apply find_booking_fresh.
Qed.

(** X7: the schedule and the notes of a created booking are stored
    stripped of surrounding whitespace; a field left empty or filled with
    whitespace only is stored as NULL, and never as an empty string. *)
Theorem blank_fields_stored_as_null :
  forall db user v p sched nt now bid db',
    page_customer_dashboard db user v p sched nt now = Committed bid db' ->
    exists b,
      find_booking db' bid = Some b /\
      booking_datetime b = now /\
      (scheduled_datetime b = None <-> blank sched = true) /\
      (forall x, scheduled_datetime b = Some x ->
                 x = strip sched /\ x <> EmptyString) /\
      (notes b = None <-> blank nt = true) /\
      (forall x, notes b = Some x -> x = strip nt /\ x <> EmptyString).
Proof.
  intros db user v p sched nt now bid db' Hrun.
  destruct (created_booking_row _ _ _ _ _ _ _ _ _ Hrun) as (first & _ & Hb).
  eexists. split; [exact Hb|]. cbn.
  destruct (or_none_strip sched) as [A B], (or_none_strip nt) as [C D].
  auto 10.
Qed.

Lemma blank_fields_stored_as_null_witness :
  exists b,
    find_booking
      (db_after shop_db
         (page_customer_dashboard shop_db 2 1 1 "  2025-12-27 15:30 " "   "
            "2025-12-27 10:00:00")) 1 = Some b /\
    booking_datetime b = "2025-12-27 10:00:00" /\
    (scheduled_datetime b = None <-> blank "  2025-12-27 15:30 " = true) /\
    (forall x, scheduled_datetime b = Some x ->
               x = strip "  2025-12-27 15:30 " /\ x <> EmptyString) /\
    (notes b = None <-> blank "   " = true) /\
    (forall x, notes b = Some x -> x = strip "   " /\ x <> EmptyString).
Proof.
  apply (blank_fields_stored_as_null shop_db 2 1 1 "  2025-12-27 15:30 " "   "
           "2025-12-27 10:00:00" 1).
  vm_compute. reflexivity.
Defined.

(** ** Accounts: registration and login *)

Lemma insert_user_fails nm ph em pw rl t db :
  (exists x, In x (users db) /\
             (phone x = ph \/ exists e, email x = Some e /\ em = Some e)) ->
  insert_user nm ph em pw rl t db = inl IntegrityError.
Proof.
  intros (x & Hx & H). unfold insert_user.
  destruct H as [H|(e & He & ->)].
  - assert (X : existsb (fun u => String.eqb (phone u) ph) (users db) = true).
    { apply existsb_exists. exists x. split; [assumption|]. now apply String.eqb_eq. }
    now rewrite X.
  - assert (X : existsb (fun u => opt_string_eqb (email u) (Some e)) (users db) = true).
    { apply existsb_exists. exists x. split; [assumption|].
      rewrite He. cbn. apply String.eqb_refl. }
    rewrite X. now rewrite orb_true_r.
Qed.

Lemma insert_user_succeeds nm ph em pw rl t db :
  (forall x, In x (users db) -> phone x <> ph) ->
  (forall x e, In x (users db) -> email x = Some e -> em <> Some e) ->
  exists rid db', insert_user nm ph em pw rl t db = inr (rid, db').
Proof.
  intros Hp He. unfold insert_user.
  assert (X1 : existsb (fun u => String.eqb (phone u) ph) (users db) = false).
  { destruct (existsb _ _) eqn:E; [|reflexivity].
    apply existsb_exists in E. destruct E as (x & Hx & E).
    apply String.eqb_eq in E. exfalso. exact (Hp x Hx E). }
  assert (X2 : existsb (fun u => opt_string_eqb (email u) em) (users db) = false).
  { destruct (existsb (fun u => opt_string_eqb (email u) em) (users db)) eqn:E;
      [|reflexivity].
    apply existsb_exists in E. destruct E as (x & Hx & E).
    destruct (email x) as [e|] eqn:Ex; [|discriminate].
    destruct em as [e'|]; [|discriminate]. cbn in E.
    apply String.eqb_eq in E. subst e'. exfalso. exact (He x e Hx Ex eq_refl). }
  rewrite X1, X2. cbn. eauto.
Qed.

(** X8: a registration succeeds exactly when no stored user has the phone
    number and no stored user has the e-mail address given (an empty
    address is stored as NULL and clashes with nothing).  On success one
    Customer row with a fresh id is appended and nothing else changes; on
    failure the database is as it was. *)
Theorem register_customer_spec :
  forall hash nm ph em pw now db,
    (fst (fst (register_customer hash nm ph em pw now db)) = true <->
     (forall x, In x (users db) -> phone x <> ph) /\
     (forall x e, In x (users db) -> email x = Some e -> or_none em <> Some e)) /\
    (fst (fst (register_customer hash nm ph em pw now db)) = false ->
     snd (register_customer hash nm ph em pw now db) = db) /\
    (fst (fst (register_customer hash nm ph em pw now db)) = true ->
     exists uid,
       (forall x, In x (users db) -> user_id x < uid) /\
       snd (register_customer hash nm ph em pw now db)
       = with_users db
           (users db ++ [mk_user uid nm ph (or_none em) (hash pw) Customer now])
           uid).
Proof.
  intros hash nm ph em pw now db. unfold register_customer, hash_password.
  destruct (insert_user nm ph (or_none em) (hash pw) Customer now db)
    as [e|[rid db']] eqn:E; cbn.
  - split; [|split; [reflexivity | discriminate]].
    split; [discriminate|]. intros [Hp He].
    destruct (insert_user_succeeds nm ph (or_none em) (hash pw) Customer now db Hp He)
      as (rid & db' & S). congruence.
  - apply insert_user_inv in E. destruct E as (Hrid & Hp & He & ->).
    split; [|split; [discriminate|]].
    + split; [intros _; split; assumption | reflexivity].
    + intros _. exists rid. split; [|reflexivity].
      intros x Hx. apply (max_rowid_ge user_id) in Hx.
      rewrite Hrid. unfold next_rowid. lia.
Qed.

Lemma register_customer_spec_witness :
  (forall x, In x (users seeded_db) -> phone x <> "0311-1111111") /\
  (forall x e, In x (users seeded_db) -> email x = Some e -> or_none "" <> Some e) /\
  exists uid,
    (forall x, In x (users seeded_db) -> user_id x < uid) /\
    snd (register_customer (fun s => s) "Sara" "0311-1111111" "" "secret"
           "2025-12-27 09:05:00" seeded_db)
    = with_users seeded_db
        (users seeded_db ++
         [mk_user uid "Sara" "0311-1111111" (or_none "") "secret" Customer
            "2025-12-27 09:05:00"])
        uid.
Proof.
  destruct (register_customer_spec (fun s => s) "Sara" "0311-1111111" ""
              "secret" "2025-12-27 09:05:00" seeded_db) as (A & _ & C).
  assert (T : fst (fst (register_customer (fun s => s) "Sara" "0311-1111111" ""
                          "secret" "2025-12-27 09:05:00" seeded_db)) = true)
    by (vm_compute; reflexivity).
  destruct (proj1 A T) as [P E].
  split; [exact P|]. split; [exact E|]. exact (C T).
Defined.

Lemma find_user_after_insert (f : user_row -> bool) (l : list user_row)
    (x : user_row) :
  (forall y, In y l -> f y = false) ->
  find f (l ++ [x]) = if f x then Some x else None.
Proof.
  intros H. rewrite find_app_none; [reflexivity|]. now apply find_none_iff.
Qed.

(** X9: after a registration that went through, logging in with the same
    phone number and password, as typed, opens a session for the new user
    with role Customer; with a password whose hash differs, the login
    is refused. *)
Theorem register_then_login :
  forall hash nm ph em pw now db db',
    page_register hash nm ph em pw pw now db = Saved db' ->
    (exists uid,
       (forall x, In x (users db) -> user_id x < uid) /\
       page_login hash ph pw db' = Some (mk_session uid Customer, strip nm)) /\
    (forall pw', hash (strip pw') <> hash (strip pw) ->
                 page_login hash ph pw' db' = None).
Proof.
  intros hash nm ph em pw now db db'. unfold page_register.
  rewrite String.eqb_refl. cbn [negb].
  intros H.
  destruct (register_customer_spec hash (strip nm) (strip ph) (strip em) (strip pw)
              now db) as (A & B & C).
  destruct (register_customer hash (strip nm) (strip ph) (strip em) (strip pw) now db)
    as [[ok msg] d] eqn:R.
  destruct ok; [|discriminate]. injection H as <-. cbn in *.
  destruct (proj1 A eq_refl) as [Hp _].
  destruct (C eq_refl) as (uid & Hlt & ->).
  assert (Hold : forall pw0 y, In y (users db) ->
            String.eqb (phone y) (strip ph)
            && String.eqb (password_hash y) (hash_password hash (strip pw0)) = false).
  { intros pw0 y Hy. destruct (String.eqb (phone y) (strip ph)) eqn:E; [|reflexivity].
    apply String.eqb_eq in E. exfalso. exact (Hp y Hy E). }
  split.
  - exists uid. split; [exact Hlt|].
    unfold page_login, login. cbn [users with_users].
    rewrite (find_user_after_insert _ _ _ (Hold pw)). cbn.
    unfold hash_password. rewrite !String.eqb_refl. reflexivity.
  - intros pw' Hne. unfold page_login, login. cbn [users with_users].
    rewrite (find_user_after_insert _ _ _ (Hold pw')). cbn.
    unfold hash_password. rewrite String.eqb_refl. cbn.
    destruct (String.eqb (hash (strip pw)) (hash (strip pw'))) eqn:E; [|reflexivity].
    apply String.eqb_eq in E. congruence.
Qed.

Lemma register_then_login_witness :
  (exists uid,
     (forall x, In x (users seeded_db) -> user_id x < uid) /\
     page_login (fun s => s) " 0311-1111111" "secret "
       (form_after seeded_db
          (page_register (fun s => s) "Sara " " 0311-1111111" "" "secret " "secret "
             "2025-12-27 09:05:00" seeded_db))
     = Some (mk_session uid Customer, strip "Sara ")) /\
  (forall pw', strip pw' <> strip "secret " ->
     page_login (fun s => s) " 0311-1111111" pw'
       (form_after seeded_db
          (page_register (fun s => s) "Sara " " 0311-1111111" "" "secret " "secret "
             "2025-12-27 09:05:00" seeded_db)) = None).
Proof.
  apply (register_then_login (fun s => s) "Sara " " 0311-1111111" "" "secret "
           "2025-12-27 09:05:00" seeded_db).
  vm_compute. reflexivity.
Defined.

(** ** The vehicle, package and user forms *)

Lemma try_form_saved {A} (m : M A) (prefix : string) (db db' : database) :
  try_form m prefix db = Saved db' <-> exists a, m db = inr (a, db').
Proof.
  unfold try_form. destruct (m db) as [e|[a d]].
  - split; [destruct e; discriminate | intros [a H]; discriminate].
  - split; [intros H; injection H as <-; eauto | intros [a' H]; congruence].
Qed.

Lemma insert_vehicle_inv cust plate mk md cl vt db rid db' :
  insert_vehicle cust plate mk md cl vt db = inr (rid, db') ->
  rid = next_rowid vehicle_id (vehicles db) (seq_vehicles (sqlite_sequence db)) /\
  (forall x, In x (vehicles db) -> plate_no x <> plate) /\
  has_user db cust = true /\
  db' = with_vehicles db (vehicles db ++ [mk_vehicle rid cust plate mk md cl vt]) rid.
Proof.
  unfold insert_vehicle.
  destruct (existsb (fun v => String.eqb (plate_no v) plate) (vehicles db)) eqn:E1;
    [discriminate|].
  destruct (has_user db cust); [|discriminate]. cbn.
  intros H. injection H as <- <-. repeat split; auto.
  intros x Hx C.
  assert (X : existsb (fun v => String.eqb (plate_no v) plate) (vehicles db) = true).
  { apply existsb_exists. exists x. split; [assumption|]. now apply String.eqb_eq. }
  congruence.
Qed.

Lemma order_by_ext_map {A B} (le : A -> A -> bool) (f : A -> B) (l l' : list A) :
  l = l' -> map f (order_by le l) = map f (order_by le l').
Proof. now intros ->. Qed.

(** X10: "Save Vehicle" stores the plate stripped of surrounding
    whitespace.  A plate that is already on file, for any customer, is
    refused with "Could not add vehicle: " and nothing is stored.  When
    the vehicle is saved it gets a fresh id and is from then on among the
    vehicles offered to its owner for booking, while the vehicles offered
    to every other customer are the same as before. *)
Theorem save_vehicle_spec :
  forall db user plate mk md cl vt,
    ((exists x, In x (vehicles db) /\ plate_no x = strip plate) ->
     page_customer_dashboard_save_vehicle db user plate mk md cl vt
     = Rejected "Could not add vehicle: ") /\
    (forall db',
       page_customer_dashboard_save_vehicle db user plate mk md cl vt = Saved db' ->
       exists vid,
         (forall x, In x (vehicles db) -> vehicle_id x < vid) /\
         vehicles db' =
           vehicles db ++
           [mk_vehicle vid user (strip plate) (or_none (strip mk))
              (or_none (strip md)) (or_none (strip cl)) (or_none (strip vt))] /\
         In vid (map vehicle_id (select_vehicles_of db' user)) /\
         (forall user', user' <> user ->
            select_vehicles_of db' user' = select_vehicles_of db user') /\
         same_ledger db db').
Proof.
  intros db user plate mk md cl vt. split.
  - intros (x & Hx & E).
    unfold page_customer_dashboard_save_vehicle, try_form, insert_vehicle.
    assert (X : existsb (fun v => String.eqb (plate_no v) (strip plate)) (vehicles db)
                = true).
    { apply existsb_exists. exists x. split; [assumption|]. now apply String.eqb_eq. }
    rewrite X. reflexivity.
  - intros db' H. unfold page_customer_dashboard_save_vehicle in H.
    apply try_form_saved in H. destruct H as [rid H].
    apply insert_vehicle_inv in H. destruct H as (Hrid & _ & _ & ->).
    exists rid. split.
    { intros x Hx. apply (max_rowid_ge vehicle_id) in Hx.
      rewrite Hrid. unfold next_rowid. lia. }
    split; [reflexivity|]. split.
    { unfold select_vehicles_of. cbn [vehicles with_vehicles].
      apply in_map_iff.
      exists (mk_vehicle rid user (strip plate) (or_none (strip mk))
                (or_none (strip md)) (or_none (strip cl)) (or_none (strip vt))).
      split; [reflexivity|]. apply In_order_by, filter_In. split.
      - apply in_or_app. right. now left.
      - cbn. apply Z.eqb_refl. }
    split; [|repeat split].
    intros user' Hne. unfold select_vehicles_of. cbn [vehicles with_vehicles].
    rewrite filter_app. cbn.
    destruct (user =? user') eqn:E; [apply Z.eqb_eq in E; congruence|].
    now rewrite app_nil_r.
Qed.

Lemma save_vehicle_spec_witness :
  page_customer_dashboard_save_vehicle shop_db 2 " LEA-123 " "" "" "" ""
  = Rejected "Could not add vehicle: " /\
  exists vid,
    (forall x, In x (vehicles no_vehicle_db) -> vehicle_id x < vid) /\
    vehicles
      (form_after no_vehicle_db
         (page_customer_dashboard_save_vehicle no_vehicle_db 2 " LEA-123 "
            "Honda" "" "" "")) =
      vehicles no_vehicle_db ++
      [mk_vehicle vid 2 (strip " LEA-123 ") (or_none (strip "Honda"))
         (or_none (strip "")) (or_none (strip "")) (or_none (strip ""))] /\
    In vid (map vehicle_id
              (select_vehicles_of
                 (form_after no_vehicle_db
                    (page_customer_dashboard_save_vehicle no_vehicle_db 2 " LEA-123 "
                       "Honda" "" "" "")) 2)) /\
    (forall user', user' <> 2 ->
       select_vehicles_of
         (form_after no_vehicle_db
            (page_customer_dashboard_save_vehicle no_vehicle_db 2 " LEA-123 "
               "Honda" "" "" "")) user'
       = select_vehicles_of no_vehicle_db user') /\
    same_ledger no_vehicle_db
      (form_after no_vehicle_db
         (page_customer_dashboard_save_vehicle no_vehicle_db 2 " LEA-123 "
            "Honda" "" "" "")).
Proof.
  split.
  - apply (save_vehicle_spec shop_db 2 " LEA-123 " "" "" "" "").
    exists (mk_vehicle 1 2 "LEA-123" (Some "Honda") (Some "Civic") None (Some "Car")).
    split; [vm_compute; left; reflexivity | vm_compute; reflexivity].
  - apply (save_vehicle_spec no_vehicle_db 2 " LEA-123 " "Honda" "" "" "").
    vm_compute. reflexivity.
Defined.



Lemma truthy_strip (s : string) : truthy (strip s) = negb (blank s).
Proof.
  destruct (blank s) eqn:B.
  - apply strip_empty_blank in B. now rewrite B.
  - destruct (strip s) eqn:E; [|reflexivity].
    apply strip_empty_blank in E. congruence.
Qed.

(** X12: "Create User" refuses a name, phone number or password that is
    empty or whitespace only with "Name, phone and password required." and
    stores nothing.  When it goes through, one row with a fresh id and the
    chosen role (Staff or Admin) is appended, the new user is among the
    staff that can be assigned to bookings, and logging in with the phone
    number and password as typed opens a session with that role. *)
Theorem create_user_spec :
  forall hash db nm ph em rl pw now,
    is_staff_role rl = true ->
    (blank nm = true \/ blank ph = true \/ blank pw = true ->
     page_staff_dashboard_create_user hash db nm ph em rl pw now
     = Rejected "Name, phone and password required.") /\
    (forall db',
       page_staff_dashboard_create_user hash db nm ph em rl pw now = Saved db' ->
       exists uid,
         (forall x, In x (users db) -> user_id x < uid) /\
         users db' =
           users db ++
           [mk_user uid (strip nm) (strip ph) (or_none (strip em)) (hash (strip pw))
              rl now] /\
         blank nm = false /\ blank ph = false /\ blank pw = false /\
         In uid (map user_id (select_staff_rows db')) /\
         page_login hash ph pw db' = Some (mk_session uid rl, strip nm)).
Proof.
  intros hash db nm ph em rl pw now Hrl.
  unfold page_staff_dashboard_create_user. rewrite Hrl. cbn [negb].
  rewrite !truthy_strip. split.
  - intros [H|[H|H]]; rewrite H; cbn; try reflexivity.
    + destruct (blank nm); reflexivity.
    + destruct (blank nm), (blank ph); reflexivity.
  - intros db' H.
    destruct (blank nm); [discriminate|].
    destruct (blank ph); [discriminate|].
    destruct (blank pw); [discriminate|]. cbn in H.
    apply try_form_saved in H. destruct H as [rid H].
    apply insert_user_inv in H. destruct H as (Hrid & Hp & _ & ->).
    exists rid. split.
    { intros x Hx. apply (max_rowid_ge user_id) in Hx.
      rewrite Hrid. unfold next_rowid. lia. }
    split; [reflexivity|]. repeat (split; [reflexivity|]). split.
    + unfold select_staff_rows. cbn [users with_users]. apply in_map_iff.
      exists (mk_user rid (strip nm) (strip ph) (or_none (strip em))
                (hash_password hash (strip pw)) rl now).
      split; [reflexivity|]. apply In_order_by, filter_In. split.
      * apply in_or_app. right. now left.
      * exact Hrl.
    + unfold page_login, login. cbn [users with_users].
      rewrite find_user_after_insert.
      * cbn. rewrite !String.eqb_refl. reflexivity.
      * intros y Hy. destruct (String.eqb (phone y) (strip ph)) eqn:E; [|reflexivity].
        apply String.eqb_eq in E. exfalso. exact (Hp y Hy E).
Qed.

Lemma create_user_spec_witness :
  page_staff_dashboard_create_user (fun s => s) shop_db "Omar" "   " "" Staff "pw"
    "2025-12-27 09:30:00"
  = Rejected "Name, phone and password required." /\
  exists uid,
    (forall x, In x (users shop_db) -> user_id x < uid) /\
    users
      (form_after shop_db
         (page_staff_dashboard_create_user (fun s => s) shop_db "Omar" "0322-2222222"
            "" Staff "pw" "2025-12-27 09:30:00")) =
      users shop_db ++
      [mk_user uid (strip "Omar") (strip "0322-2222222") (or_none (strip ""))
         (strip "pw") Staff "2025-12-27 09:30:00"] /\
    blank "Omar" = false /\ blank "0322-2222222" = false /\ blank "pw" = false /\
    In uid (map user_id
              (select_staff_rows
                 (form_after shop_db
                    (page_staff_dashboard_create_user (fun s => s) shop_db "Omar"
                       "0322-2222222" "" Staff "pw" "2025-12-27 09:30:00")))) /\
    page_login (fun s => s) "0322-2222222" "pw"
      (form_after shop_db
         (page_staff_dashboard_create_user (fun s => s) shop_db "Omar" "0322-2222222"
            "" Staff "pw" "2025-12-27 09:30:00"))
    = Some (mk_session uid Staff, strip "Omar").
Proof.
  split.
  - apply (create_user_spec (fun s => s) shop_db "Omar" "   " "" Staff "pw"
             "2025-12-27 09:30:00"); [reflexivity|].
    right. left. reflexivity.
  - apply (create_user_spec (fun s => s) shop_db "Omar" "0322-2222222" "" Staff "pw"
             "2025-12-27 09:30:00"); [reflexivity|].
    vm_compute. reflexivity.
Defined.

(** ** The constraints of the schema, statement by statement *)

Lemma mem_z_snoc {A} (f : A -> Z) (l : list A) (r : A) (x : Z) :
  mem_z x (map f (l ++ [r])) = mem_z x (map f l) || (x =? f r).
Proof.
  unfold mem_z. rewrite map_app, existsb_app. cbn. now rewrite orb_false_r.
Qed.

Lemma mem_z_snoc_mono {A} (f : A -> Z) (l : list A) (r : A) (x : Z) :
  mem_z x (map f l) = true -> mem_z x (map f (l ++ [r])) = true.
Proof. intros H. now rewrite mem_z_snoc, H. Qed.

Lemma next_rowid_not_in {A} (key : A -> Z) (l : list A) (seq : Z) :
  ~ In (next_rowid key l seq) (map key l).
Proof.
  intros H. apply in_map_iff in H. destruct H as (r & E & Hr).
  exact (next_rowid_fresh key l seq r Hr E).
Qed.

Lemma NoDup_map_snoc {A B} (f : A -> B) (l : list A) (r : A) :
  NoDup (map f l) -> ~ In (f r) (map f l) -> NoDup (map f (l ++ [r])).
Proof.
  intros N H. rewrite map_app. cbn. apply NoDup_app; [exact N | |].
  - constructor; [intros [] | constructor].
  - intros a Ha [<-|[]]. contradiction.
Qed.

Lemma not_in_map_of_forall {A B} (f : A -> B) (l : list A) (b : B) :
  (forall x, In x l -> f x <> b) -> ~ In b (map f l).
Proof.
  intros H C. apply in_map_iff in C. destruct C as (x & E & Hx). exact (H x Hx E).
Qed.

Ltac known :=
  solve
    [ assumption
    | reflexivity
    | match goal with
      | |- has_user _ _ = true =>
          unfold has_user in *; cbn; apply mem_z_snoc_mono; assumption
      | |- has_vehicle _ _ = true =>
          unfold has_vehicle in *; cbn; apply mem_z_snoc_mono; assumption
      | |- has_package _ _ = true =>
          unfold has_package in *; cbn; apply mem_z_snoc_mono; assumption
      | |- has_stage _ _ = true =>
          unfold has_stage in *; cbn; apply mem_z_snoc_mono; assumption
      | |- has_booking _ _ = true =>
          unfold has_booking in *; cbn; apply mem_z_snoc_mono; assumption
      end ].

(** The five goals of [grows] after a statement that appends to one table
    or leaves the id columns alone. *)
Ltac growing := repeat split; intros x Hx; known.

Lemma grows_refl db : grows db db.
Proof. repeat split; auto. Qed.

Lemma grows_trans d1 d2 d3 : grows d1 d2 -> grows d2 d3 -> grows d1 d3.
Proof.
  intros (A1 & A2 & A3 & A4 & A5) (B1 & B2 & B3 & B4 & B5).
  repeat split; auto.
Qed.

(** Rows whose references held keep them when the tables grow; so the
    foreign keys hold after a statement once they hold for the rows it
    touched. *)
Lemma references_step db db' :
  grows db db' -> references_valid db ->
  (forall v, In v (vehicles db') -> In v (vehicles db) \/ vehicle_refs db' v) ->
  (forall b, In b (bookings db') -> In b (bookings db) \/ booking_refs db' b) ->
  (forall h, In h (booking_stage_history db') ->
             In h (booking_stage_history db) \/ history_refs db' h) ->
  (forall a, In a (booking_staff_assignment db') ->
             In a (booking_staff_assignment db) \/ assignment_refs db' a) ->
  (forall p, In p (payments db') -> In p (payments db) \/ payment_refs db' p) ->
  references_valid db'.
Proof.
  intros (G1 & G2 & G3 & G4 & G5) (R1 & R2 & R3 & R4 & R5) V B H A P.
  split; [|split; [|split; [|split]]].
  - intros v Hv. destruct (V v Hv) as [Hv'|Hv']; [|exact Hv'].
    specialize (R1 v Hv'). unfold vehicle_refs in *. auto.
  - intros b Hb. destruct (B b Hb) as [Hb'|Hb']; [|exact Hb'].
    destruct (R2 b Hb') as (A1 & A2 & A3 & A4).
    unfold booking_refs. repeat split; auto.
  - intros h Hh. destruct (H h Hh) as [Hh'|Hh']; [|exact Hh'].
    destruct (R3 h Hh') as (A1 & A2 & A3). unfold history_refs. auto.
  - intros a Ha. destruct (A a Ha) as [Ha'|Ha']; [|exact Ha'].
    destruct (R4 a Ha') as (A1 & A2). unfold assignment_refs. auto.
  - intros p Hp. destruct (P p Hp) as [Hp'|Hp']; [|exact Hp'].
    specialize (R5 p Hp'). unfold payment_refs in *. auto.
Qed.

Lemma in_snoc {A} (l : list A) (r x : A) : In x (l ++ [r]) -> In x l \/ x = r.
Proof.
  intros H. apply in_app_or in H. destruct H as [H|[H|[]]]; auto.
Qed.

Lemma insert_user_schema nm ph em pw rl t :
  preserves schema_holds (insert_user nm ph em pw rl t).
Proof.
  intros db rid db' H (K & R & C).
  apply insert_user_inv in H. destruct H as (Hrid & Hp & He & ->).
  destruct K as (K1 & K2 & K3 & K4 & K5 & K6 & K7 & K8 & K9 & K10 & K11 & K12 & K13 & K14 & K15).
  split; [|split; [|exact C]].
  - repeat split; try assumption; cbn [users with_users].
    + apply NoDup_map_snoc; [exact K1|]. cbn. rewrite Hrid. apply next_rowid_not_in.
    + apply NoDup_map_snoc; [exact K2|]. cbn. now apply not_in_map_of_forall.
    + unfold emails_of in *. rewrite flat_map_app. cbn. rewrite app_nil_r.
      destruct em as [e|]; [|now rewrite app_nil_r].
      apply NoDup_app; [exact K15 | repeat constructor; intros [] |].
      intros a Ha [<-|[]]. apply in_flat_map in Ha. destruct Ha as (x & Hx & Hin).
      destruct (email x) as [e'|] eqn:Ex; [|destruct Hin].
      destruct Hin as [<-|[]]. exact (He x e' Hx Ex eq_refl).
  - apply (references_step db); [growing | exact R | | | | |]; intros x Hx; now left.
Qed.

Lemma insert_vehicle_schema cust plate mk md cl vt :
  preserves schema_holds (insert_vehicle cust plate mk md cl vt).
Proof.
  intros db rid db' H (K & R & C).
  apply insert_vehicle_inv in H. destruct H as (Hrid & Hp & Hu & ->).
  destruct K as (K1 & K2 & K3 & K4 & K5 & K6 & K7 & K8 & K9 & K10 & K11 & K12 & K13 & K14 & K15).
  split; [|split; [|exact C]].
  - repeat split; try assumption; cbn [vehicles with_vehicles].
    + apply NoDup_map_snoc; [exact K3|]. cbn. rewrite Hrid. apply next_rowid_not_in.
    + apply NoDup_map_snoc; [exact K4|]. cbn. now apply not_in_map_of_forall.
  - apply (references_step db); [growing | exact R | | | | |]; intros x Hx;
      try (now left).
    cbn in Hx. apply in_snoc in Hx. destruct Hx as [Hx| ->]; [now left|].
    right. exact Hu.
Qed.

Lemma insert_package_schema nm pr dur act :
  preserves schema_holds (insert_package nm pr dur act).
Proof.
  intros db rid db' H (K & R & C).
  apply insert_package_inv in H. destruct H as (Hrid & Hn & Hpr & Hdur & ->).
  destruct K as (K1 & K2 & K3 & K4 & K5 & K6 & K7 & K8 & K9 & K10 & K11 & K12 & K13 & K14 & K15).
  destruct C as (C1 & C2 & C3).
  split; [|split].
  - repeat split; try assumption; cbn [packages with_packages].
    + apply NoDup_map_snoc; [exact K5|]. cbn. rewrite Hrid. apply next_rowid_not_in.
    + apply NoDup_map_snoc; [exact K6|]. cbn. now apply not_in_map_of_forall.
  - apply (references_step db); [growing | exact R | | | | |]; intros x Hx; now left.
  - split; [exact C1|]. split; [|exact C3].
    intros p Hp. cbn in Hp. apply in_snoc in Hp. destruct Hp as [Hp| ->]; [auto|].
    cbn. auto.
Qed.

Lemma insert_stage_schema nm ord :
  preserves schema_holds (insert_stage nm ord).
Proof.
  intros db rid db' H (K & R & C).
  apply insert_stage_inv in H. destruct H as (Hrid & Hn & Hord & ->).
  destruct K as (K1 & K2 & K3 & K4 & K5 & K6 & K7 & K8 & K9 & K10 & K11 & K12 & K13 & K14 & K15).
  destruct C as (C1 & C2 & C3).
  split; [|split].
  - repeat split; try assumption; cbn [service_stages with_stages].
    + apply NoDup_map_snoc; [exact K7|]. cbn. rewrite Hrid. apply next_rowid_not_in.
    + apply NoDup_map_snoc; [exact K8|]. cbn. apply not_in_map_of_forall.
      intros s Hs. now apply Hn.
    + apply NoDup_map_snoc; [exact K9|]. cbn. apply not_in_map_of_forall.
      intros s Hs. now apply Hn.
  - apply (references_step db); [growing | exact R | | | | |]; intros x Hx; now left.
  - split; [|split; assumption].
    intros s Hs. cbn in Hs. apply in_snoc in Hs. destruct Hs as [Hs| ->]; [auto|].
    exact Hord.
Qed.

Lemma insert_booking_inv cust veh pkg bdt sched st cs nt db rid db' :
  insert_booking cust veh pkg bdt sched st cs nt db = inr (rid, db') ->
  rid = next_rowid booking_id (bookings db) (seq_bookings (sqlite_sequence db)) /\
  booking_refs db (mk_booking rid cust veh pkg bdt sched st cs nt) /\
  db' = with_bookings db
          (bookings db ++ [mk_booking rid cust veh pkg bdt sched st cs nt]) rid.
Proof.
  unfold insert_booking.
  destruct (has_user db cust) eqn:E1; [|discriminate].
  destruct (has_vehicle db veh) eqn:E2; [|discriminate].
  destruct (has_package db pkg) eqn:E3; [|discriminate].
  destruct (match cs with Some s => has_stage db s | None => true end) eqn:E4;
    [|discriminate].
  cbn. intros H. injection H as <- <-.
  split; [reflexivity|]. split; [|reflexivity].
  unfold booking_refs. cbn. repeat split; auto.
  intros s ->. exact E4.
Qed.

Lemma insert_payment_inv bid amt m ps pa db rid db' :
  insert_payment bid amt m ps pa db = inr (rid, db') ->
  rid = next_rowid payment_id (payments db) (seq_payments (sqlite_sequence db)) /\
  has_booking db bid = true /\
  ~ In bid (map p_booking_id (payments db)) /\
  PrimFloat.leb 0%float amt = true /\
  db' = with_payments db (payments db ++ [mk_payment rid bid amt m ps pa]) rid.
Proof.
  unfold insert_payment.
  destruct (has_booking db bid) eqn:E1; [|discriminate].
  destruct (mem_z bid (map p_booking_id (payments db))) eqn:E2; [discriminate|].
  destruct (PrimFloat.leb 0 amt) eqn:E3; [|discriminate].
  cbn. intros H. injection H as <- <-.
  apply mem_z_false in E2. auto.
Qed.

Lemma insert_history_inv bid sid t0 t1 staff db rid db' :
  insert_history bid sid t0 t1 staff db = inr (rid, db') ->
  rid = next_rowid history_id (booking_stage_history db)
          (seq_history (sqlite_sequence db)) /\
  history_refs db (mk_history rid bid sid t0 t1 staff) /\
  db' = with_history db
          (booking_stage_history db ++ [mk_history rid bid sid t0 t1 staff]) rid.
Proof.
  unfold insert_history.
  destruct (has_booking db bid) eqn:E1; [|discriminate].
  destruct (has_stage db sid) eqn:E2; [|discriminate].
  destruct (has_user db staff) eqn:E3; [|discriminate].
  cbn. intros H. injection H as <- <-.
  unfold history_refs. cbn. auto.
Qed.

Lemma insert_assignment_inv bid sid t db u db' :
  insert_assignment bid sid t db = inr (u, db') ->
  (forall a, In a (booking_staff_assignment db) ->
             (a_booking_id a, a_staff_id a) <> (bid, sid)) /\
  assignment_refs db (mk_assignment bid sid t) /\
  db' = with_assignments db
          (booking_staff_assignment db ++ [mk_assignment bid sid t]).
Proof.
  unfold insert_assignment.
  destruct (existsb (assigned bid sid) (booking_staff_assignment db)) eqn:E1;
    [discriminate|].
  destruct (has_booking db bid) eqn:E2; [|discriminate].
  destruct (has_user db sid) eqn:E3; [|discriminate].
  cbn. intros H. injection H as _ <-.
  split; [|split; [unfold assignment_refs; cbn; auto | reflexivity]].
  intros a Ha C. injection C as C1 C2.
  assert (X : existsb (assigned bid sid) (booking_staff_assignment db) = true).
  { apply existsb_exists. exists a. split; [exact Ha|].
    unfold assigned. rewrite C1, C2, !Z.eqb_refl. reflexivity. }
  congruence.
Qed.

Lemma insert_booking_schema cust veh pkg bdt sched st cs nt :
  preserves schema_holds (insert_booking cust veh pkg bdt sched st cs nt).
Proof.
  intros db rid db' H (K & R & C).
  apply insert_booking_inv in H. destruct H as (Hrid & (B1 & B2 & B3 & B4) & ->).
  destruct K as (K1 & K2 & K3 & K4 & K5 & K6 & K7 & K8 & K9 & K10 & K11 & K12 & K13 & K14 & K15).
  split; [|split; [|exact C]].
  - repeat split; try assumption; cbn [bookings with_bookings].
    apply NoDup_map_snoc; [exact K10|]. cbn. rewrite Hrid. apply next_rowid_not_in.
  - apply (references_step db); [growing | exact R | | | | |]; intros x Hx;
      try (now left).
    cbn in Hx. apply in_snoc in Hx. destruct Hx as [Hx| ->]; [now left|].
    right. unfold booking_refs. cbn in *. repeat split; auto.
Qed.

Lemma insert_payment_schema bid amt m ps pa :
  preserves schema_holds (insert_payment bid amt m ps pa).
Proof.
  intros db rid db' H (K & R & C).
  apply insert_payment_inv in H. destruct H as (Hrid & Hb & Hfresh & Hamt & ->).
  destruct K as (K1 & K2 & K3 & K4 & K5 & K6 & K7 & K8 & K9 & K10 & K11 & K12 & K13 & K14 & K15).
  destruct C as (C1 & C2 & C3).
  split; [|split].
  - repeat split; try assumption; cbn [payments with_payments].
    + apply NoDup_map_snoc; [exact K12|]. cbn. rewrite Hrid. apply next_rowid_not_in.
    + apply NoDup_map_snoc; [exact K13|]. exact Hfresh.
  - apply (references_step db); [growing | exact R | | | | |]; intros x Hx;
      try (now left).
    cbn in Hx. apply in_snoc in Hx. destruct Hx as [Hx| ->]; [now left|].
    right. exact Hb.
  - split; [exact C1|]. split; [exact C2|].
    intros p Hp. cbn in Hp. apply in_snoc in Hp. destruct Hp as [Hp| ->]; [auto|].
    exact Hamt.
Qed.

Lemma insert_history_schema bid sid t0 t1 staff :
  preserves schema_holds (insert_history bid sid t0 t1 staff).
Proof.
  intros db rid db' H (K & R & C).
  apply insert_history_inv in H. destruct H as (Hrid & Hrefs & ->).
  destruct K as (K1 & K2 & K3 & K4 & K5 & K6 & K7 & K8 & K9 & K10 & K11 & K12 & K13 & K14 & K15).
  split; [|split; [|exact C]].
  - repeat split; try assumption; cbn [booking_stage_history with_history].
    apply NoDup_map_snoc; [exact K11|]. cbn. rewrite Hrid. apply next_rowid_not_in.
  - apply (references_step db); [growing | exact R | | | | |]; intros x Hx;
      try (now left).
    cbn in Hx. apply in_snoc in Hx. destruct Hx as [Hx| ->]; [now left|].
    right. exact Hrefs.
Qed.

Lemma insert_assignment_schema bid sid t :
  preserves schema_holds (insert_assignment bid sid t).
Proof.
  intros db u db' H (K & R & C).
  apply insert_assignment_inv in H. destruct H as (Hfresh & Hrefs & ->).
  destruct K as (K1 & K2 & K3 & K4 & K5 & K6 & K7 & K8 & K9 & K10 & K11 & K12 & K13 & K14 & K15).
  split; [|split; [|exact C]].
  - repeat split; try assumption; cbn [booking_staff_assignment with_assignments].
    apply NoDup_map_snoc; [exact K14|]. cbn. now apply not_in_map_of_forall.
  - apply (references_step db); [growing | exact R | | | | |]; intros x Hx;
      try (now left).
    cbn in Hx. apply in_snoc in Hx. destruct Hx as [Hx| ->]; [now left|].
    right. exact Hrefs.
Qed.

Lemma map_key_update {A B} (key : A -> B) (c : A -> bool) (g : A -> A) (l : list A) :
  (forall a, key (g a) = key a) ->
  map key (map (fun a => if c a then g a else a) l) = map key l.
Proof.
  intros Hg. rewrite map_map. apply map_ext. intros a.
  destruct (c a); [apply Hg | reflexivity].
Qed.

Lemma close_history_schema t bid sid :
  preserves schema_holds (close_history t bid sid).
Proof.
  intros db u db' H (K & R & C). unfold close_history in H. injection H as _ <-.
  destruct K as (K1 & K2 & K3 & K4 & K5 & K6 & K7 & K8 & K9 & K10 & K11 & K12 & K13 & K14 & K15).
  split; [|split; [|exact C]].
  - repeat split; try assumption; cbn [booking_stage_history with_history].
    rewrite (map_key_update history_id); [exact K11 | reflexivity].
  - apply (references_step db); [growing | exact R | | | | |]; intros x Hx;
      try (now left).
    cbn in Hx. apply in_map_iff in Hx. destruct Hx as (h & <- & Hh).
    destruct (open_at bid sid h); [|now left].
    right. destruct R as (_ & _ & R3 & _). exact (R3 h Hh).
Qed.

Lemma update_booking_schema sid st bid :
  preserves schema_holds (update_booking sid st bid).
Proof.
  intros db u db' H (K & R & C). unfold update_booking in H.
  destruct (has_booking db bid && negb (has_stage db sid)) eqn:E; [discriminate|].
  injection H as _ <-.
  destruct K as (K1 & K2 & K3 & K4 & K5 & K6 & K7 & K8 & K9 & K10 & K11 & K12 & K13 & K14 & K15).
  assert (G : grows db
                (with_bookings db
                   (map (fun b => if booking_id b =? bid
                                  then set_stage_status b sid st else b)
                      (bookings db))
                   (seq_bookings (sqlite_sequence db)))).
  { repeat split; intros x Hx; try assumption.
    unfold has_booking in *. cbn. now rewrite map_booking_id_update. }
  split; [|split; [|exact C]].
  - repeat split; try assumption; cbn [bookings with_bookings].
    now rewrite map_booking_id_update.
  - apply (references_step db); [exact G | exact R | | | | |]; intros x Hx;
      try (now left).
    cbn in Hx. apply in_map_iff in Hx. destruct Hx as (b & <- & Hb).
    destruct (booking_id b =? bid) eqn:Eb; [|now left].
    right. destruct R as (_ & R2 & _). destruct (R2 b Hb) as (A1 & A2 & A3 & _).
    unfold booking_refs. cbn. repeat split; try assumption.
    intros s Hs. injection Hs as <-.
    assert (Hhb : has_booking db bid = true).
    { apply Z.eqb_eq in Eb. subst bid. unfold has_booking.
      apply mem_z_In. now apply in_map. }
    rewrite Hhb in E. cbn in E.
    destruct (has_stage db sid) eqn:S; [exact S | discriminate].
Qed.

Lemma update_payment_schema m ps pa bid :
  preserves schema_holds (update_payment m ps pa bid).
Proof.
  intros db u db' H (K & R & C). unfold update_payment in H. injection H as _ <-.
  destruct K as (K1 & K2 & K3 & K4 & K5 & K6 & K7 & K8 & K9 & K10 & K11 & K12 & K13 & K14 & K15).
  destruct C as (C1 & C2 & C3).
  split; [|split].
  - repeat split; try assumption; cbn [payments with_payments].
    + rewrite (map_key_update payment_id); [exact K12 | reflexivity].
    + rewrite (map_key_update p_booking_id); [exact K13 | reflexivity].
  - apply (references_step db); [growing | exact R | | | | |]; intros x Hx;
      try (now left).
    cbn in Hx. apply in_map_iff in Hx. destruct Hx as (p & <- & Hp).
    destruct (p_booking_id p =? bid); [|now left].
    right. destruct R as (_ & _ & _ & _ & R5). exact (R5 p Hp).
  - split; [exact C1|]. split; [exact C2|].
    intros p Hp. cbn in Hp. apply in_map_iff in Hp. destruct Hp as (p0 & <- & Hp0).
    destruct (p_booking_id p0 =? bid); cbn; auto.
Qed.

(** ** The constraints of the schema, handler by handler *)

Lemma preserves_ret {A} P (a : A) : preserves P (ret a).
Proof. intros db x db' H. unfold ret in H. now injection H as _ <-. Qed.

Lemma preserves_raise {A} P e : preserves P (@raise A e).
Proof. intros db x db' H. discriminate. Qed.

Lemma preserves_query {A} P (f : database -> A) : preserves P (query f).
Proof. intros db x db' H. unfold query in H. now injection H as _ <-. Qed.

Lemma preserves_bind {A B} P (m : M A) (k : A -> M B) :
  preserves P m -> (forall a, preserves P (k a)) -> preserves P (bind m k).
Proof.
  intros Hm Hk db b db' H HP. apply bind_inv in H.
  destruct H as (a & d & H1 & H2). exact (Hk a d b db' H2 (Hm db a d H1 HP)).
Qed.

Lemma preserves_fetchone_0 {A} P (row : option A) : preserves P (fetchone_0 row).
Proof. destruct row; [apply preserves_ret | apply preserves_raise]. Qed.

Lemma preserves_dict_getitem P d k : preserves P (dict_getitem d k).
Proof.
  unfold dict_getitem. destruct (dict_get d k);
    [apply preserves_ret | apply preserves_raise].
Qed.

Lemma preserves_try_pass_integrity P (m : M unit) :
  preserves P m -> preserves P (try_pass_integrity m).
Proof.
  intros Hm db x db' H HP. unfold try_pass_integrity in H.
  destruct (m db) as [e|[u d]] eqn:E.
  - destruct e; try discriminate. now injection H as _ <-.
  - injection H as _ <-. exact (Hm db u d E HP).
Qed.

Lemma preserves_executemany {A B} P (stmt : A -> M B) rows :
  (forall r, preserves P (stmt r)) -> preserves P (executemany stmt rows).
Proof.
  intros Hs. induction rows as [|r rows IH]; cbn.
  - apply preserves_ret.
  - apply preserves_bind; [apply Hs | intros _; exact IH].
Qed.

Ltac preserving :=
  repeat first
    [ apply preserves_ret | apply preserves_raise | apply preserves_query
    | apply preserves_fetchone_0 | apply preserves_dict_getitem
    | apply insert_user_schema | apply insert_vehicle_schema
    | apply insert_package_schema | apply insert_stage_schema
    | apply insert_booking_schema | apply insert_payment_schema
    | apply insert_history_schema | apply insert_assignment_schema
    | apply close_history_schema | apply update_booking_schema
    | apply update_payment_schema
    | apply preserves_try_pass_integrity
    | apply preserves_executemany; intros
    | apply preserves_bind; [|intros]
    | match goal with
      | |- preserves _ (if ?c then _ else _) => destruct c
      | |- preserves _ (match ?c with Some _ => _ | None => _ end) => destruct c
      | |- preserves _ (match ?r with (_, _) => _ end) => destruct r
      end ].

Lemma init_db_schema t0 : preserves schema_holds (init_db t0).
Proof. unfold init_db. preserving. Qed.

Lemma create_booking_click_schema user v p sched nt now :
  preserves schema_holds (create_booking_click user v p sched nt now).
Proof. unfold create_booking_click. preserving. Qed.

Lemma update_stage_click_schema bid cs smap nm ep staff t1 t2 :
  preserves schema_holds (update_stage_click bid cs smap nm ep staff t1 t2).
Proof. unfold update_stage_click. preserving. Qed.

Lemma save_assignment_click_schema bsel chosen :
  preserves schema_holds (save_assignment_click bsel chosen).
Proof.
  induction chosen as [|[sid t] rest IH]; cbn.
  - apply preserves_ret.
  - apply preserves_bind; [preserving | intros _; exact IH].
Qed.

Lemma commit_schema {A} (m : M A) db :
  preserves schema_holds m -> schema_holds db -> schema_holds (db_after db (commit m db)).
Proof.
  intros Hm HP. unfold commit. destruct (m db) as [e|[a d]] eqn:E; [exact HP|].
  cbn. exact (Hm db a d E HP).
Qed.

Lemma try_form_schema {A} (m : M A) prefix db :
  preserves schema_holds m -> schema_holds db ->
  schema_holds (form_after db (try_form m prefix db)).
Proof.
  intros Hm HP. unfold try_form. destruct (m db) as [e|[a d]] eqn:E.
  - destruct e; exact HP.
  - cbn. exact (Hm db a d E HP).
Qed.

Lemma page_schema db u c : schema_holds db -> schema_holds (page db u c).
Proof.
  intros HP. unfold page.
  destruct c as [v p sch nt now | b nm ep t1 t2 | bsel chosen | bsel m s now].
  - destruct (s_role u); try exact HP. unfold page_customer_dashboard.
    repeat (match goal with |- context [if ?c then _ else _] => destruct c end;
            try exact HP).
    apply commit_schema; [apply create_booking_click_schema | exact HP].
  - assert (G : schema_holds
                  (db_after db (page_staff_dashboard_update_stage db (s_user_id u)
                                  b nm ep t1 t2))).
    { unfold page_staff_dashboard_update_stage.
      destruct (is_nil _); [exact HP|]. destruct (negb _); [exact HP|].
      destruct (select_current db b) as [[cs st]|]; [|exact HP].
      destruct (is_nil _); [exact HP|]. destruct (negb _); [exact HP|].
      apply commit_schema; [apply update_stage_click_schema | exact HP]. }
    destruct (s_role u); [exact HP | exact G | exact G].
  - assert (G : schema_holds
                  (db_after db (page_staff_dashboard_save_assignment db bsel chosen))).
    { unfold page_staff_dashboard_save_assignment.
      destruct (is_nil _); [exact HP|]. destruct (negb _); [exact HP|].
      destruct (negb _); [exact HP|]. destruct (negb _); [exact HP|].
      apply commit_schema; [apply save_assignment_click_schema | exact HP]. }
    destruct (s_role u); [exact HP | exact G | exact G].
  - assert (G : schema_holds
                  (db_after db (page_staff_dashboard_update_payment db bsel m s now))).
    { unfold page_staff_dashboard_update_payment.
      destruct (is_nil _); [exact HP|]. destruct (negb _); [exact HP|].
      destruct (negb _); [exact HP|].
      destruct (find_payment db bsel); [|exact HP].
      apply commit_schema; [apply update_payment_schema | exact HP]. }
    destruct (s_role u); [exact HP | exact G | exact G].
Qed.

Lemma page_press_schema hash db p :
  schema_holds db -> schema_holds (page_press hash db p).
Proof.
  intros HP. destruct p as [u c | nm ph em pw cf now | u plate mk md cl vt
                            | u n pr dm active | u nm ph em rl pw now]; cbn.
  - now apply page_schema.
  - unfold page_register. destruct (negb _); [exact HP|].
    unfold register_customer.
    destruct (insert_user _ _ _ _ _ _ db) as [e|[rid d]] eqn:E; [exact HP|].
    cbn. exact (insert_user_schema _ _ _ _ _ _ db rid d E HP).
  - destruct (s_role u); try exact HP.
    unfold page_customer_dashboard_save_vehicle.
    apply try_form_schema; [apply insert_vehicle_schema | exact HP].
  - destruct (s_role u); try exact HP;
      unfold page_staff_dashboard_create_package;
      (destruct (_ || _); [exact HP|]);
      (apply try_form_schema; [apply insert_package_schema | exact HP]).
  - destruct (s_role u); try exact HP;
      unfold page_staff_dashboard_create_user;
      (destruct (negb (is_staff_role rl)); [exact HP|]);
      (destruct (negb _); [exact HP|]);
      (apply try_form_schema; [apply insert_user_schema | exact HP]).
Qed.

Lemma main_press_schema hash db t0 p :
  schema_holds db -> schema_holds (main_press hash db t0 p).
Proof.
  intros HP. unfold main_press.
  destruct (init_db t0 db) as [e|[u d]] eqn:E; [exact HP|].
  apply page_press_schema. exact (init_db_schema t0 db u d E HP).
Qed.

Lemma presses_schema hash l : forall db,
  schema_holds db -> schema_holds (presses hash db l).
Proof.
  unfold presses. induction l as [|[t0 p] l IH]; intros db HP; [exact HP|].
  cbn [fold_left]. apply IH. now apply main_press_schema.
Qed.

Lemma schema_holds_empty : schema_holds empty_db.
Proof.
  split; [|split].
  - unfold keys_unique. cbn. repeat split; apply NoDup_nil.
  - unfold references_valid. cbn. split; [|split; [|split; [|split]]]; intros x [].
  - unfold checks_hold. cbn. split; [|split]; intros x [].
Qed.

(** X13: the PRIMARY KEY, UNIQUE, FOREIGN KEY and CHECK constraints of the
    schema hold after every sequence of runs that starts from a database
    in which they hold, such as the empty one: no INSERT or UPDATE of the
    program, committed or swallowed, leaves a duplicate key, a dangling
    reference or an out-of-range value behind. *)
Theorem schema_constraints_invariant :
  forall hash db l,
    schema_holds db ->
    keys_unique (presses hash db l) /\
    references_valid (presses hash db l) /\
    checks_hold (presses hash db l).
Proof.
  intros hash db l H. exact (presses_schema hash l db H).
Qed.

Lemma schema_constraints_invariant_witness :
  keys_unique (presses (fun s => s) empty_db morning) /\
  references_valid (presses (fun s => s) empty_db morning) /\
  checks_hold (presses (fun s => s) empty_db morning).
Proof.
  apply (schema_constraints_invariant (fun s => s) empty_db morning).
  exact schema_holds_empty.
Defined.

(** ** The gates of "Create Booking", in full *)

Lemma seed_stages_inserted db d1 :
  service_stages db = [] ->
  executemany (fun r => insert_stage (fst r) (snd r)) seed_stages db = inr (tt, d1) ->
  map (fun s => (stage_name s, stage_order s)) (service_stages d1) = seed_stages.
Proof.
  intros E H. unfold seed_stages in H. cbn [executemany fst snd] in H.
  apply bind_inv in H. destruct H as (r1 & x1 & H1 & H).
  apply insert_stage_inv in H1. destruct H1 as (_ & _ & _ & ->).
  apply bind_inv in H. destruct H as (r2 & x2 & H2 & H).
  apply insert_stage_inv in H2. destruct H2 as (_ & _ & _ & ->).
  apply bind_inv in H. destruct H as (r3 & x3 & H3 & H).
  apply insert_stage_inv in H3. destruct H3 as (_ & _ & _ & ->).
  apply bind_inv in H. destruct H as (r4 & x4 & H4 & H).
  apply insert_stage_inv in H4. destruct H4 as (_ & _ & _ & ->).
  unfold ret in H. injection H as <-.
  cbn [service_stages with_stages]. rewrite E. reflexivity.
Qed.

(** The stage table after a completed [init_db]: the four default stages
    if it was empty, and what it was otherwise. *)
Lemma init_db_stage_table t0 db u db1 :
  init_db t0 db = inr (u, db1) ->
  (service_stages db = [] ->
   map (fun s => (stage_name s, stage_order s)) (service_stages db1) = seed_stages) /\
  (service_stages db <> [] -> service_stages db1 = service_stages db).
Proof.
  intros H. destruct (init_db_steps _ _ _ _ H) as (d1 & d2 & S1 & S2 & S3).
  assert (E2 : service_stages d2 = service_stages d1).
  { destruct (is_nil (packages d1)); [|now subst d2].
    apply executemany_insert_package_nonempty in S2; [tauto | discriminate]. }
  assert (E3 : service_stages db1 = service_stages d2).
  { destruct (is_nil (filter _ (users d2))); [|now subst db1].
    destruct S3 as [rid S3]. now apply insert_user_stages in S3. }
  rewrite E3, E2. split.
  - intros E. rewrite E in S1. cbn [is_nil] in S1.
    now apply (seed_stages_inserted db).
  - intros N. destruct (service_stages db) eqn:E; [congruence|].
    cbn [is_nil] in S1. subst d1. exact E.
Qed.

Lemma create_gate_not_offered db user v p sched nt now :
  is_nil (select_vehicles_of db user) = false ->
  is_nil (get_active_packages db) = false ->
  vehicle_unavailable db user v \/ package_unavailable db p ->
  page_customer_dashboard db user v p sched nt now = NotOffered.
Proof.
  intros Hv Hp H. unfold page_customer_dashboard. rewrite Hv, Hp.
  destruct H as [H|H].
  - now rewrite (vehicle_unavailable_not_listed _ _ _ H).
  - rewrite (package_unavailable_not_listed _ _ H).
    now destruct (mem_z v _).
Qed.

(** C6 (amended): the page never runs the insert for a vehicle that is
    missing or not the customer's, nor for a package that is missing or
    switched off, and raises no error for them.  A customer with no
    vehicle on file gets the warning "Add a vehicle first to create a
    booking."; otherwise, when no package is active, the warning "No
    packages available." is shown; otherwise such a vehicle or package is
    not among the options.  In these cases and on an empty stage catalog
    nothing is committed, so no booking and no payment row appears; on an
    empty stage catalog a press with an offered vehicle and package stops
    with an uncaught [TypeError] before any insert.  Whenever [init_db], which runs before every page, completes, the stage
    table is not empty: it holds the four default stages if it was empty,
    and is unchanged otherwise. *)
Theorem create_booking_is_gated :
  forall db user v p sched nt now,
    (is_nil (select_vehicles_of db user) = true ->
     page_customer_dashboard db user v p sched nt now
     = Notice Warning "Add a vehicle first to create a booking.") /\
    (is_nil (select_vehicles_of db user) = false ->
     is_nil (get_active_packages db) = true ->
     page_customer_dashboard db user v p sched nt now
     = Notice Warning "No packages available.") /\
    (is_nil (select_vehicles_of db user) = false ->
     is_nil (get_active_packages db) = false ->
     vehicle_unavailable db user v \/ package_unavailable db p ->
     page_customer_dashboard db user v p sched nt now = NotOffered) /\
    (vehicle_unavailable db user v \/ package_unavailable db p \/
     service_stages db = [] ->
       (forall bid db',
          page_customer_dashboard db user v p sched nt now <> Committed bid db') /\
       db_after db (page_customer_dashboard db user v p sched nt now) = db) /\
    (service_stages db = [] ->
     mem_z v (map vehicle_id (select_vehicles_of db user)) = true ->
     mem_z p (map package_id (get_active_packages db)) = true ->
     page_customer_dashboard db user v p sched nt now = Uncaught TypeError) /\
    (forall t0 u db1, init_db t0 db = inr (u, db1) ->
       service_stages db1 <> [] /\
       (service_stages db = [] ->
        map (fun s => (stage_name s, stage_order s)) (service_stages db1)
        = seed_stages) /\
       (service_stages db <> [] -> service_stages db1 = service_stages db)).
Proof.
  intros db user v p sched nt now.
  assert (NC : vehicle_unavailable db user v \/ package_unavailable db p \/
               service_stages db = [] ->
               forall bid db',
                 page_customer_dashboard db user v p sched nt now <> Committed bid db').
  { intros [H|[H|H]] bid db' E.
    - destruct (create_gate_outcome db user v p sched nt now (or_introl H))
        as [G|[msg G]]; rewrite G in E; discriminate.
    - destruct (create_gate_outcome db user v p sched nt now (or_intror H))
        as [G|[msg G]]; rewrite G in E; discriminate.
    - exact (create_on_empty_catalog db user v p sched nt now H bid db' E). }
  split; [|split; [|split; [|split; [|split]]]].
  - intros Hv. unfold page_customer_dashboard. now rewrite Hv.
  - intros Hv Hp. unfold page_customer_dashboard. now rewrite Hv, Hp.
  - apply create_gate_not_offered.
  - intros H. split; [now apply NC | apply db_after_not_committed; now apply NC].
  - intros E Hv Hp. unfold page_customer_dashboard. rewrite Hv, Hp.
    destruct (select_vehicles_of db user); [discriminate Hv|].
    destruct (get_active_packages db); [discriminate Hp|].
    cbn [is_nil negb]. unfold commit, create_booking_click, bind, query.
    unfold select_first_stage. rewrite E. reflexivity.
  - intros t0 u db1 H. split; [exact (init_db_stages_nonempty _ _ _ _ H)|].
    exact (init_db_stage_table _ _ _ _ H).
Qed.

Lemma create_booking_is_gated_witness :
  page_customer_dashboard no_vehicle_db 2 1 1 "" "" "2025-12-27 10:00:00"
  = Notice Warning "Add a vehicle first to create a booking." /\
  page_customer_dashboard closed_shop_db 2 1 1 "" "" "2025-12-27 10:00:00"
  = Notice Warning "No packages available." /\
  page_customer_dashboard shop_db 2 99 1 "" "" "2025-12-27 10:00:00" = NotOffered /\
  ((forall bid db',
      page_customer_dashboard shop_db 2 99 1 "" "" "2025-12-27 10:00:00"
      <> Committed bid db') /\
   db_after shop_db
     (page_customer_dashboard shop_db 2 99 1 "" "" "2025-12-27 10:00:00") = shop_db) /\
  page_customer_dashboard (with_stages shop_db [] 4) 2 1 1 "" "" "2025-12-27 10:00:00"
  = Uncaught TypeError /\
  (service_stages seeded_db <> [] /\
   (service_stages empty_db = [] ->
    map (fun s => (stage_name s, stage_order s)) (service_stages seeded_db)
    = seed_stages) /\
   (service_stages empty_db <> [] -> service_stages seeded_db = service_stages empty_db)).
Proof.
  assert (U : vehicle_unavailable shop_db 2 99).
  { intros r [<-|[]] E. vm_compute in E. discriminate. }
  split; [|split; [|split; [|split; [|split]]]].
  - apply (create_booking_is_gated no_vehicle_db 2 1 1 "" "" "2025-12-27 10:00:00").
    vm_compute. reflexivity.
  - apply (create_booking_is_gated closed_shop_db 2 1 1 "" "" "2025-12-27 10:00:00");
      vm_compute; reflexivity.
  - apply (create_booking_is_gated shop_db 2 99 1 "" "" "2025-12-27 10:00:00");
      [vm_compute; reflexivity | vm_compute; reflexivity | now left].
  - apply (create_booking_is_gated shop_db 2 99 1 "" "" "2025-12-27 10:00:00").
    now left.
  - apply (create_booking_is_gated (with_stages shop_db [] 4) 2 1 1 "" ""
             "2025-12-27 10:00:00"); vm_compute; reflexivity.
  - destruct (create_booking_is_gated empty_db 2 1 1 "" "" "2025-12-27 10:00:00")
      as (_ & _ & _ & _ & _ & I).
    apply (I "2025-12-27 09:00:00" tt seeded_db). vm_compute. reflexivity.
Defined.
